(** * Chemical-Process-Design-Agent: specification checking, result parsing
      and simulation orchestration, embedded from the Python sources

    - [src/models/specifications.py]  ProductSpecification
    - [src/models/materials.py]       RawMaterial
    - [src/aspen/parser.py]           SimulationResultParser
    - [src/aspen/interface.py]        AspenPlusInterface
    - [src/aspen/simulation.py]       ProcessSimulation

    Python numbers are modelled as rationals [Q]: every finite float and every
    int is a rational and their comparisons are the exact ones; arithmetic is
    the exact one (no rounding, no NaN, no infinities).  Strings are byte
    strings.  A Python dict is an association list in insertion order whose
    keys are pairwise distinct ([wf_dict]). *)

From Stdlib Require Import List String Ascii Bool Arith ZArith QArith Lia.
From Stdlib Require Import DecimalString.
From Stdlib Require DecimalNat.
Import ListNotations.
Open Scope string_scope.

(** ** Exceptions and results *)

Inductive exn : Type :=
| TypeError
| AttributeError
| KeyError
| ZeroDivisionError.

Inductive res (A : Type) : Type :=
| Ok (a : A)
| Raise (e : exn).

Arguments Ok {A} a.
Arguments Raise {A} e.

Definition bind {A B : Type} (m : res A) (k : A -> res B) : res B :=
  match m with
  | Ok a => k a
  | Raise e => Raise e
  end.

Notation "x <- m ;; k" := (bind m (fun x => k))
  (at level 61, m at next level, right associativity).

(** A loop whose body may raise: [for x in xs: acc = body acc x]. *)
Fixpoint foldM {A B : Type} (body : B -> A -> res B) (xs : list A) (acc : B)
  : res B :=
  match xs with
  | [] => Ok acc
  | x :: xs' => acc' <- body acc x ;; foldM body xs' acc'
  end.

(** ** Dictionaries *)

Definition dict (A : Type) : Type := list (string * A).

Fixpoint dict_get {A : Type} (k : string) (d : dict A) : option A :=
  match d with
  | [] => None
  | (k', v) :: d' => if String.eqb k k' then Some v else dict_get k d'
  end.

Definition dict_mem {A : Type} (k : string) (d : dict A) : bool :=
  match dict_get k d with
  | Some _ => true
  | None => false
  end.

(** [d[k] = v]: an existing key keeps its position, a new key goes last. *)
Fixpoint dict_set {A : Type} (k : string) (v : A) (d : dict A) : dict A :=
  match d with
  | [] => [(k, v)]
  | (k', v') :: d' =>
      if String.eqb k k' then (k', v) :: d' else (k', v') :: dict_set k v d'
  end.

Definition keys {A : Type} (d : dict A) : list string := map fst d.
Definition values {A : Type} (d : dict A) : list A := map snd d.

Definition wf_dict {A : Type} (d : dict A) : Prop := NoDup (keys d).

(** ** Python values *)

#[warnings="-register-all"]
Inductive value : Type :=
| VNone
| VNum (q : Q)
| VStr (s : string)
| VDict (d : list (string * value)).

(** [a == b].  Dicts are equal when they have the same keys with equal
    values, whatever the insertion order. *)
Fixpoint py_eq (a b : value) : bool :=
  match a, b with
  | VNone, VNone => true
  | VNum x, VNum y => Qeq_bool x y
  | VStr s, VStr t => String.eqb s t
  | VDict d, VDict e =>
      Nat.eqb (List.length d) (List.length e) &&
      (fix all_in (l : list (string * value)) : bool :=
         match l with
         | [] => true
         | (k, v) :: l' =>
             match dict_get k e with
             | Some w => py_eq v w
             | None => false
             end && all_in l'
         end) d
  | _, _ => false
  end.

(** [a <= b]: defined between two numbers and between two strings. *)
Definition py_le (a b : value) : res bool :=
  match a, b with
  | VNum x, VNum y => Ok (Qle_bool x y)
  | VStr s, VStr t => Ok (String.leb s t)
  | _, _ => Raise TypeError
  end.

(** [a >= b] *)
Definition py_ge (a b : value) : res bool := py_le b a.

(** [a < b] and [a > b] *)
Definition py_lt (a b : value) : res bool :=
  match a, b with
  | VNum x, VNum y => Ok (negb (Qle_bool y x))
  | VStr s, VStr t => Ok (String.ltb s t)
  | _, _ => Raise TypeError
  end.

Definition py_gt (a b : value) : res bool := py_lt b a.

(** [a <= b <= c] is [a <= b and b <= c]: the second comparison is not
    evaluated when the first is false. *)
Definition py_chain_le (a b c : value) : res bool :=
  r <- py_le a b ;;
  if r then py_le b c else Ok false.

(** Truth value of an object in a condition. *)
Definition truthy (v : value) : bool :=
  match v with
  | VNone => false
  | VNum q => negb (Qeq_bool q 0)
  | VStr s => negb (String.eqb s "")
  | VDict d => match d with [] => false | _ => true end
  end.

(** ** src/models/specifications.py *)

Inductive state_literal : Type := gas | liquid | solid.

Definition state_str (s : state_literal) : string :=
  match s with
  | gas => "gas"
  | liquid => "liquid"
  | solid => "solid"
  end.

Record ProductSpecification : Type := {
  name : string;
  chemical_formula : option string;
  cas_number : option string;
  purity : option Q;
  yield_requirement : option Q;
  state : option state_literal;
  temperature_range : option (dict Q);
  pressure_range : option (dict Q);
  properties : dict value
}.

(** Lines 21-22 and 25-26: a lower bound on one field of the product. *)
Definition check_at_least (key : string) (bound : option Q)
    (product_data : dict value) (results : dict bool) : res (dict bool) :=
  match bound, dict_get key product_data with
  | Some b, Some v =>
      r <- py_ge v (VNum b) ;; Ok (dict_set key r results)
  | _, _ => Ok results
  end.

(** Lines 29-30. *)
Definition check_state (st : option state_literal)
    (product_data : dict value) (results : dict bool) : dict bool :=
  match st, dict_get "state" product_data with
  | Some s, Some v => dict_set "state" (py_eq v (VStr (state_str s))) results
  | _, _ => results
  end.

(** Lines 33-43 and 46-56: [range.get("min")], [range.get("max")] and the
    three-way choice between them. *)
Definition check_range (key : string) (range : option (dict Q))
    (product_data : dict value) (results : dict bool) : res (dict bool) :=
  match range, dict_get key product_data with
  | Some rg, Some v =>
      match dict_get "min" rg, dict_get "max" rg with
      | Some lo, Some hi =>
          r <- py_chain_le (VNum lo) v (VNum hi) ;; Ok (dict_set key r results)
      | Some lo, None =>
          r <- py_ge v (VNum lo) ;; Ok (dict_set key r results)
      | None, Some hi =>
          r <- py_le v (VNum hi) ;; Ok (dict_set key r results)
      | None, None => Ok results
      end
  | _, _ => Ok results
  end.

(** Line 60: [isinstance(prop_value, dict) and "min" in prop_value and
    "max" in prop_value]; gives the two bounds when it holds. *)
Definition min_max_of (prop_value : value) : option (value * value) :=
  match prop_value with
  | VDict d =>
      match dict_get "min" d, dict_get "max" d with
      | Some lo, Some hi => Some (lo, hi)
      | _, _ => None
      end
  | _ => None
  end.

(** Lines 60-64: the body of the loop over [self.properties.items()]. *)
Definition check_property (product_data : dict value) (results : dict bool)
    (item : string * value) : res (dict bool) :=
  let (prop_name, prop_value) := item in
  match min_max_of prop_value with
  | Some (lo, hi) =>
      match dict_get prop_name product_data with
      | Some v =>
          r <- py_chain_le lo v hi ;; Ok (dict_set prop_name r results)
      | None => Ok results
      end
  | None =>
      match dict_get prop_name product_data with
      | Some v => Ok (dict_set prop_name (py_eq v prop_value) results)
      | None => Ok results
      end
  end.

Definition is_satisfied_by (self : ProductSpecification)
    (product_data : dict value) : res (dict bool) :=
  let results := [] in
  results <- check_at_least "purity" (purity self) product_data results ;;
  results <- check_at_least "yield" (yield_requirement self) product_data results ;;
  let results := check_state (state self) product_data results in
  results <- check_range "temperature" (temperature_range self) product_data results ;;
  results <- check_range "pressure" (pressure_range self) product_data results ;;
  foldM (check_property product_data) (properties self) results.

(** [all(results.values())] *)
Definition all_specifications_met (self : ProductSpecification)
    (product_data : dict value) : res bool :=
  results <- is_satisfied_by self product_data ;;
  Ok (forallb (fun b => b) (values results)).

(** ** src/aspen/parser.py *)

(** [obj.get(key, default)]: only a dict has the method. *)
Definition py_get (obj : value) (key : string) (default : value) : res value :=
  match obj with
  | VDict d =>
      Ok (match dict_get key d with Some v => v | None => default end)
  | _ => Raise AttributeError
  end.

(** [a + b] and [a / b] on numbers; anything else added to or divided by a
    number is a TypeError. *)
Definition py_add (a b : value) : res value :=
  match a, b with
  | VNum x, VNum y => Ok (VNum (x + y))
  | _, _ => Raise TypeError
  end.

Definition py_div (a b : value) : res value :=
  match a, b with
  | VNum x, VNum y =>
      if Qeq_bool y 0 then Raise ZeroDivisionError else Ok (VNum (x / y))
  | _, _ => Raise TypeError
  end.

(** [sum(xs)] starts from the integer 0. *)
Definition py_sum (xs : list value) : res value := foldM py_add xs (VNum 0).

(** [composition.values()] and [composition.items()] *)
Definition py_items (obj : value) : res (dict value) :=
  match obj with
  | VDict d => Ok d
  | _ => Raise AttributeError
  end.

(** Lines 28-30 of parser.py: the phase of a stream. *)
Definition stream_state (stream_data : value) : res value :=
  vf <- py_get stream_data "vapor_fraction" (VNum 0) ;;
  is_vapor <- py_gt vf (VNum (99 # 100)) ;;
  if is_vapor then Ok (VStr "vapor")
  else
    vf <- py_get stream_data "vapor_fraction" (VNum 0) ;;
    is_liquid <- py_lt vf (VNum (1 # 100)) ;;
    if is_liquid then Ok (VStr "liquid") else Ok (VStr "mixed").

(** Line 37: [{comp: flow/total_flow for comp, flow in composition.items()
    if total_flow > 0}]. *)
Definition mass_fraction_step (total_flow : value) (acc : dict value)
    (item : string * value) : res (dict value) :=
  let (comp, flow) := item in
  positive <- py_gt total_flow (VNum 0) ;;
  if positive then
    fraction <- py_div flow total_flow ;; Ok (dict_set comp fraction acc)
  else Ok acc.

(** [max(items, key=lambda x: x[1])] on a non-empty sequence: an item
    replaces the current best only when its key is strictly greater. *)
Fixpoint max_by_snd (best : string * value) (items : list (string * value))
  : res (string * value) :=
  match items with
  | [] => Ok best
  | item :: rest =>
      greater <- py_gt (snd item) (snd best) ;;
      max_by_snd (if greater then item else best) rest
  end.

(** Lines 34-44: composition, main component and purity. *)
Definition add_composition (stream_data : value) (properties : dict value)
  : res (dict value) :=
  composition <- py_get stream_data "composition" (VDict []) ;;
  if truthy composition then
    flows <- py_items composition ;;
    total_flow <- py_sum (values flows) ;;
    mass_fractions <- foldM (mass_fraction_step total_flow) flows [] ;;
    main_component <-
      match mass_fractions with
      | [] => Ok (VNone, VNum 0)
      | first :: rest =>
          best <- max_by_snd first rest ;; Ok (VStr (fst best), snd best)
      end ;;
    let properties := dict_set "composition" (VDict mass_fractions) properties in
    let properties := dict_set "main_component" (fst main_component) properties in
    let properties := dict_set "purity" (snd main_component) properties in
    Ok properties
  else Ok properties.

(** Lines 22-46: the properties of one stream. *)
Definition stream_properties (stream_data : value) : res (dict value) :=
  temperature <- py_get stream_data "temperature" VNone ;;
  pressure <- py_get stream_data "pressure" VNone ;;
  st <- stream_state stream_data ;;
  let properties :=
    [("temperature", temperature); ("pressure", pressure); ("state", st)] in
  add_composition stream_data properties.

(** Lines 20-46: the body of the loop over [product_streams]. *)
Definition extract_stream (results : dict value)
    (product_properties : dict (dict value)) (stream_id : string)
  : res (dict (dict value)) :=
  match dict_get stream_id results with
  | Some stream_data =>
      properties <- stream_properties stream_data ;;
      Ok (dict_set stream_id properties product_properties)
  | None => Ok product_properties
  end.

Definition extract_product_properties (results : dict value)
    (product_streams : list string) : res (dict (dict value)) :=
  foldM (extract_stream results) product_streams [].

(** Line 67: [{spec.name: spec for spec in specifications.specifications}] *)
Definition spec_lookup (specifications : list ProductSpecification)
  : dict ProductSpecification :=
  fold_left (fun d spec => dict_set (name spec) spec d) specifications [].

(** Line 73: [product_name and product_name in spec_dict].  A number is
    hashable and equals no string key; a dict is not hashable. *)
Definition find_spec (spec_dict : dict ProductSpecification)
    (product_name : value) : res (option (string * ProductSpecification)) :=
  if truthy product_name then
    match product_name with
    | VStr s =>
        Ok (match dict_get s spec_dict with
            | Some spec => Some (s, spec)
            | None => None
            end)
    | VDict _ => Raise TypeError
    | _ => Ok None
    end
  else Ok None.

(** [properties.get("main_component")] *)
Definition main_component_of (properties : dict value) : value :=
  match dict_get "main_component" properties with
  | Some v => v
  | None => VNone
  end.

(** Lines 69-77: the body of the loop over [product_properties.items()]. *)
Definition check_stream (spec_dict : dict ProductSpecification)
    (specification_results : dict (dict bool))
    (entry : string * dict value) : res (dict (dict bool)) :=
  let (stream_id, properties) := entry in
  let product_name := main_component_of properties in
  found <- find_spec spec_dict product_name ;;
  match found with
  | Some (product_name, spec) =>
      results <- is_satisfied_by spec properties ;;
      Ok (dict_set product_name results specification_results)
  | None => Ok specification_results
  end.

Definition check_specifications (product_properties : dict (dict value))
    (specifications : list ProductSpecification) : res (dict (dict bool)) :=
  let spec_dict := spec_lookup specifications in
  foldM (check_stream spec_dict) product_properties [].

(** Line 92: [isinstance(results[stream_id], dict) and "composition" in
    results[stream_id]]. *)
Definition is_stream (entry : value) : bool :=
  match entry with
  | VDict d => dict_mem "composition" d
  | _ => false
  end.

(** [s.startswith(p)] *)
Definition startswith (s p : string) : bool := String.prefix p s.

(** Totals of one component: [{"input": _, "output": _}]. *)
Record flows : Type := { input : Q; output : Q }.

(** [flows[side] += flow]: the running total is a number, and adding
    anything but a number to it is a TypeError. *)
Definition add_flow (total : Q) (flow : value) : res Q :=
  match flow with
  | VNum x => Ok (total + x)
  | _ => Raise TypeError
  end.

(** Lines 105-108 and 113-116: the body of the loop over
    [composition.items()], for the input side and for the output side. *)
Definition add_input (component_balance : dict flows) (item : string * value)
  : res (dict flows) :=
  let (comp, flow) := item in
  let component_balance :=
    if dict_mem comp component_balance then component_balance
    else dict_set comp {| input := 0; output := 0 |} component_balance in
  match dict_get comp component_balance with
  | Some fl =>
      total <- add_flow (input fl) flow ;;
      Ok (dict_set comp {| input := total; output := output fl |}
            component_balance)
  | None => Raise KeyError
  end.

Definition add_output (component_balance : dict flows) (item : string * value)
  : res (dict flows) :=
  let (comp, flow) := item in
  let component_balance :=
    if dict_mem comp component_balance then component_balance
    else dict_set comp {| input := 0; output := 0 |} component_balance in
  match dict_get comp component_balance with
  | Some fl =>
      total <- add_flow (output fl) flow ;;
      Ok (dict_set comp {| input := input fl; output := total |}
            component_balance)
  | None => Raise KeyError
  end.

(** Lines 103-108 and 111-116: the loop over the streams of one side. *)
Definition sum_streams
    (add : dict flows -> string * value -> res (dict flows))
    (results : dict value) (stream_ids : list string)
    (component_balance : dict flows) : res (dict flows) :=
  foldM (fun component_balance stream_id =>
           match dict_get stream_id results with
           | Some stream_data =>
               composition <- py_get stream_data "composition" (VDict []) ;;
               items <- py_items composition ;;
               foldM add items component_balance
           | None => Raise KeyError
           end)
        stream_ids component_balance.

(** Lines 119-124: the relative error of every component whose input is
    positive. *)
Definition balance_errors (component_balance : dict flows) : dict Q :=
  fold_left (fun mass_balance_errors (item : string * flows) =>
               let (comp, fl) := item in
               if negb (Qle_bool (input fl) 0) then
                 let error := (output fl - input fl) / input fl in
                 dict_set comp error mass_balance_errors
               else mass_balance_errors)
            component_balance [].

(** Line 92: the test of the comprehension that selects the streams. *)
Definition selects_stream (results : dict value) (stream_id : string) : bool :=
  match dict_get stream_id results with
  | Some entry => is_stream entry
  | None => false
  end.

Definition check_mass_balance (results : dict value) : res (dict Q) :=
  let streams := filter (selects_stream results) (keys results) in
  let input_streams := filter (fun s => startswith s "FEED") streams in
  let output_streams :=
    filter (fun s => startswith s "PRODUCT"
                     || negb (existsb (String.eqb s) input_streams)) streams in
  let component_balance := [] in
  component_balance <-
    sum_streams add_input results input_streams component_balance ;;
  component_balance <-
    sum_streams add_output results output_streams component_balance ;;
  Ok (balance_errors component_balance).

(** Line 147 *)
Definition check_energy_balance (results : dict value) : Q := 0.

(** [s.lower()] on a byte string: the letters A-Z. *)
Definition lower_ascii (c : ascii) : ascii :=
  let n := nat_of_ascii c in
  if (65 <=? n)%nat && (n <=? 90)%nat then ascii_of_nat (n + 32) else c.

Fixpoint lower (s : string) : string :=
  match s with
  | EmptyString => EmptyString
  | String c s' => String (lower_ascii c) (lower s')
  end.

(** [status.lower()]: only a string has the method. *)
Definition py_lower (v : value) : res string :=
  match v with
  | VStr s => Ok (lower s)
  | _ => Raise AttributeError
  end.

(** [str(status)] inside the f-string, for the values that reach it. *)
Definition py_str (v : value) : string :=
  match v with
  | VStr s => s
  | _ => ""
  end.

(** Lines 162-166: the body of the loop over [results.items()]. *)
Definition analyze_block (errors : list string) (item : string * value)
  : res (list string) :=
  let (block_id, block_data) := item in
  match block_data with
  | VDict d =>
      if dict_mem "type" d then
        let status :=
          match dict_get "status" d with Some v => v | None => VNone end in
        if truthy status then
          lowered <- py_lower status ;;
          if negb (String.eqb lowered "ok") then
            let message :=
              "Block " ++ block_id ++ " has status: " ++ py_str status in
            Ok (List.app errors [message])
          else Ok errors
        else Ok errors
      else Ok errors
  | _ => Ok errors
  end.

Definition analyze_simulation_errors (results : dict value)
  : res (list string) :=
  foldM analyze_block results [].

(** ** src/models/materials.py *)

Record RawMaterial : Type := {
  material_name : string;
  material_formula : option string;
  material_cas_number : option string;
  amount : option Q;
  units : option string;
  material_state : option string;
  temperature : option Q;
  pressure : option Q;
  material_properties : dict value
}.

(** ** src/aspen/interface.py

    The COM automation object is outside the repository.  Each method of
    [AspenPlusInterface] runs its COM calls inside [try: ... except
    Exception: ... return False]; the calls of one [try] block are one
    operation of the class below, which returns or raises and may change the
    object either way. *)

Class ComObject (C : Type) : Type := {
  com_create : res C;
  com_load : option string -> C -> res unit * C;
  com_add_component : string -> option string -> C -> res unit * C;
  com_set_property_method : string -> C -> res unit * C;
  com_add_stream : string -> dict value -> C -> res unit * C;
  com_run2 : C -> res Z * C;
  com_read_results : C -> res (dict value) * C
}.

(** The calls the orchestrator makes on the adapter, in the order made. *)
Inductive adapter_call : Type :=
| CallInitialize
| CallLoadSimulation (file_path : option string)
| CallAddComponent (component_id : string) (formula : option string)
| CallSetPropertyMethod (method_name : string)
| CallAddStream (stream_id : string) (stream_data : dict value)
| CallRunSimulation
| CallGetSimulationResults.

Section Orchestration.

Context {C : Type} {com : ComObject C}.

(** [self.aspen] is the COM object or [None]; [calls] is the record of
    the methods called so far. *)
Record AspenPlusInterface : Type := {
  aspen_path : string;
  aspen : option C;
  calls : list adapter_call
}.

Definition called (c : adapter_call) (self : AspenPlusInterface)
  : AspenPlusInterface :=
  {| aspen_path := aspen_path self;
     aspen := aspen self;
     calls := List.app (calls self) [c] |}.

(** A [try] block that starts from [self.aspen]: on [None] the attribute
    access raises. *)
Definition on_aspen {A : Type} (body : C -> res A * C)
    (self : AspenPlusInterface) : res A * AspenPlusInterface :=
  match aspen self with
  | Some c =>
      let (r, c') := body c in
      (r, {| aspen_path := aspen_path self;
             aspen := Some c';
             calls := calls self |})
  | None => (Raise AttributeError, self)
  end.

(** [try: body; return True / except Exception: return False] *)
Definition succeeded {A : Type} (r : res A) : bool :=
  match r with
  | Ok _ => true
  | Raise _ => false
  end.

Definition interface_initialize (self : AspenPlusInterface)
  : bool * AspenPlusInterface :=
  let self := called CallInitialize self in
  match com_create with
  | Ok c =>
      (true, {| aspen_path := aspen_path self;
                aspen := Some c;
                calls := calls self |})
  | Raise _ => (false, self)
  end.

Definition load_simulation (file_path : option string)
    (self : AspenPlusInterface) : bool * AspenPlusInterface :=
  let self := called (CallLoadSimulation file_path) self in
  let (r, self) := on_aspen (com_load file_path) self in
  (succeeded r, self).

Definition add_component (component_id : string) (formula : option string)
    (self : AspenPlusInterface) : bool * AspenPlusInterface :=
  let self := called (CallAddComponent component_id formula) self in
  let (r, self) := on_aspen (com_add_component component_id formula) self in
  (succeeded r, self).

Definition set_property_method (method_name : string)
    (self : AspenPlusInterface) : bool * AspenPlusInterface :=
  let self := called (CallSetPropertyMethod method_name) self in
  let (r, self) := on_aspen (com_set_property_method method_name) self in
  (succeeded r, self).

Definition add_stream (stream_id : string) (stream_data : dict value)
    (self : AspenPlusInterface) : bool * AspenPlusInterface :=
  let self := called (CallAddStream stream_id stream_data) self in
  let (r, self) := on_aspen (com_add_stream stream_id stream_data) self in
  (succeeded r, self).

(** Lines 147-161: only the status code 0 is a success. *)
Definition run_simulation (self : AspenPlusInterface)
  : bool * AspenPlusInterface :=
  let self := called CallRunSimulation self in
  let (r, self) := on_aspen com_run2 self in
  match r with
  | Ok run_status => (Z.eqb run_status 0, self)
  | Raise _ => (false, self)
  end.

(** Lines 163-208: the results, or [{}] when reading them raises. *)
Definition get_simulation_results (self : AspenPlusInterface)
  : dict value * AspenPlusInterface :=
  let self := called CallGetSimulationResults self in
  let (r, self) := on_aspen com_read_results self in
  match r with
  | Ok results => (results, self)
  | Raise _ => ([], self)
  end.

(** ** src/aspen/simulation.py *)

Record ProcessSimulation : Type := {
  interface : AspenPlusInterface;
  template_path : option string;
  simulation_path : option string;
  initialized : bool
}.

Definition with_interface (self : ProcessSimulation)
    (a : AspenPlusInterface) : ProcessSimulation :=
  {| interface := a;
     template_path := template_path self;
     simulation_path := simulation_path self;
     initialized := initialized self |}.

(** [__init__] *)
Definition new_simulation (path : string) (template : option string)
  : ProcessSimulation :=
  {| interface := {| aspen_path := path; aspen := None; calls := [] |};
     template_path := template;
     simulation_path := None;
     initialized := false |}.

Definition initialize (self : ProcessSimulation)
  : bool * ProcessSimulation :=
  let (ok, a) := interface_initialize (interface self) in
  let self := with_interface self a in
  if ok then
    let (ok, a) := load_simulation (template_path self) (interface self) in
    let self := with_interface self a in
    if ok then
      (true, {| interface := interface self;
                template_path := template_path self;
                simulation_path := simulation_path self;
                initialized := true |})
    else (false, self)
  else (false, self).

(** [x or default]: [None] and zero are both false. *)
Definition or_default (x : option Q) (default : Q) : Q :=
  match x with
  | Some q => if Qeq_bool q 0 then default else q
  | None => default
  end.

(** Lines 53-57 *)
Definition feed_stream_data (material : RawMaterial) : dict value :=
  [("temperature", VNum (or_default (temperature material) (29815 # 100)));
   ("pressure", VNum (or_default (pressure material) 101325));
   ("composition",
    VDict [(material_name material,
            VNum (or_default (amount material) 100))])].

(** [str(n)] *)
Definition str_of_nat (n : nat) : string :=
  NilZero.string_of_uint (Nat.to_uint n).

(** [f"FEED_{i+1}"] *)
Definition feed_stream_id (i : nat) : string :=
  "FEED_" ++ str_of_nat (i + 1).

(** Lines 42-43 *)
Fixpoint add_components (materials : list RawMaterial)
    (a : AspenPlusInterface) : AspenPlusInterface :=
  match materials with
  | [] => a
  | material :: rest =>
      let (_, a) :=
        add_component (material_name material) (material_formula material) a in
      add_components rest a
  end.

(** Lines 49-60: [for i, material in enumerate(materials.materials)] *)
Fixpoint add_feed_streams (i : nat) (materials : list RawMaterial)
    (a : AspenPlusInterface) : AspenPlusInterface :=
  match materials with
  | [] => a
  | material :: rest =>
      let stream_id := feed_stream_id i in
      let stream_data := feed_stream_data material in
      let (_, a) := add_stream stream_id stream_data a in
      add_feed_streams (S i) rest a
  end.

(** Nothing inside the [try] block raises: the adapter's methods catch
    every exception themselves, so the [except] branch is never taken. *)
Definition setup_materials (materials : list RawMaterial)
    (self : ProcessSimulation) : bool * ProcessSimulation :=
  if negb (initialized self) then (false, self)
  else
    let a := add_components materials (interface self) in
    let (_, a) := set_property_method "NRTL" a in
    let a := add_feed_streams 0 materials a in
    (true, with_interface self a).

Definition run (self : ProcessSimulation)
  : (bool * dict value) * ProcessSimulation :=
  if negb (initialized self) then ((false, []), self)
  else
    let (ok, a) := run_simulation (interface self) in
    if ok then
      let (results, a) := get_simulation_results a in
      ((true, results), with_interface self a)
    else ((false, []), with_interface self a).

(** The feed streams handed to the adapter, oldest first. *)
Fixpoint added_streams (cs : list adapter_call) : list (string * dict value) :=
  match cs with
  | [] => []
  | CallAddStream stream_id stream_data :: cs' =>
      (stream_id, stream_data) :: added_streams cs'
  | _ :: cs' => added_streams cs'
  end.

End Orchestration.

Arguments AspenPlusInterface C : clear implicits.
Arguments ProcessSimulation C : clear implicits.

(** * Vocabulary of the properties *)

(** ** Specifications *)

(** [x is not None] *)
Definition is_set {A : Type} (x : option A) : bool :=
  match x with
  | Some _ => true
  | None => false
  end.

(** The criterion named [k] is populated in a specification: its own field
    is set, or the [properties] map has an entry called [k]. *)
Definition criterion_populated (self : ProductSpecification) (k : string)
  : bool :=
  (String.eqb k "purity" && is_set (purity self))
  || (String.eqb k "yield" && is_set (yield_requirement self))
  || (String.eqb k "state" && is_set (state self))
  || (String.eqb k "temperature" && is_set (temperature_range self))
  || (String.eqb k "pressure" && is_set (pressure_range self))
  || dict_mem k (properties self).

(** The verdict of one entry of [properties] on a value of the product. *)
Definition property_verdict (prop_value v : value) : res bool :=
  match min_max_of prop_value with
  | Some (lo, hi) => py_chain_le lo v hi
  | None => Ok (py_eq v prop_value)
  end.

(** The comparisons that [is_satisfied_by] makes on a product are defined:
    purity, yield, temperature and pressure are numbers when the product
    has them, and a value checked against a [min]/[max] pair can be
    compared with it. *)
Definition comparable (self : ProductSpecification)
    (product_data : dict value) : Prop :=
  (forall k v,
      In k ["purity"; "yield"; "temperature"; "pressure"] ->
      dict_get k product_data = Some v ->
      exists q, v = VNum q)
  /\ (forall k prop_value lo hi v,
         In (k, prop_value) (properties self) ->
         min_max_of prop_value = Some (lo, hi) ->
         dict_get k product_data = Some v ->
         exists b, py_chain_le lo v hi = Ok b).

(** ** Block statuses *)

(** [block_data.get("status")] *)
Definition status_of (d : dict value) : value :=
  match dict_get "status" d with
  | Some v => v
  | None => VNone
  end.

(** An entry of the results is flagged: it is a dict with a [type] key, and
    its status is present (a string, not the empty one) and is not [ok]
    whatever the case of its letters. *)
Definition flagged (entry : string * value) : bool :=
  match snd entry with
  | VDict d =>
      dict_mem "type" d
      && match status_of d with
         | VStr s => negb (String.eqb s "") && negb (String.eqb (lower s) "ok")
         | _ => false
         end
  | _ => false
  end.

(** The diagnostic line of a flagged entry. *)
Definition diagnostic (entry : string * value) : string :=
  match snd entry with
  | VDict d => "Block " ++ fst entry ++ " has status: " ++ py_str (status_of d)
  | _ => ""
  end.

(** The status of every block is a string when there is one. *)
Definition statuses_are_strings (results : dict value) : Prop :=
  forall block_id d,
    In (block_id, VDict d) results ->
    dict_mem "type" d = true ->
    status_of d = VNone \/ exists s, status_of d = VStr s.

(** ** Feed streams *)

(** Amount, temperature or pressure as a feed stream carries it: the
    default when the field is unset and also when it is zero, the field's
    value otherwise. *)
Definition defaulted (x : option Q) (default carried : Q) : Prop :=
  match x with
  | None => carried = default
  | Some q => (q == 0 -> carried = default) /\ (~ q == 0 -> carried = q)
  end.

(** The default taken only for an unset field. *)
Definition unset_default (x : option Q) (default : Q) : Q :=
  match x with
  | Some q => q
  | None => default
  end.

(** The data of a feed stream when only unset fields are defaulted. *)
Definition stated_feed_stream_data (material : RawMaterial) : dict value :=
  [("temperature", VNum (unset_default (temperature material) (29815 # 100)));
   ("pressure", VNum (unset_default (pressure material) 101325));
   ("composition",
    VDict [(material_name material,
            VNum (unset_default (amount material) 100))])].

(** The identifiers and data of the feed streams of a list of materials,
    the first one numbered from position [i]. *)
Fixpoint feed_streams_from (i : nat) (materials : list RawMaterial)
  : list (string * dict value) :=
  match materials with
  | [] => []
  | material :: rest =>
      (feed_stream_id i, feed_stream_data material)
      :: feed_streams_from (S i) rest
  end.

(** ** Mass balance *)

(** The flows of a results entry: the items of its composition. *)
Definition composition_items (entry : value) : list (string * value) :=
  match entry with
  | VDict d =>
      match dict_get "composition" d with
      | Some (VDict composition) => composition
      | _ => []
      end
  | _ => []
  end.

(** A stream is an input when its identifier starts with FEED, and an
    output otherwise. *)
Definition is_feed (stream_id : string) : bool := startswith stream_id "FEED".

Definition is_not_feed (stream_id : string) : bool :=
  negb (is_feed stream_id).

(** All the flows of the streams of one side, in the order of the results:
    the streams are the dict-valued entries with a [composition] key. *)
Definition side_items (side : string -> bool) (results : dict value)
  : list (string * value) :=
  flat_map (fun entry : string * value =>
              if is_stream (snd entry) && side (fst entry)
              then composition_items (snd entry)
              else [])
           results.

Definition flow_number (flow : value) : Q :=
  match flow with
  | VNum q => q
  | _ => 0
  end.

(** The flows of one component among the items of compositions. *)
Definition component_flows (comp : string) (items : list (string * value))
  : list Q :=
  map (fun item => flow_number (snd item))
      (filter (fun item => String.eqb (fst item) comp) items).

(** The total of a component: its flows added up from zero, in order. *)
Definition component_total (comp : string) (items : list (string * value))
  : Q :=
  fold_left Qplus (component_flows comp items) 0.

Definition input_total (comp : string) (results : dict value) : Q :=
  component_total comp (side_items is_feed results).

Definition output_total (comp : string) (results : dict value) : Q :=
  component_total comp (side_items is_not_feed results).

(** Every flow is a number. *)
Definition numeric_items (items : list (string * value)) : Prop :=
  forall comp flow, In (comp, flow) items -> exists q, flow = VNum q.

(** The composition of every dict-valued entry that has one is a dict of
    numbers. *)
Definition numeric_compositions (results : dict value) : Prop :=
  forall stream_id d v,
    In (stream_id, VDict d) results ->
    dict_get "composition" d = Some v ->
    exists composition, v = VDict composition /\ numeric_items composition.

(** The totals of a component in [component_balance], zero when the
    component is not there. *)
Definition flows_or_zero (component_balance : dict flows) (comp : string)
  : flows :=
  match dict_get comp component_balance with
  | Some fl => fl
  | None => {| input := 0; output := 0 |}
  end.

(** The flows that the loop over [stream_ids] goes through. *)
Definition items_of_streams (results : dict value) (stream_ids : list string)
  : list (string * value) :=
  flat_map (fun stream_id =>
              match dict_get stream_id results with
              | Some entry => composition_items entry
              | None => []
              end)
           stream_ids.

(** * Sample data *)

(** A specification with only a name and custom properties. *)
Definition custom_spec (n : string) (props : dict value)
  : ProductSpecification :=
  {| name := n; chemical_formula := None; cas_number := None;
     purity := None; yield_requirement := None; state := None;
     temperature_range := None; pressure_range := None;
     properties := props |}.

(** A custom property with a lower bound only. *)
Definition density_min_only : ProductSpecification :=
  custom_spec "Ethanol" [("density", VDict [("min", VNum 1)])].

(** A custom property with both bounds. *)
Definition density_between : ProductSpecification :=
  custom_spec "Ethanol" [("density", VDict [("min", VNum 1); ("max", VNum 9)])].

Definition dense_product : dict value := [("density", VNum 5)].

(** Purity of at least 0.9 in the liquid phase. *)
Definition pure_liquid : ProductSpecification :=
  {| name := "Ethanol"; chemical_formula := Some "C2H6O"; cas_number := None;
     purity := Some (9 # 10); yield_requirement := None;
     state := Some liquid;
     temperature_range := None; pressure_range := None;
     properties := [] |}.

(** A product whose purity is not known. *)
Definition liquid_product : dict value := [("state", VStr "liquid")].

(** A stream with 80 of A and 20 of B. *)
Definition mixture_results : dict value :=
  [("S1", VDict [("temperature", VNum 350); ("pressure", VNum 101325);
                 ("vapor_fraction", VNum (1 # 2));
                 ("composition", VDict [("A", VNum 80); ("B", VNum 20)])])].

(** A stream with a composition whose only flow is zero. *)
Definition no_flow_results : dict value :=
  [("S1", VDict [("temperature", VNum 300); ("pressure", VNum 101325);
                 ("vapor_fraction", VNum 0);
                 ("composition", VDict [("A", VNum 0)])])].

(** A stream that is all vapor, with no temperature reported. *)
Definition vapor_results : dict value :=
  [("S1", VDict [("vapor_fraction", VNum 1)])].

Definition vapor_entry : dict value :=
  [("temperature", VNone); ("pressure", VNone); ("state", VStr "vapor")].

(** A gas is required. *)
Definition gas_spec : ProductSpecification :=
  {| name := "Methane"; chemical_formula := None; cas_number := None;
     purity := None; yield_requirement := None;
     state := Some gas;
     temperature_range := None; pressure_range := None;
     properties := [] |}.

(** A gas is required, and the properties map has an entry called
    [state] of its own. *)
Definition gas_spec_with_state_property : ProductSpecification :=
  {| name := "Methane"; chemical_formula := None; cas_number := None;
     purity := None; yield_requirement := None;
     state := Some gas;
     temperature_range := None; pressure_range := None;
     properties := [("state", VStr "vapor")] |}.

(** A gas is required, at 300 K or more. *)
Definition hot_gas_spec : ProductSpecification :=
  {| name := "Methane"; chemical_formula := None; cas_number := None;
     purity := None; yield_requirement := None;
     state := Some gas;
     temperature_range := Some [("min", 300)]; pressure_range := None;
     properties := [] |}.

(** Two reactors, one in error. *)
Definition reactor_results : dict value :=
  [("R1", VDict [("type", VStr "Reactor"); ("status", VStr "Error")]);
   ("R2", VDict [("type", VStr "Reactor"); ("status", VStr "OK")])].

(** Two product streams of ethanol, the first pure enough and the second
    not, and the specification they are checked against. *)
Definition ethanol_spec : ProductSpecification :=
  {| name := "Ethanol"; chemical_formula := None; cas_number := None;
     purity := Some (9 # 10); yield_requirement := None; state := None;
     temperature_range := None; pressure_range := None;
     properties := [] |}.

Definition pure_ethanol : dict value :=
  [("main_component", VStr "Ethanol"); ("purity", VNum (95 # 100))].

Definition dilute_ethanol : dict value :=
  [("main_component", VStr "Ethanol"); ("purity", VNum (60 # 100))].

Definition two_ethanol_streams : dict (dict value) :=
  [("P1", pure_ethanol); ("P2", dilute_ethanol)].

(** One feed of 100 of A and one other stream with 90 of A. *)
Definition feed_and_product : dict value :=
  [("FEED_1", VDict [("composition", VDict [("A", VNum 100)])]);
   ("X", VDict [("composition", VDict [("A", VNum 90)])])].

(** An engine that accepts every call: it keeps the streams it is given
    and reports them as its results. *)
Definition recorder : ComObject (dict value) :=
  {| com_create := Ok [];
     com_load := fun _ c => (Ok tt, c);
     com_add_component := fun _ _ c => (Ok tt, c);
     com_set_property_method := fun _ c => (Ok tt, c);
     com_add_stream := fun stream_id stream_data c =>
                         (Ok tt, dict_set stream_id (VDict stream_data) c);
     com_run2 := fun c => (Ok 0%Z, c);
     com_read_results := fun c => (Ok c, c) |}.

(** A simulation on the recorder: fresh, and initialized. *)
Definition fresh_simulation : ProcessSimulation (dict value) :=
  new_simulation "AspenPlus.exe" None.

Definition ready_simulation : ProcessSimulation (dict value) :=
  snd (initialize (com := recorder) fresh_simulation).

Definition water : RawMaterial :=
  {| material_name := "Water"; material_formula := Some "H2O";
     material_cas_number := None; amount := Some 50; units := None;
     material_state := None; temperature := None; pressure := Some 200000;
     material_properties := [] |}.

(** A feed whose amount is set to zero. *)
Definition empty_feed : RawMaterial :=
  {| material_name := "Water"; material_formula := Some "H2O";
     material_cas_number := None; amount := Some 0; units := None;
     material_state := None; temperature := Some 350; pressure := None;
     material_properties := [] |}.

(** * Further vocabulary *)

(** ** Specifications *)

(** The verdict of a temperature or pressure range on a number: both
    bounds, one bound, or no verdict when the range has neither. *)
Definition range_verdict (range : dict Q) (x : Q) : option bool :=
  match dict_get "min" range, dict_get "max" range with
  | Some lo, Some hi => Some (Qle_bool lo x && Qle_bool x hi)
  | Some lo, None => Some (Qle_bool lo x)
  | None, Some hi => Some (Qle_bool x hi)
  | None, None => None
  end.

Definition is_number (v : value) : bool :=
  match v with
  | VNum _ => true
  | _ => false
  end.

(** The range has at least one of the keys [min] and [max]. *)
Definition has_bound (range : option (dict Q)) : bool :=
  match range with
  | Some rg => dict_mem "min" rg || dict_mem "max" rg
  | None => false
  end.

(** The built-in check named [k] compares the product's value with a
    number. *)
Definition compares_with_number (self : ProductSpecification) (k : string)
  : bool :=
  (String.eqb k "purity" && is_set (purity self))
  || (String.eqb k "yield" && is_set (yield_requirement self))
  || (String.eqb k "temperature" && has_bound (temperature_range self))
  || (String.eqb k "pressure" && has_bound (pressure_range self)).

(** A specification with every built-in criterion and a custom property
    called [purity] as well. *)
Definition strict_spec : ProductSpecification :=
  {| name := "Ethanol"; chemical_formula := None; cas_number := None;
     purity := Some (9 # 10); yield_requirement := Some (1 # 2);
     state := Some liquid;
     temperature_range := Some [("min", 290)];
     pressure_range := Some [("max", 200000)];
     properties := [("purity", VNum (95 # 100)); ("grade", VStr "fuel")] |}.

Definition ethanol_product : dict value :=
  [("purity", VNum (97 # 100)); ("yield", VNum (6 # 10));
   ("state", VStr "liquid"); ("temperature", VNum 300);
   ("pressure", VNum 101325); ("grade", VStr "fuel")].

(** The same specification without the custom property [purity]. *)
Definition plain_spec : ProductSpecification :=
  {| name := "Ethanol"; chemical_formula := None; cas_number := None;
     purity := Some (9 # 10); yield_requirement := Some (1 # 2);
     state := Some liquid;
     temperature_range := Some [("min", 290)];
     pressure_range := Some [("max", 200000)];
     properties := [("grade", VStr "fuel")] |}.

(** A product whose temperature was not reported. *)
Definition unmeasured_product : dict value :=
  [("purity", VNum (95 # 100)); ("temperature", VNone)].

(** ** Product properties *)

(** The phase that goes with a vapor fraction. *)
Definition phase_of (vapor_fraction : Q) : string :=
  if negb (Qle_bool vapor_fraction (99 # 100)) then "vapor"
  else if negb (Qle_bool (1 # 100) vapor_fraction) then "liquid"
  else "mixed".

(** [d.get(key)] *)
Definition get_or_None (key : string) (d : dict value) : value :=
  match dict_get key d with
  | Some v => v
  | None => VNone
  end.

(** Every flow divided by the total. *)
Definition fractions_of (total : Q) (composition : dict value) : dict value :=
  map (fun item => (fst item, VNum (flow_number (snd item) / total)))
      composition.

(** A stream with no vapor fraction and no composition. *)
Definition bare_results : dict value :=
  [("S1", VDict [("temperature", VNum 300)]); ("B1", VNum 1)].

(** Equal flows of A and B after a smaller flow of C. *)
Definition tie_results : dict value :=
  [("S1", VDict [("vapor_fraction", VNum 1);
                 ("composition",
                  VDict [("C", VNum 20); ("A", VNum 40); ("B", VNum 40)])])].


(** ** Values of the wrong kind *)

Definition is_dict (v : value) : bool :=
  match v with
  | VDict _ => true
  | _ => false
  end.

Definition is_string (v : value) : bool :=
  match v with
  | VStr _ => true
  | _ => false
  end.

(** A composition that cannot be added up: it is not a dict, or one of its
    flows is not a number. *)
Definition bad_composition (v : value) : Prop :=
  match v with
  | VDict composition =>
      exists comp flow, In (comp, flow) composition /\ is_number flow = false
  | _ => True
  end.

(** A block whose status is a number, between two that are fine. *)
Definition coded_status_results : dict value :=
  [("R1", VDict [("type", VStr "Reactor"); ("status", VStr "OK")]);
   ("R2", VDict [("type", VStr "Reactor"); ("status", VNum 3)]);
   ("R3", VDict [("type", VStr "Reactor"); ("status", VStr "Error")])].

(** A product stream with a flow that was not reported. *)
Definition unreported_flow_results : dict value :=
  [("FEED_1", VDict [("composition", VDict [("A", VNum 100)])]);
   ("PRODUCT_1", VDict [("composition", VDict [("A", VNone)])])].

(** A requested stream whose vapor fraction was not reported. *)
Definition unreported_fraction_results : dict value :=
  [("S1", VDict [("vapor_fraction", VNum 1)]);
   ("S2", VDict [("vapor_fraction", VNone)])].

(** ** Specification lists *)

(** Two specifications of ethanol: a purity of 0.9 first, of 0.99 after. *)
Definition stricter_ethanol_spec : ProductSpecification :=
  {| name := "Ethanol"; chemical_formula := None; cas_number := None;
     purity := Some (99 # 100); yield_requirement := None; state := None;
     temperature_range := None; pressure_range := None;
     properties := [] |}.

Definition duplicate_specs : list ProductSpecification :=
  [ethanol_spec; stricter_ethanol_spec].

(** A stream of ethanol and a stream of water, which has no
    specification. *)
Definition ethanol_and_water : dict (dict value) :=
  [("P1", pure_ethanol);
   ("P2", [("main_component", VStr "Water"); ("purity", VNum 1)])].

(** ** Calls on the adapter *)

(** The calls that register the components of a list of materials. *)
Definition component_calls (materials : list RawMaterial)
  : list adapter_call :=
  map (fun material =>
         CallAddComponent (material_name material)
           (material_formula material))
      materials.

(** The calls that add the feed streams of a list of materials. *)
Definition feed_stream_calls (materials : list RawMaterial)
  : list adapter_call :=
  map (fun stream => CallAddStream (fst stream) (snd stream))
      (feed_streams_from 0 materials).

(** An engine that cannot be started. *)
Definition no_engine : ComObject (dict value) :=
  {| com_create := Raise AttributeError;
     com_load := fun _ c => (Ok tt, c);
     com_add_component := fun _ _ c => (Ok tt, c);
     com_set_property_method := fun _ c => (Ok tt, c);
     com_add_stream := fun _ _ c => (Ok tt, c);
     com_run2 := fun c => (Ok 0%Z, c);
     com_read_results := fun c => (Ok c, c) |}.

(** An engine whose runs end with the status code 1. *)
Definition failing_run : ComObject (dict value) :=
  {| com_create := Ok [];
     com_load := fun _ c => (Ok tt, c);
     com_add_component := fun _ _ c => (Ok tt, c);
     com_set_property_method := fun _ c => (Ok tt, c);
     com_add_stream := fun _ _ c => (Ok tt, c);
     com_run2 := fun c => (Ok 1%Z, c);
     com_read_results := fun c => (Ok c, c) |}.

(** An engine that runs but whose results cannot be read. *)
Definition unreadable_results : ComObject (dict value) :=
  {| com_create := Ok [];
     com_load := fun _ c => (Ok tt, c);
     com_add_component := fun _ _ c => (Ok tt, c);
     com_set_property_method := fun _ c => (Ok tt, c);
     com_add_stream := fun _ _ c => (Ok tt, c);
     com_run2 := fun c => (Ok 0%Z, c);
     com_read_results := fun c => (Raise KeyError, c) |}.

(** * Saving, building and closing

    The rest of [src/aspen/interface.py] and [src/aspen/simulation.py]. *)

(** The COM calls of the remaining [try] blocks of the adapter:
    [SaveAs(file_path)]; [Elements.Add(unit_id, unit_type)] followed by
    [Elements(unit_id)]; [unit.Elements(param_path).Value = value];
    [Close()]. *)
Class ComLifecycle (C : Type) : Type := {
  com_save_as : string -> C -> res unit * C;
  com_add_block : string -> value -> C -> res unit * C;
  com_set_block_value : string -> string -> value -> C -> res unit * C;
  com_close : C -> res unit * C
}.

(** The argument of [build_process]: a dict of which the keys [units] and
    [connections] are read.  The value under [units] is any value; the
    value under [connections], when there is one, is a list. *)
Record ProcessDesign : Type := {
  design_units : option value;
  design_connections : option (list value)
}.

Section Lifecycle.

Context {C : Type} {com : ComObject C} {life : ComLifecycle C}.

(** These methods leave the record [calls] as it is: it is the record of
    the calls of [setup_materials] and [run]. *)

(** interface.py, lines 48-56 *)
Definition save_simulation (file_path : string) (self : AspenPlusInterface C)
  : bool * AspenPlusInterface C :=
  let (r, self) := on_aspen (com_save_as file_path) self in
  (succeeded r, self).

(** interface.py, lines 127-128: [for param_path, value in params.items()],
    up to the first assignment that raises. *)
Fixpoint set_block_values (unit_id : string) (items : list (string * value))
    (c : C) : res unit * C :=
  match items with
  | [] => (Ok tt, c)
  | (param_path, v) :: rest =>
      match com_set_block_value unit_id param_path v c with
      | (Ok _, c') => set_block_values unit_id rest c'
      | (Raise e, c') => (Raise e, c')
      end
  end.

(** interface.py, lines 118-134 *)
Definition add_unit_operation (unit_type : value) (unit_id : string)
    (params : value) (self : AspenPlusInterface C)
  : bool * AspenPlusInterface C :=
  let body (c : C) : res unit * C :=
    match com_add_block unit_id unit_type c with
    | (Ok _, c') =>
        match py_items params with
        | Ok items => set_block_values unit_id items c'
        | Raise e => (Raise e, c')
        end
    | (Raise e, c') => (Raise e, c')
    end in
  let (r, self) := on_aspen body self in
  (succeeded r, self).

(** interface.py, lines 136-145: the [try] block only writes to the log. *)
Definition connect_blocks (source_id dest_id stream_id : value)
    (self : AspenPlusInterface C) : bool * AspenPlusInterface C :=
  (true, self).

(** interface.py, lines 210-218: [self.aspen] becomes [None] only when
    [Close()] returns. *)
Definition interface_close (self : AspenPlusInterface C)
  : AspenPlusInterface C :=
  match aspen self with
  | Some c =>
      match com_close c with
      | (Ok _, _) =>
          {| aspen_path := aspen_path self;
             aspen := None;
             calls := calls self |}
      | (Raise _, c') =>
          {| aspen_path := aspen_path self;
             aspen := Some c';
             calls := calls self |}
      end
  | None => self
  end.

(** simulation.py, lines 75-78: the loop over the units, up to the first
    unit whose data is not a dict. *)
Fixpoint add_units (items : list (string * value))
    (a : AspenPlusInterface C) : res unit * AspenPlusInterface C :=
  match items with
  | [] => (Ok tt, a)
  | (unit_id, unit_data) :: rest =>
      match py_get unit_data "type" VNone with
      | Ok unit_type =>
          match py_get unit_data "parameters" (VDict []) with
          | Ok params =>
              let (_, a) := add_unit_operation unit_type unit_id params a in
              add_units rest a
          | Raise e => (Raise e, a)
          end
      | Raise e => (Raise e, a)
      end
  end.

(** simulation.py, lines 81-85: the loop over the connections, up to the
    first one that is not a dict. *)
Fixpoint connect_all (connections : list value)
    (a : AspenPlusInterface C) : res unit * AspenPlusInterface C :=
  match connections with
  | [] => (Ok tt, a)
  | connection :: rest =>
      match py_get connection "source" VNone with
      | Ok source =>
          match py_get connection "destination" VNone with
          | Ok destination =>
              match py_get connection "stream" VNone with
              | Ok stream_id =>
                  let (_, a) :=
                    connect_blocks source destination stream_id a in
                  connect_all rest a
              | Raise e => (Raise e, a)
              end
          | Raise e => (Raise e, a)
          end
      | Raise e => (Raise e, a)
      end
  end.

(** simulation.py, lines 67-90 *)
Definition build_process (process_design : ProcessDesign)
    (self : ProcessSimulation C) : bool * ProcessSimulation C :=
  if negb (initialized self) then (false, self)
  else
    let units_value :=
      match design_units process_design with
      | Some v => v
      | None => VDict []
      end in
    match py_items units_value with
    | Ok items =>
        match add_units items (interface self) with
        | (Ok _, a) =>
            let connections :=
              match design_connections process_design with
              | Some l => l
              | None => []
              end in
            match connect_all connections a with
            | (Ok _, a) => (true, with_interface self a)
            | (Raise _, a) => (false, with_interface self a)
            end
        | (Raise _, a) => (false, with_interface self a)
        end
    | Raise _ => (false, self)
    end.

(** simulation.py, lines 110-120: the adapter's method catches every
    exception itself. *)
Definition save (file_path : string) (self : ProcessSimulation C)
  : bool * ProcessSimulation C :=
  if negb (initialized self) then (false, self)
  else
    let (ok, a) := save_simulation file_path (interface self) in
    (ok, with_interface self a).

(** simulation.py, lines 122-126 *)
Definition close (self : ProcessSimulation C) : ProcessSimulation C :=
  if initialized self then
    {| interface := interface_close (interface self);
       template_path := template_path self;
       simulation_path := simulation_path self;
       initialized := false |}
  else self.

End Lifecycle.

(** ** Vocabulary and sample data of the life cycle *)

(** The shape that [build_process] needs: the units are a dict (or are
    not given) of dicts, and every connection is a dict. *)
Definition well_shaped (process_design : ProcessDesign) : bool :=
  match design_units process_design with
  | Some (VDict units) => forallb (fun item => is_dict (snd item)) units
  | Some _ => false
  | None => true
  end
  && match design_connections process_design with
     | Some connections => forallb is_dict connections
     | None => true
     end.

(** The design with its connections left out. *)
Definition without_connections (process_design : ProcessDesign)
  : ProcessDesign :=
  {| design_units := design_units process_design;
     design_connections := None |}.

(** The recorder keeps the blocks it is given beside the streams. *)
Definition recorder_lifecycle : ComLifecycle (dict value) :=
  {| com_save_as := fun _ c => (Ok tt, c);
     com_add_block := fun unit_id unit_type c =>
                        (Ok tt, dict_set unit_id unit_type c);
     com_set_block_value := fun _ _ _ c => (Ok tt, c);
     com_close := fun c => (Ok tt, c) |}.

(** An engine that refuses to save, to take blocks and to close. *)
Definition stuck_lifecycle : ComLifecycle (dict value) :=
  {| com_save_as := fun _ c => (Raise AttributeError, c);
     com_add_block := fun _ _ c => (Raise AttributeError, c);
     com_set_block_value := fun _ _ _ c => (Raise AttributeError, c);
     com_close := fun c => (Raise AttributeError, c) |}.

(** A reactor feeding a column. *)
Definition reactor_and_column : ProcessDesign :=
  {| design_units :=
       Some (VDict [("R1", VDict [("type", VStr "RStoic");
                                  ("parameters",
                                   VDict [("TEMP", VNum 350)])]);
                    ("C1", VDict [("type", VStr "RadFrac")])]);
     design_connections :=
       Some [VDict [("source", VStr "R1"); ("destination", VStr "C1");
                    ("stream", VStr "S1")]] |}.

(** The same units with one that is not a dict between them. *)
Definition broken_design : ProcessDesign :=
  {| design_units :=
       Some (VDict [("R1", VDict [("type", VStr "RStoic")]);
                    ("X1", VStr "RadFrac");
                    ("C1", VDict [("type", VStr "RadFrac")])]);
     design_connections := None |}.

(** ** Streams without a main component *)

(** A stream has no positive flow: it has no composition, or one that
    counts as false, or one whose flows add up to zero or less. *)
Definition no_positive_flow (d : dict value) : Prop :=
  match dict_get "composition" d with
  | None => True
  | Some (VDict composition) =>
      exists total,
        py_sum (values composition) = Ok (VNum total) /\ total <= 0
  | Some v => truthy v = false
  end.

(** A stream without composition and a stream whose flows are zero. *)
Definition idle_results : dict value :=
  [("S1", VDict [("temperature", VNum 300)]);
   ("S2", VDict [("composition", VDict [("Ethanol", VNum 0)])])].

(** * Properties *)

(** ** Dictionaries *)

Lemma dict_get_set_same {A : Type} (k : string) (v : A) (d : dict A) :
  dict_get k (dict_set k v d) = Some v.
Proof.
  induction d as [|[k' v'] d IH]; simpl.
  - now rewrite String.eqb_refl.
  - destruct (String.eqb k k') eqn:E; simpl; rewrite E; auto.
Qed.

Lemma dict_get_set_other {A : Type} (k k' : string) (v : A) (d : dict A) :
  k <> k' -> dict_get k (dict_set k' v d) = dict_get k d.
Proof.
  intros Hne. induction d as [|[k0 v0] d IH]; simpl.
  - destruct (String.eqb_spec k k'); congruence.
  - destruct (String.eqb_spec k' k0) as [->|Hk]; simpl.
    + destruct (String.eqb_spec k k0); congruence.
    + now rewrite IH.
Qed.

Lemma dict_get_set {A : Type} (k k' : string) (v : A) (d : dict A) :
  dict_get k (dict_set k' v d) = if String.eqb k k' then Some v else dict_get k d.
Proof.
  destruct (String.eqb_spec k k') as [->|Hne].
  - apply dict_get_set_same.
  - now apply dict_get_set_other.
Qed.

Lemma dict_get_None_keys {A : Type} (k : string) (d : dict A) :
  dict_get k d = None <-> ~ In k (keys d).
Proof.
  induction d as [|[k' v] d IH]; simpl.
  - tauto.
  - destruct (String.eqb_spec k k') as [->|Hne].
    + split; [discriminate | tauto].
    + rewrite IH. split; intros H; [intros [?|?]; [congruence | tauto] | tauto].
Qed.

Lemma dict_get_In {A : Type} (k : string) (v : A) (d : dict A) :
  dict_get k d = Some v -> In (k, v) d.
Proof.
  induction d as [|[k' v'] d IH]; simpl; [discriminate|].
  destruct (String.eqb_spec k k') as [->|Hne].
  - intros [= ->]. now left.
  - intros H. right. auto.
Qed.

Lemma In_dict_get {A : Type} (k : string) (v : A) (d : dict A) :
  wf_dict d -> In (k, v) d -> dict_get k d = Some v.
Proof.
  unfold wf_dict. induction d as [|[k' v'] d IH]; simpl; [tauto|].
  intros Hnd [Heq|Hin]; inversion Hnd as [|? ? Hnotin Hnd']; subst.
  - inversion Heq; subst. now rewrite String.eqb_refl.
  - destruct (String.eqb_spec k k') as [->|Hne].
    + exfalso. apply Hnotin. change (In (fst (k', v)) (map fst d)).
      now apply in_map.
    + auto.
Qed.

Lemma keys_dict_set {A : Type} (k : string) (v : A) (d : dict A) :
  keys (dict_set k v d) = if dict_mem k d then keys d else List.app (keys d) [k].
Proof.
  unfold dict_mem. induction d as [|[k' v'] d IH]; simpl; [reflexivity|].
  destruct (String.eqb_spec k k') as [->|Hne]; simpl; [reflexivity|].
  rewrite IH. now destruct (dict_get k d).
Qed.

Lemma wf_dict_set {A : Type} (k : string) (v : A) (d : dict A) :
  wf_dict d -> wf_dict (dict_set k v d).
Proof.
  unfold wf_dict. intros Hnd. rewrite keys_dict_set.
  unfold dict_mem. destruct (dict_get k d) eqn:E; [assumption|].
  apply dict_get_None_keys in E.
  apply NoDup_rev in Hnd. rewrite <- (rev_involutive (List.app _ _)).
  apply NoDup_rev. rewrite rev_app_distr. simpl. constructor; [|assumption].
  now rewrite <- in_rev.
Qed.

Lemma wf_dict_nil {A : Type} : wf_dict (@nil (string * A)).
Proof. constructor. Qed.

(** ** Results *)

Lemma bind_Ok {A B : Type} (m : res A) (k : A -> res B) (b : B) :
  bind m k = Ok b -> exists a, m = Ok a /\ k a = Ok b.
Proof. destruct m; simpl; [eauto | discriminate]. Qed.

Lemma foldM_app {A B : Type} (body : B -> A -> res B) (xs ys : list A)
    (acc : B) :
  foldM body (List.app xs ys) acc = acc' <- foldM body xs acc ;; foldM body ys acc'.
Proof.
  revert acc. induction xs as [|x xs IH]; intros acc; simpl; [reflexivity|].
  destruct (body acc x); simpl; auto.
Qed.

(** An invariant of a loop that returns holds of what it returns. *)
Lemma foldM_invariant {A B : Type} (P : B -> Prop) (body : B -> A -> res B)
    (xs : list A) :
  (forall acc x acc', In x xs -> P acc -> body acc x = Ok acc' -> P acc') ->
  forall acc acc', P acc -> foldM body xs acc = Ok acc' -> P acc'.
Proof.
  induction xs as [|x xs IH]; intros Hstep acc acc' Hacc; simpl.
  - now intros [= <-].
  - intros H. apply bind_Ok in H as (a & Ha & Hrest).
    apply (IH (fun acc x acc' Hin => Hstep acc x acc' (or_intror Hin)) a).
    + apply (Hstep acc x a); auto. now left.
    + assumption.
Qed.

(** ** ProductSpecification.is_satisfied_by *)

Ltac inv_bind H :=
  let a := fresh "a" in
  let Ha := fresh "Ha" in
  apply bind_Ok in H as (a & Ha & H).

Ltac inv_Ok :=
  repeat match goal with
         | H : Ok _ = Ok _ |- _ => injection H as H; subst
         | H : Raise _ = Ok _ |- _ => discriminate H
         end.

Section Criteria.

Variable product_data : dict value.

(** Each step leaves the verdict named [k] alone when its own criterion is
    another one, when its field is unset, or when the product lacks [k]. *)
Lemma check_at_least_frame key bound results results' k :
  check_at_least key bound product_data results = Ok results' ->
  (k = key -> is_set bound = false \/ dict_get k product_data = None) ->
  dict_get k results' = dict_get k results.
Proof.
  unfold check_at_least. intros H Hk.
  destruct bound as [b|]; [|now inv_Ok].
  destruct (dict_get key product_data) as [v|] eqn:Ev; [|now inv_Ok].
  inv_bind H. inv_Ok.
  destruct (String.eqb_spec k key) as [->|Hne].
  - destruct (Hk eq_refl); [discriminate | congruence].
  - now apply dict_get_set_other.
Qed.

Lemma check_state_frame st results k :
  (k = "state" -> is_set st = false \/ dict_get k product_data = None) ->
  dict_get k (check_state st product_data results) = dict_get k results.
Proof.
  unfold check_state. intros Hk.
  destruct st as [s|]; [|reflexivity].
  destruct (dict_get "state" product_data) as [v|] eqn:Ev; [|reflexivity].
  destruct (String.eqb_spec k "state") as [->|Hne].
  - destruct (Hk eq_refl); [discriminate | congruence].
  - now apply dict_get_set_other.
Qed.

Lemma check_range_frame key range results results' k :
  check_range key range product_data results = Ok results' ->
  (k = key -> is_set range = false \/ dict_get k product_data = None) ->
  dict_get k results' = dict_get k results.
Proof.
  unfold check_range. intros H Hk.
  destruct range as [rg|]; [|now inv_Ok].
  destruct (dict_get key product_data) as [v|] eqn:Ev; [|now inv_Ok].
  destruct (String.eqb_spec k key) as [->|Hne].
  - destruct (Hk eq_refl); [discriminate | congruence].
  - destruct (dict_get "min" rg), (dict_get "max" rg);
      try inv_bind H; inv_Ok; try reflexivity;
      now apply dict_get_set_other.
Qed.

Lemma check_property_frame results results' item k :
  check_property product_data results item = Ok results' ->
  fst item <> k \/ dict_get k product_data = None ->
  dict_get k results' = dict_get k results.
Proof.
  destruct item as [prop_name prop_value]. unfold check_property. simpl.
  intros H Hk.
  destruct (String.eqb_spec k prop_name) as [->|Hne].
  - destruct Hk as [Hk|Hk]; [congruence|]. rewrite Hk in H.
    destruct (min_max_of prop_value) as [[lo hi]|]; now inv_Ok.
  - destruct (min_max_of prop_value) as [[lo hi]|];
      destruct (dict_get prop_name product_data);
      try inv_bind H; inv_Ok; try reflexivity;
      now apply dict_get_set_other.
Qed.

Lemma check_properties_frame props results results' k :
  foldM (check_property product_data) props results = Ok results' ->
  dict_get k props = None \/ dict_get k product_data = None ->
  dict_get k results' = dict_get k results.
Proof.
  revert results. induction props as [|[k0 pv] props IH]; intros results.
  - cbn. now intros [= <-].
  - cbn [foldM dict_get]. intros H Hk. inv_bind H.
    rewrite (IH a H).
    + apply (check_property_frame _ _ (k0, pv) k Ha). cbn [fst].
      destruct Hk as [Hk|Hk]; [left | now right].
      destruct (String.eqb_spec k k0); congruence.
    + destruct Hk as [Hk|Hk]; [left | now right].
      destruct (String.eqb_spec k k0); congruence.
Qed.

(** The entry of [properties] named [k] decides the verdict named [k] when
    the product has a value for it. *)
Lemma check_property_verdict results results' k prop_value v :
  check_property product_data results (k, prop_value) = Ok results' ->
  dict_get k product_data = Some v ->
  exists b, property_verdict prop_value v = Ok b
            /\ dict_get k results' = Some b.
Proof.
  unfold check_property, property_verdict. intros H Hv. rewrite Hv in H.
  destruct (min_max_of prop_value) as [[lo hi]|].
  - inv_bind H. inv_Ok. exists a. split; [assumption|].
    apply dict_get_set_same.
  - inv_Ok. eexists. split; [reflexivity|]. apply dict_get_set_same.
Qed.

Lemma check_properties_verdict props results results' k prop_value v :
  wf_dict props ->
  foldM (check_property product_data) props results = Ok results' ->
  dict_get k props = Some prop_value ->
  dict_get k product_data = Some v ->
  exists b, property_verdict prop_value v = Ok b
            /\ dict_get k results' = Some b.
Proof.
  unfold wf_dict. revert results.
  induction props as [|[k0 pv] props IH]; intros results Hwf;
    [discriminate|].
  inversion Hwf as [|? ? Hnotin Hwf']; subst.
  cbn [foldM dict_get]. intros H Hp Hv. inv_bind H.
  destruct (String.eqb_spec k k0) as [->|Hne].
  - injection Hp as ->.
    destruct (check_property_verdict _ _ _ _ _ Ha Hv) as (b & Hb & Hget).
    exists b. split; [assumption|].
    rewrite (check_properties_frame _ _ _ k0 H); [assumption|].
    left. now apply dict_get_None_keys.
  - eapply IH; eauto.
Qed.

End Criteria.

(** [is_satisfied_by] returns a verdict map whenever its comparisons are
    defined. *)
Lemma check_at_least_returns key bound product_data results :
  (forall v, dict_get key product_data = Some v -> exists q, v = VNum q) ->
  exists results',
    check_at_least key bound product_data results = Ok results'.
Proof.
  intros Hnum. unfold check_at_least. destruct bound as [b|]; [|eauto].
  destruct (dict_get key product_data) as [v|]; [|eauto].
  destruct (Hnum v eq_refl) as (q & ->). cbn. eauto.
Qed.

Lemma check_range_returns key range product_data results :
  (forall v, dict_get key product_data = Some v -> exists q, v = VNum q) ->
  exists results',
    check_range key range product_data results = Ok results'.
Proof.
  intros Hnum. unfold check_range. destruct range as [rg|]; [|eauto].
  destruct (dict_get key product_data) as [v|]; [|eauto].
  destruct (Hnum v eq_refl) as (q & ->).
  destruct (dict_get "min" rg) as [lo|], (dict_get "max" rg) as [hi|];
    cbn; eauto.
  destruct (Qle_bool lo q); cbn; eauto.
Qed.

Lemma check_properties_return product_data props results :
  (forall k prop_value lo hi v,
      In (k, prop_value) props ->
      min_max_of prop_value = Some (lo, hi) ->
      dict_get k product_data = Some v ->
      exists b, py_chain_le lo v hi = Ok b) ->
  exists results',
    foldM (check_property product_data) props results = Ok results'.
Proof.
  revert results. induction props as [|[k prop_value] props IH];
    intros results Hcmp; [cbn; eauto|].
  cbn [foldM].
  assert (Hstep : exists r, check_property product_data results (k, prop_value)
                            = Ok r).
  { unfold check_property.
    destruct (min_max_of prop_value) as [[lo hi]|] eqn:Emm;
      destruct (dict_get k product_data) as [v|] eqn:Ev; eauto.
    destruct (Hcmp k prop_value lo hi v (or_introl eq_refl) Emm Ev)
      as (b & ->). cbn. eauto. }
  destruct Hstep as (r & ->). cbn [bind]. apply IH.
  intros k' pv lo hi v Hin. apply Hcmp. now right.
Qed.

Lemma is_satisfied_by_returns self product_data :
  comparable self product_data ->
  exists results, is_satisfied_by self product_data = Ok results.
Proof.
  intros [Hnum Hcmp]. unfold is_satisfied_by.
  destruct (check_at_least_returns "purity" (purity self) product_data [])
    as (r1 & ->); [intros v; apply Hnum; cbn; tauto|]. cbn [bind].
  destruct (check_at_least_returns "yield" (yield_requirement self)
              product_data r1)
    as (r2 & ->); [intros v; apply Hnum; cbn; tauto|]. cbn [bind].
  destruct (check_range_returns "temperature" (temperature_range self)
              product_data (check_state (state self) product_data r2))
    as (r3 & ->); [intros v; apply Hnum; cbn; tauto|]. cbn [bind].
  destruct (check_range_returns "pressure" (pressure_range self)
              product_data r3)
    as (r4 & ->); [intros v; apply Hnum; cbn; tauto|]. cbn [bind].
  now apply check_properties_return.
Qed.

(** C7: whenever the specification leaves the criterion named [k] unset, or
    the product data has no field [k], the key [k] is absent from the mapping
    that [is_satisfied_by] returns; missing data never shows as a [False]
    verdict. *)
Theorem C7_missing_field_omits_criterion self product_data results k :
  is_satisfied_by self product_data = Ok results ->
  criterion_populated self k = false \/ dict_get k product_data = None ->
  dict_get k results = None /\ dict_get k results <> Some false.
Proof.
  intros H Hk. unfold is_satisfied_by in H.
  inv_bind H. rename a into r1, Ha into H1.
  inv_bind H. rename a into r2, Ha into H2.
  inv_bind H. rename a into r3, Ha into H3.
  inv_bind H. rename a into r4, Ha into H4.
  assert (Hside : forall key (field : bool),
             (String.eqb k key && field = true ->
              criterion_populated self k = true) ->
             k = key -> field = false \/ dict_get k product_data = None).
  { intros key field Himp ->. destruct Hk as [Hk|Hk]; [left | now right].
    destruct field; [|reflexivity].
    rewrite Himp in Hk; [discriminate|]. now rewrite String.eqb_refl. }
  unfold criterion_populated in Hside.
  assert (Hnone : dict_get k results = None).
  { rewrite (check_properties_frame _ _ _ _ k H).
    - rewrite (check_range_frame _ _ _ _ _ k H4).
      + rewrite (check_range_frame _ _ _ _ _ k H3).
        * rewrite check_state_frame.
          -- rewrite (check_at_least_frame _ _ _ _ _ k H2).
             ++ now rewrite (check_at_least_frame _ _ _ _ _ k H1);
                  [|apply Hside; intros ->; simpl; rewrite ?orb_true_r].
             ++ apply Hside. intros ->. now rewrite ?orb_true_r.
          -- apply Hside. intros ->. now rewrite ?orb_true_r.
        * apply Hside. intros ->. now rewrite ?orb_true_r.
      + apply Hside. intros ->. now rewrite ?orb_true_r.
    - destruct Hk as [Hk|Hk]; [left | now right].
      unfold criterion_populated, dict_mem in Hk.
      destruct (dict_get k (properties self)); [|reflexivity].
      now rewrite !orb_true_r in Hk. }
  split; [assumption | congruence].
Qed.

Lemma C7_witness :
  is_satisfied_by pure_liquid liquid_product = Ok [("state", true)]
  /\ dict_get "purity" liquid_product = None
  /\ dict_get "purity" [("state", true)] = None.
Proof.
  split; [reflexivity|]. split; [reflexivity|].
  apply (C7_missing_field_omits_criterion
           pure_liquid liquid_product [("state", true)] "purity").
  - reflexivity.
  - right. reflexivity.
Defined.

(** C10: a specification with no populated criterion (purity, yield
    requirement, state, temperature range and pressure range unset, empty
    properties map) gives the empty verdict map on every product data, and
    [all_specifications_met] is then [True]. *)
Theorem C10_unpopulated_specification_is_met self product_data :
  purity self = None ->
  yield_requirement self = None ->
  state self = None ->
  temperature_range self = None ->
  pressure_range self = None ->
  properties self = [] ->
  is_satisfied_by self product_data = Ok []
  /\ all_specifications_met self product_data = Ok true.
Proof.
  intros Hp Hy Hs Ht Hpr Hprops.
  assert (H : is_satisfied_by self product_data = Ok []).
  { unfold is_satisfied_by. now rewrite Hp, Hy, Hs, Ht, Hpr, Hprops. }
  split; [assumption|].
  unfold all_specifications_met. now rewrite H.
Qed.

Lemma C10_witness :
  is_satisfied_by (custom_spec "Ethanol" []) dense_product = Ok []
  /\ all_specifications_met (custom_spec "Ethanol" []) dense_product = Ok true.
Proof.
  apply (C10_unpopulated_specification_is_met
           (custom_spec "Ethanol" []) dense_product); reflexivity.
Defined.

(** C2, as the code has it: a custom property is a range check only when its
    dict has both keys [min] and [max], and the verdict is then
    [min <= v <= max], both ends included; a dict with only one of the two
    keys is compared with the product's value for equality, so its verdict
    on a number is [False]. *)
Theorem C2_custom_range_needs_both_keys self product_data results p d v :
  wf_dict (properties self) ->
  dict_get p (properties self) = Some (VDict d) ->
  dict_get p product_data = Some (VNum v) ->
  is_satisfied_by self product_data = Ok results ->
  (forall lo hi,
      dict_get "min" d = Some (VNum lo) ->
      dict_get "max" d = Some (VNum hi) ->
      dict_get p results = Some (Qle_bool lo v && Qle_bool v hi))
  /\ (dict_get "min" d = None \/ dict_get "max" d = None ->
      dict_get p results = Some false).
Proof.
  intros Hwf Hp Hv H. unfold is_satisfied_by in H.
  do 4 inv_bind H.
  destruct (check_properties_verdict _ _ _ _ _ _ _ Hwf H Hp Hv)
    as (b & Hb & Hget).
  rewrite Hget. unfold property_verdict, min_max_of in Hb. split.
  - intros lo hi Hlo Hhi. rewrite Hlo, Hhi in Hb.
    unfold py_chain_le in Hb. simpl in Hb.
    destruct (Qle_bool lo v); simpl in *; congruence.
  - intros Hmissing.
    destruct (dict_get "min" d) as [lo|], (dict_get "max" d) as [hi|];
      try (destruct Hmissing; discriminate);
      simpl in Hb; congruence.
Qed.

Lemma C2_witness :
  dict_get "density" [("density", true)] = Some (Qle_bool 1 5 && Qle_bool 5 9).
Proof.
  apply (C2_custom_range_needs_both_keys
           density_between dense_product [("density", true)]
           "density" [("min", VNum 1); ("max", VNum 9)] 5).
  - repeat constructor. simpl. tauto.
  - reflexivity.
  - reflexivity.
  - reflexivity.
  - reflexivity.
  - reflexivity.
Defined.

(** C2 as stated fails: with only a [min] bound of 1 the value 5 gets the
    verdict [False], although [5 >= 1]. *)
Lemma C2_counterexample :
  is_satisfied_by density_min_only dense_product = Ok [("density", false)]
  /\ Qle_bool 1 5 = true.
Proof. split; reflexivity. Qed.

(** ** SimulationResultParser.extract_product_properties *)

Lemma stream_state_cases stream_data st :
  stream_state stream_data = Ok st ->
  st = VStr "vapor" \/ st = VStr "liquid" \/ st = VStr "mixed".
Proof.
  unfold stream_state. intros H.
  inv_bind H. rename a into vf.
  inv_bind H. destruct a; [inv_Ok; auto|].
  inv_bind H. inv_bind H. destruct a0; inv_Ok; auto.
Qed.

(** Composition, main component and purity are the only keys that
    [add_composition] writes. *)
Lemma add_composition_frame stream_data properties properties' k :
  add_composition stream_data properties = Ok properties' ->
  k <> "composition" -> k <> "main_component" -> k <> "purity" ->
  dict_get k properties' = dict_get k properties.
Proof.
  unfold add_composition. intros H Hc Hm Hp.
  inv_bind H. destruct (truthy a); [|now inv_Ok].
  do 4 inv_bind H. inv_Ok.
  now rewrite !dict_get_set_other.
Qed.

Lemma stream_properties_state stream_data properties :
  stream_properties stream_data = Ok properties ->
  exists s, dict_get "state" properties = Some (VStr s)
            /\ (s = "vapor" \/ s = "liquid" \/ s = "mixed").
Proof.
  unfold stream_properties. intros H.
  do 3 inv_bind H. rename a1 into st.
  rewrite (add_composition_frame _ _ _ "state" H) by discriminate.
  simpl.
  destruct (stream_state_cases _ _ Ha1) as [-> | [-> | ->]]; eauto.
Qed.

(** What the loop over [product_streams] leaves under a stream id: the
    properties of that stream when it was requested and is in [results],
    and what was there before otherwise. *)
Lemma extract_streams_get results product_streams acc product_properties k :
  foldM (extract_stream results) product_streams acc = Ok product_properties ->
  match existsb (String.eqb k) product_streams, dict_get k results with
  | true, Some stream_data =>
      exists properties,
        stream_properties stream_data = Ok properties
        /\ dict_get k product_properties = Some properties
  | _, _ => dict_get k product_properties = dict_get k acc
  end.
Proof.
  revert acc.
  induction product_streams as [|stream_id rest IH]; intros acc H.
  - cbn in *. inv_Ok. reflexivity.
  - cbn [foldM] in H. inv_bind H. specialize (IH a H).
    cbn [existsb]. unfold extract_stream in Ha.
    destruct (String.eqb_spec k stream_id) as [->|Hne]; cbn [orb].
    + destruct (dict_get stream_id results) as [stream_data|] eqn:Er.
      * inv_bind Ha. inv_Ok. exists a0. split; [assumption|].
        destruct (existsb (String.eqb stream_id) rest).
        -- destruct IH as (properties & Hp & Hget). congruence.
        -- rewrite IH. apply dict_get_set_same.
      * inv_Ok. now destruct (existsb (String.eqb stream_id) rest).
    + destruct (dict_get stream_id results) as [stream_data|] eqn:Er.
      * inv_bind Ha. inv_Ok.
        destruct (existsb (String.eqb k) rest), (dict_get k results);
          try assumption; rewrite IH; now apply dict_get_set_other.
      * now inv_Ok.
Qed.

Lemma existsb_eqb_In k (l : list string) :
  existsb (String.eqb k) l = true <-> In k l.
Proof.
  rewrite existsb_exists. split.
  - intros (x & Hin & Heq). apply String.eqb_eq in Heq. now subst.
  - intros Hin. exists k. split; [assumption | apply String.eqb_refl].
Qed.

(** The main component of 80 of A and 20 of B is A, with purity 0.8; a
    stream that is not in the results is skipped. *)
Example extract_mixture :
  exists fraction_a fraction_b,
    extract_product_properties mixture_results ["S1"; "S2"]
    = Ok [("S1",
           [("temperature", VNum 350); ("pressure", VNum 101325);
            ("state", VStr "mixed");
            ("composition",
             VDict [("A", VNum fraction_a); ("B", VNum fraction_b)]);
            ("main_component", VStr "A"); ("purity", VNum fraction_a)])]
    /\ fraction_a == 8 # 10
    /\ fraction_b == 2 # 10.
Proof. do 2 eexists. repeat split; reflexivity. Qed.

(** No fraction is computed when the total flow is not positive. *)
Lemma mass_fractions_no_flow total flows acc :
  Qle_bool total 0 = true ->
  foldM (mass_fraction_step (VNum total)) flows acc = Ok acc.
Proof.
  intros Hle. revert acc. induction flows as [|[comp flow] flows IH];
    intros acc; [reflexivity|].
  cbn [foldM]. unfold mass_fraction_step at 1. cbn. rewrite Hle. cbn.
  apply IH.
Qed.

(** C3, as the code has it: when the composition of a requested stream is
    not empty and its flows sum to zero, the entry returned for the stream
    does hold the three keys: [composition] is the empty dict,
    [main_component] is [None] and [purity] is 0.  The three keys are absent
    when the stream has no composition or an empty one. *)
Theorem C3_zero_flow_entry_keeps_keys :
  (forall results product_streams product_properties stream_id stream_data
          composition total,
      extract_product_properties results product_streams
      = Ok product_properties ->
      In stream_id product_streams ->
      dict_get stream_id results = Some (VDict stream_data) ->
      dict_get "composition" stream_data = Some (VDict composition) ->
      composition <> [] ->
      py_sum (values composition) = Ok (VNum total) ->
      total == 0 ->
      exists entry,
        dict_get stream_id product_properties = Some entry
        /\ dict_get "composition" entry = Some (VDict [])
        /\ dict_get "main_component" entry = Some VNone
        /\ dict_get "purity" entry = Some (VNum 0))
  /\ (forall results product_streams product_properties stream_id stream_data,
         extract_product_properties results product_streams
         = Ok product_properties ->
         In stream_id product_streams ->
         dict_get stream_id results = Some (VDict stream_data) ->
         dict_get "composition" stream_data = None
         \/ dict_get "composition" stream_data = Some (VDict []) ->
         exists entry,
           dict_get stream_id product_properties = Some entry
           /\ dict_get "composition" entry = None
           /\ dict_get "main_component" entry = None
           /\ dict_get "purity" entry = None).
Proof.
  split.
  - intros results product_streams product_properties stream_id stream_data
      composition total H Hin Hres Hcomp Hne Hsum Hzero.
    pose proof (extract_streams_get _ _ _ _ stream_id H) as Hget.
    apply existsb_eqb_In in Hin. rewrite Hin, Hres in Hget.
    destruct Hget as (entry & Hprops & Hget).
    exists entry. split; [assumption|].
    unfold stream_properties in Hprops.
    do 3 inv_bind Hprops. unfold add_composition in Hprops.
    cbn [py_get] in Hprops. rewrite Hcomp in Hprops. cbn [bind] in Hprops.
    destruct composition as [|item composition]; [congruence|].
    cbn [truthy py_items bind] in Hprops. rewrite Hsum in Hprops.
    cbn [bind] in Hprops.
    rewrite mass_fractions_no_flow in Hprops.
    + cbn in Hprops. inv_Ok. repeat split; reflexivity.
    + apply Qle_bool_iff. rewrite Hzero. apply Qle_refl.
  - intros results product_streams product_properties stream_id stream_data
      H Hin Hres Hcomp.
    pose proof (extract_streams_get _ _ _ _ stream_id H) as Hget.
    apply existsb_eqb_In in Hin. rewrite Hin, Hres in Hget.
    destruct Hget as (entry & Hprops & Hget).
    exists entry. split; [assumption|].
    unfold stream_properties in Hprops.
    do 3 inv_bind Hprops. unfold add_composition in Hprops.
    cbn [py_get] in Hprops.
    destruct Hcomp as [Hcomp|Hcomp]; rewrite Hcomp in Hprops;
      cbn in Hprops; inv_Ok; repeat split; reflexivity.
Qed.

Lemma C3_witness :
  exists entry,
    dict_get "S1" [("S1",
                    [("temperature", VNum 300); ("pressure", VNum 101325);
                     ("state", VStr "liquid"); ("composition", VDict []);
                     ("main_component", VNone); ("purity", VNum 0)])]
    = Some entry
    /\ dict_get "composition" entry = Some (VDict [])
    /\ dict_get "main_component" entry = Some VNone
    /\ dict_get "purity" entry = Some (VNum 0).
Proof.
  apply (proj1 C3_zero_flow_entry_keeps_keys no_flow_results ["S1"] _ "S1"
           [("temperature", VNum 300); ("pressure", VNum 101325);
            ("vapor_fraction", VNum 0);
            ("composition", VDict [("A", VNum 0)])]
           [("A", VNum 0)] (0 + 0)).
  - reflexivity.
  - now left.
  - reflexivity.
  - reflexivity.
  - discriminate.
  - reflexivity.
  - reflexivity.
Defined.

(** C3 as stated fails: the entry of a zero-flow stream has the keys
    [composition], [main_component] and [purity]. *)
Lemma C3_counterexample :
  exists entry,
    extract_product_properties no_flow_results ["S1"] = Ok [("S1", entry)]
    /\ py_sum (values [("A", VNum 0)]) = Ok (VNum (0 + 0))
    /\ dict_mem "composition" entry = true
    /\ dict_mem "main_component" entry = true
    /\ dict_mem "purity" entry = true.
Proof. eexists. repeat split; reflexivity. Qed.

(** The phase names of the parser are not the ones a specification may
    require, [liquid] apart. *)
Lemma phase_is_not_gas_or_solid s st :
  s = "vapor" \/ s = "liquid" \/ s = "mixed" ->
  st = gas \/ st = solid ->
  py_eq (VStr s) (VStr (state_str st)) = false.
Proof. intros [-> | [-> | ->]] [-> | ->]; reflexivity. Qed.

(** C5, as the code has it: every entry that [extract_product_properties]
    produces has a [state] that is one of vapor, liquid, mixed; and for a
    specification that requires gas or solid and whose properties map has no
    entry called [state], whenever [is_satisfied_by] returns a mapping for such
    an entry the [state] criterion is in it and is [False]. *)
Theorem C5_gas_or_solid_never_met :
  (forall results product_streams product_properties stream_id entry,
      extract_product_properties results product_streams
      = Ok product_properties ->
      dict_get stream_id product_properties = Some entry ->
      exists s, dict_get "state" entry = Some (VStr s)
                /\ (s = "vapor" \/ s = "liquid" \/ s = "mixed"))
  /\ (forall results product_streams product_properties stream_id entry
             self st verdicts,
         extract_product_properties results product_streams
         = Ok product_properties ->
         dict_get stream_id product_properties = Some entry ->
         state self = Some st ->
         st = gas \/ st = solid ->
         dict_get "state" (properties self) = None ->
         is_satisfied_by self entry = Ok verdicts ->
         dict_get "state" verdicts = Some false).
Proof.
  assert (Hstate : forall results product_streams product_properties
                          stream_id entry,
             extract_product_properties results product_streams
             = Ok product_properties ->
             dict_get stream_id product_properties = Some entry ->
             exists s, dict_get "state" entry = Some (VStr s)
                       /\ (s = "vapor" \/ s = "liquid" \/ s = "mixed")).
  { intros results product_streams product_properties stream_id entry
      Hex Hentry.
    pose proof (extract_streams_get _ _ _ _ stream_id Hex) as Hget.
    destruct (existsb (String.eqb stream_id) product_streams);
      [destruct (dict_get stream_id results) as [stream_data|]|];
      try (cbn in Hget; congruence).
    destruct Hget as (properties & Hp & Hget).
    rewrite Hentry in Hget. injection Hget as <-.
    now apply stream_properties_state with (stream_data := stream_data). }
  split; [exact Hstate|].
  intros results product_streams product_properties stream_id entry
    self st verdicts Hex Hentry Hst Hgs Hprops H.
  destruct (Hstate _ _ _ _ _ Hex Hentry) as (s & Hs & Hcases).
  unfold is_satisfied_by in H.
  inv_bind H. rename a into r1. inv_bind H. rename a into r2.
  inv_bind H. rename a into r3. inv_bind H. rename a into r4.
  rewrite (check_properties_frame _ _ _ _ "state" H) by now left.
  rewrite (check_range_frame _ _ _ _ _ "state" Ha2) by discriminate.
  rewrite (check_range_frame _ _ _ _ _ "state" Ha1) by discriminate.
  unfold check_state. rewrite Hst, Hs, dict_get_set_same.
  now rewrite phase_is_not_gas_or_solid.
Qed.

Lemma C5_witness :
  is_satisfied_by gas_spec vapor_entry = Ok [("state", false)]
  /\ dict_get "state" [("state", false)] = Some false.
Proof.
  split; [reflexivity|].
  apply (proj2 C5_gas_or_solid_never_met vapor_results ["S1"]
           [("S1", vapor_entry)] "S1" vapor_entry gas_spec gas
           [("state", false)]).
  - reflexivity.
  - reflexivity.
  - reflexivity.
  - now left.
  - reflexivity.
  - reflexivity.
Defined.

(** C5 as stated fails twice on an entry that the parser produces.  A
    specification that requires a gas and whose properties map has its own
    [state] entry gets the verdict [True] for [state]: the loop over the
    properties overwrites the verdict of the state check.  And a
    specification that requires a gas and a least temperature gets no verdict
    map at all when the stream reports no temperature: comparing [None] with
    the bound raises. *)
Lemma C5_counterexample :
  extract_product_properties vapor_results ["S1"] = Ok [("S1", vapor_entry)]
  /\ state gas_spec_with_state_property = Some gas
  /\ is_satisfied_by gas_spec_with_state_property vapor_entry
     = Ok [("state", true)]
  /\ state hot_gas_spec = Some gas
  /\ is_satisfied_by hot_gas_spec vapor_entry = Raise TypeError.
Proof. repeat split; reflexivity. Qed.

(** ** SimulationResultParser.analyze_simulation_errors *)

Lemma analyze_block_flagged errors item :
  (forall d, snd item = VDict d -> dict_mem "type" d = true ->
             status_of d = VNone \/ exists s, status_of d = VStr s) ->
  analyze_block errors item
  = Ok (List.app errors (if flagged item then [diagnostic item] else [])).
Proof.
  destruct item as [block_id block_data]. unfold analyze_block, flagged,
    diagnostic. cbn [fst snd]. intros Htyped.
  destruct block_data as [| q | s | d]; try now rewrite app_nil_r.
  destruct (dict_mem "type" d) eqn:Etype; [|now rewrite app_nil_r].
  fold (status_of d).
  destruct (Htyped d eq_refl Etype) as [-> | (s & ->)]; cbn.
  - now rewrite app_nil_r.
  - destruct (String.eqb s ""); cbn; [now rewrite app_nil_r|].
    destruct (String.eqb (lower s) "ok"); cbn; [now rewrite app_nil_r|].
    reflexivity.
Qed.

Lemma analyze_blocks_flagged results errors :
  statuses_are_strings results ->
  foldM analyze_block results errors
  = Ok (List.app errors (map diagnostic (filter flagged results))).
Proof.
  revert errors. induction results as [|item results IH]; intros errors Htyped.
  - cbn. now rewrite app_nil_r.
  - cbn [foldM]. rewrite analyze_block_flagged.
    + cbn [bind]. rewrite IH.
      * cbn [filter]. destruct (flagged item); cbn [map];
          [now rewrite <- app_assoc | now rewrite app_nil_r].
      * intros block_id d Hin. apply (Htyped block_id d). now right.
    + destruct item as [block_id block_data]. cbn [snd]. intros d ->.
      apply (Htyped block_id d). now left.
Qed.

(** C9: [analyze_simulation_errors] returns one diagnostic line for every
    entry that is a dict with a [type] key and whose status is present and is
    not [ok] up to case, in the iteration order of the results, and none for
    any other entry; on the two reactors R1 (status Error) and R2 (status OK)
    it returns exactly one line, which names R1. *)
Theorem C9_one_diagnostic_per_flagged_block :
  (forall results,
      statuses_are_strings results ->
      analyze_simulation_errors results
      = Ok (map diagnostic (filter flagged results)))
  /\ analyze_simulation_errors reactor_results
     = Ok ["Block R1 has status: Error"].
Proof.
  split.
  - intros results Htyped. unfold analyze_simulation_errors.
    now rewrite analyze_blocks_flagged.
  - reflexivity.
Qed.

Lemma C9_witness :
  analyze_simulation_errors reactor_results
  = Ok (map diagnostic (filter flagged reactor_results)).
Proof.
  apply (proj1 C9_one_diagnostic_per_flagged_block reactor_results).
  intros block_id d Hin _. right.
  destruct Hin as [H | [H | []]]; injection H as <- <-; eexists; reflexivity.
Defined.

(** ** SimulationResultParser.check_specifications *)

Section CheckSpecifications.

Variable spec_dict : dict ProductSpecification.

Lemma find_spec_name product_name n spec :
  find_spec spec_dict product_name = Ok (Some (n, spec)) ->
  product_name = VStr n.
Proof.
  unfold find_spec. destruct (truthy product_name); [|discriminate].
  destruct product_name as [| q | s | d]; try discriminate.
  destruct (dict_get s spec_dict); [|discriminate].
  now intros [= -> _].
Qed.

(** A main component matches when it is a string, not the empty one, that
    is a key of the lookup. *)
Lemma find_spec_matches product_name n spec :
  find_spec spec_dict product_name = Ok (Some (n, spec))
  <-> product_name = VStr n /\ n <> "" /\ dict_get n spec_dict = Some spec.
Proof.
  split.
  - intros H. pose proof (find_spec_name _ _ _ H) as ->.
    unfold find_spec in H. cbn [truthy] in H.
    destruct (String.eqb_spec n "") as [->|Hne]; [discriminate|].
    cbn in H. destruct (dict_get n spec_dict); [|discriminate].
    injection H as <-. auto.
  - intros (-> & Hne & Hget). unfold find_spec. cbn [truthy].
    destruct (String.eqb_spec n ""); [congruence|]. cbn. now rewrite Hget.
Qed.

(** A stream whose main component is not [n] leaves the entry of [n]. *)
Lemma check_stream_frame acc acc' stream_id properties n :
  check_stream spec_dict acc (stream_id, properties) = Ok acc' ->
  main_component_of properties <> VStr n ->
  dict_get n acc' = dict_get n acc.
Proof.
  unfold check_stream. intros H Hne. inv_bind H.
  destruct a as [[product_name spec]|]; [|now inv_Ok].
  apply find_spec_name in Ha. inv_bind H. inv_Ok.
  apply dict_get_set_other. congruence.
Qed.

Lemma check_streams_frame entries acc acc' n :
  foldM (check_stream spec_dict) entries acc = Ok acc' ->
  (forall stream_id properties,
      In (stream_id, properties) entries ->
      main_component_of properties <> VStr n) ->
  dict_get n acc' = dict_get n acc.
Proof.
  revert acc. induction entries as [|[stream_id properties] entries IH];
    intros acc H Hne.
  - cbn in H. now inv_Ok.
  - cbn [foldM] in H. inv_bind H. rewrite (IH a H).
    + apply (check_stream_frame _ _ stream_id properties n Ha).
      apply (Hne stream_id). now left.
    + intros s p Hin. apply (Hne s). now right.
Qed.

Lemma check_streams_wf entries acc acc' :
  wf_dict acc -> foldM (check_stream spec_dict) entries acc = Ok acc' -> wf_dict acc'.
Proof.
  apply foldM_invariant. intros a [stream_id properties] a' _ Hwf H.
  unfold check_stream in H. inv_bind H.
  destruct a0 as [[product_name spec]|]; [|now inv_Ok].
  inv_bind H. inv_Ok. now apply wf_dict_set.
Qed.

(** After the loop, the entry of [n] is the verdict map of the last stream
    whose main component matches [n]. *)
Lemma check_streams_last earlier stream_id properties later acc acc' n spec :
  foldM (check_stream spec_dict)
        (List.app earlier ((stream_id, properties) :: later)) acc = Ok acc' ->
  find_spec spec_dict (main_component_of properties) = Ok (Some (n, spec)) ->
  (forall s p, In (s, p) later -> main_component_of p <> VStr n) ->
  exists verdicts,
    is_satisfied_by spec properties = Ok verdicts
    /\ dict_get n acc' = Some verdicts.
Proof.
  intros H Hfound Hlater.
  rewrite foldM_app in H. inv_bind H. cbn [foldM] in H. inv_bind H.
  rewrite (check_streams_frame _ _ _ n H Hlater).
  unfold check_stream in Ha0. rewrite Hfound in Ha0.
  cbn [bind] in Ha0. inv_bind Ha0. inv_Ok.
  eexists. split; [eassumption | apply dict_get_set_same].
Qed.

End CheckSpecifications.

(** C6: the result of [check_specifications] is keyed by specification
    name, not by stream id.  When two stream entries have the same main
    component and it matches the known specification name [n] (the test
    [product_name and product_name in spec_dict] finds it), the second
    being the last entry with that main component, the result holds exactly
    one entry for [n]: the verdict map of [is_satisfied_by] on the properties
    of the second stream. *)
Theorem C6_later_stream_overwrites product_properties specifications results
    before s1 p1 middle s2 p2 after n spec :
  product_properties
  = List.app before ((s1, p1) :: List.app middle ((s2, p2) :: after)) ->
  find_spec (spec_lookup specifications) (main_component_of p1)
  = Ok (Some (n, spec)) ->
  find_spec (spec_lookup specifications) (main_component_of p2)
  = Ok (Some (n, spec)) ->
  (forall s p, In (s, p) after -> main_component_of p <> VStr n) ->
  check_specifications product_properties specifications = Ok results ->
  main_component_of p1 = main_component_of p2
  /\ exists verdicts,
       is_satisfied_by spec p2 = Ok verdicts
       /\ dict_get n results = Some verdicts
       /\ count_occ string_dec (keys results) n = 1%nat.
Proof.
  intros -> Hm1 Hm2 Hafter H. unfold check_specifications in H.
  split.
  { apply find_spec_name in Hm1, Hm2. congruence. }
  pose proof (check_streams_wf _ _ _ _ wf_dict_nil H) as Hwf.
  change ((s1, p1) :: List.app middle ((s2, p2) :: after))
    with (List.app [(s1, p1)] (List.app middle ((s2, p2) :: after))) in H.
  rewrite !app_assoc in H.
  destruct (check_streams_last _ _ _ _ _ _ _ n spec H Hm2 Hafter)
    as (verdicts & Hv & Hget).
  exists verdicts. split; [assumption|]. split; [assumption|].
  apply NoDup_count_occ'; [exact Hwf|].
  apply dict_get_In in Hget.
  change n with (fst (n, verdicts)). now apply in_map.
Qed.

Lemma C6_witness :
  main_component_of pure_ethanol = main_component_of dilute_ethanol
  /\ exists verdicts,
       is_satisfied_by ethanol_spec dilute_ethanol = Ok verdicts
       /\ dict_get "Ethanol" [("Ethanol", [("purity", false)])] = Some verdicts
       /\ count_occ string_dec (keys [("Ethanol", [("purity", false)])])
            "Ethanol" = 1%nat.
Proof.
  apply (C6_later_stream_overwrites two_ethanol_streams [ethanol_spec]
           [("Ethanol", [("purity", false)])]
           [] "P1" pure_ethanol [] "P2" dilute_ethanol [] "Ethanol"
           ethanol_spec).
  - reflexivity.
  - reflexivity.
  - reflexivity.
  - intros s p [].
  - reflexivity.
Defined.

(** ** ProcessSimulation *)

Lemma or_default_defaulted x default :
  defaulted x default (or_default x default).
Proof.
  unfold defaulted, or_default. destruct x as [q|]; [|reflexivity].
  destruct (Qeq_bool q 0) eqn:E.
  - apply Qeq_bool_iff in E. tauto.
  - apply Qeq_bool_neq in E. tauto.
Qed.

Lemma added_streams_app cs cs' :
  added_streams (List.app cs cs')
  = List.app (added_streams cs) (added_streams cs').
Proof.
  induction cs as [|c cs IH]; [reflexivity|].
  destruct c; cbn; now rewrite IH.
Qed.

Lemma feed_streams_from_length i materials :
  List.length (feed_streams_from i materials) = List.length materials.
Proof.
  revert i. induction materials as [|m rest IH]; intros i; cbn; auto.
Qed.

Lemma feed_streams_from_nth i materials j material :
  nth_error materials j = Some material ->
  nth_error (feed_streams_from i materials) j
  = Some (feed_stream_id (i + j), feed_stream_data material).
Proof.
  revert i j. induction materials as [|m rest IH]; intros i [|j];
    cbn [nth_error feed_streams_from]; try discriminate.
  - intros [= ->]. now rewrite Nat.add_0_r.
  - intros H. rewrite (IH (S i) j H). now rewrite Nat.add_succ_r.
Qed.

Section Orchestrator.

Context {C : Type} {com : ComObject C}.

Lemma calls_on_aspen {A : Type} (body : C -> res A * C)
    (a : AspenPlusInterface C) :
  calls (snd (on_aspen body a)) = calls a.
Proof.
  unfold on_aspen. destruct (aspen a) as [c|]; [|reflexivity].
  now destruct (body c).
Qed.

Lemma calls_add_component component_id formula (a : AspenPlusInterface C) :
  calls (snd (add_component component_id formula a))
  = List.app (calls a) [CallAddComponent component_id formula].
Proof.
  unfold add_component.
  pose proof (calls_on_aspen (com_add_component component_id formula)
                (called (CallAddComponent component_id formula) a)) as H.
  destruct (on_aspen _ _). exact H.
Qed.

Lemma calls_set_property_method method_name (a : AspenPlusInterface C) :
  calls (snd (set_property_method method_name a))
  = List.app (calls a) [CallSetPropertyMethod method_name].
Proof.
  unfold set_property_method.
  pose proof (calls_on_aspen (com_set_property_method method_name)
                (called (CallSetPropertyMethod method_name) a)) as H.
  destruct (on_aspen _ _). exact H.
Qed.

Lemma calls_add_stream stream_id stream_data (a : AspenPlusInterface C) :
  calls (snd (add_stream stream_id stream_data a))
  = List.app (calls a) [CallAddStream stream_id stream_data].
Proof.
  unfold add_stream.
  pose proof (calls_on_aspen (com_add_stream stream_id stream_data)
                (called (CallAddStream stream_id stream_data) a)) as H.
  destruct (on_aspen _ _). exact H.
Qed.

(** Registering the components adds no stream. *)
Lemma added_streams_add_components materials (a : AspenPlusInterface C) :
  added_streams (calls (add_components materials a)) = added_streams (calls a).
Proof.
  revert a. induction materials as [|material rest IH]; intros a;
    [reflexivity|].
  cbn [add_components].
  pose proof (calls_add_component (material_name material)
                (material_formula material) a) as H.
  destruct (add_component _ _ a) as [ok a']. cbn [snd] in H.
  rewrite IH, H, added_streams_app. cbn. apply app_nil_r.
Qed.

(** The loop over the materials adds one stream per material, numbered from
    the position of the material. *)
Lemma added_streams_add_feed_streams materials i (a : AspenPlusInterface C) :
  added_streams (calls (add_feed_streams i materials a))
  = List.app (added_streams (calls a)) (feed_streams_from i materials).
Proof.
  revert i a. induction materials as [|material rest IH]; intros i a.
  - cbn. now rewrite app_nil_r.
  - cbn [add_feed_streams feed_streams_from].
    pose proof (calls_add_stream (feed_stream_id i)
                  (feed_stream_data material) a) as H.
    destruct (add_stream _ _ a) as [ok a']. cbn [snd] in H.
    rewrite IH, H, added_streams_app. cbn [added_streams].
    now rewrite <- app_assoc.
Qed.

End Orchestrator.

(** C1, as the code has it: on an initialized orchestrator
    [setup_materials] returns [True] and hands the adapter exactly one feed
    stream per material, in list order, the i-th named FEED_i (counting from
    1); its data carries the composition [{name: amount}], the temperature
    and the pressure of the material, where amount, temperature and pressure
    are replaced by 100, 298.15 and 101325 when they are unset and also when
    they are zero. *)
Theorem C1_feed_streams_in_list_order {C : Type} {com : ComObject C}
    (materials : list RawMaterial) (self : ProcessSimulation C) :
  initialized self = true ->
  exists streams,
    fst (setup_materials materials self) = true
    /\ added_streams (calls (interface (snd (setup_materials materials self))))
       = List.app (added_streams (calls (interface self))) streams
    /\ List.length streams = List.length materials
    /\ forall i material,
         nth_error materials i = Some material ->
         exists t p a,
           nth_error streams i
           = Some ("FEED_" ++ str_of_nat (i + 1),
                   [("temperature", VNum t);
                    ("pressure", VNum p);
                    ("composition",
                     VDict [(material_name material, VNum a)])])
           /\ defaulted (temperature material) (29815 # 100) t
           /\ defaulted (pressure material) 101325 p
           /\ defaulted (amount material) 100 a.
Proof.
  intros Hinit. exists (feed_streams_from 0 materials).
  unfold setup_materials. rewrite Hinit. cbn [negb].
  pose proof (calls_set_property_method "NRTL"
                (add_components materials (interface self))) as Hcalls.
  destruct (set_property_method "NRTL" _) as [ok a]. cbn [snd fst] in *.
  split; [reflexivity|]. split; [|split].
  - cbn [with_interface interface].
    rewrite added_streams_add_feed_streams, Hcalls, added_streams_app.
    rewrite added_streams_add_components. cbn [added_streams].
    now rewrite app_nil_r.
  - apply feed_streams_from_length.
  - intros i material Hnth.
    exists (or_default (temperature material) (29815 # 100)),
      (or_default (pressure material) 101325),
      (or_default (amount material) 100).
    split; [|repeat split; apply or_default_defaulted].
    now rewrite (feed_streams_from_nth 0 materials i material Hnth).
Qed.

Lemma C1_witness :
  initialized ready_simulation = true
  /\ fst (setup_materials (com := recorder) [water; empty_feed]
            ready_simulation) = true.
Proof.
  split; [reflexivity|].
  destruct (C1_feed_streams_in_list_order (com := recorder)
              [water; empty_feed] ready_simulation eq_refl)
    as (streams & Hok & _).
  exact Hok.
Defined.

(** C1 as stated fails: a feed whose amount is set, to zero, gets a stream
    that carries 100 and not the amount that was set. *)
Lemma C1_counterexample :
  amount empty_feed = Some 0
  /\ added_streams
       (calls (interface (snd (setup_materials (com := recorder) [empty_feed]
                                 ready_simulation))))
     = [("FEED_1",
         [("temperature", VNum 350); ("pressure", VNum 101325);
          ("composition", VDict [("Water", VNum 100)])])]
  /\ stated_feed_stream_data empty_feed
     = [("temperature", VNum 350); ("pressure", VNum 101325);
        ("composition", VDict [("Water", VNum 0)])]
  /\ ~ 100 == 0.
Proof. repeat split; try reflexivity. intros H. discriminate H. Qed.

(** C8: [run] on an orchestrator that is not initialized, one on which
    [initialize] was never called or failed, returns exactly [(False, {})]
    and leaves the adapter as it was, no call made; and whenever [run] does
    not succeed the results it returns are the empty mapping. *)
Theorem C8_run_without_success_returns_nothing {C : Type} {com : ComObject C} :
  (forall self : ProcessSimulation C,
      initialized self = false -> run self = ((false, []), self))
  /\ (forall (self self' : ProcessSimulation C) results,
         run self = ((false, results), self') -> results = [])
  /\ (forall path template,
         initialized (new_simulation (C := C) path template) = false)
  /\ (forall self self' : ProcessSimulation C,
         initialized self = false ->
         initialize self = (false, self') ->
         initialized self' = false).
Proof.
  repeat split.
  - intros self Hinit. unfold run. now rewrite Hinit.
  - intros self self' results. unfold run.
    destruct (initialized self); cbn [negb]; [|congruence].
    destruct (run_simulation (interface self)) as [ok a].
    destruct ok; [|congruence].
    destruct (get_simulation_results a). discriminate.
  - intros self self' Hinit. unfold initialize.
    destruct (interface_initialize (interface self)) as [ok a].
    destruct ok.
    + cbn [with_interface interface template_path].
      destruct (load_simulation (template_path self) a) as [ok' a'].
      destruct ok'; [discriminate|].
      intros [= <-]. exact Hinit.
    + intros [= <-]. exact Hinit.
Qed.

Lemma C8_witness :
  initialized fresh_simulation = false
  /\ run (com := recorder) fresh_simulation = ((false, []), fresh_simulation).
Proof.
  split; [reflexivity|].
  apply (proj1 (C8_run_without_success_returns_nothing (com := recorder))).
  reflexivity.
Defined.

(** ** SimulationResultParser.check_mass_balance *)

Lemma flows_eta (fl : flows) : {| input := input fl; output := output fl |} = fl.
Proof. now destruct fl. Qed.

Lemma flows_or_zero_set component_balance comp fl k :
  flows_or_zero (dict_set comp fl component_balance) k
  = if String.eqb k comp then fl else flows_or_zero component_balance k.
Proof.
  unfold flows_or_zero. rewrite dict_get_set.
  now destruct (String.eqb k comp).
Qed.

Lemma component_flows_cons comp c flow items :
  component_flows comp ((c, flow) :: items)
  = if String.eqb c comp
    then flow_number flow :: component_flows comp items
    else component_flows comp items.
Proof.
  unfold component_flows. cbn [filter fst].
  now destruct (String.eqb c comp).
Qed.

Lemma component_flows_app comp items items' :
  component_flows comp (List.app items items')
  = List.app (component_flows comp items) (component_flows comp items').
Proof. unfold component_flows. now rewrite filter_app, map_app. Qed.

(** One step of either loop: the entry of [comp] is there afterwards, with
    the flow added on the side of the loop. *)
Lemma add_input_step component_balance comp q :
  exists component_balance',
    add_input component_balance (comp, VNum q) = Ok component_balance'
    /\ (wf_dict component_balance -> wf_dict component_balance')
    /\ forall k,
         flows_or_zero component_balance' k
         = if String.eqb k comp
           then {| input := input (flows_or_zero component_balance k) + q;
                   output := output (flows_or_zero component_balance k) |}
           else flows_or_zero component_balance k.
Proof.
  unfold add_input, dict_mem, flows_or_zero.
  destruct (dict_get comp component_balance) as [fl|] eqn:E.
  - rewrite E. cbn. eexists. split; [reflexivity|].
    split; [apply wf_dict_set|]. intros k. rewrite dict_get_set.
    destruct (String.eqb_spec k comp) as [->|Hne]; [now rewrite E | reflexivity].
  - rewrite dict_get_set_same. cbn. eexists. split; [reflexivity|].
    split; [intros Hwf; now do 2 apply wf_dict_set|].
    intros k. rewrite !dict_get_set.
    destruct (String.eqb_spec k comp) as [->|Hne]; [now rewrite E | reflexivity].
Qed.

Lemma add_output_step component_balance comp q :
  exists component_balance',
    add_output component_balance (comp, VNum q) = Ok component_balance'
    /\ (wf_dict component_balance -> wf_dict component_balance')
    /\ forall k,
         flows_or_zero component_balance' k
         = if String.eqb k comp
           then {| input := input (flows_or_zero component_balance k);
                   output := output (flows_or_zero component_balance k) + q |}
           else flows_or_zero component_balance k.
Proof.
  unfold add_output, dict_mem, flows_or_zero.
  destruct (dict_get comp component_balance) as [fl|] eqn:E.
  - rewrite E. cbn. eexists. split; [reflexivity|].
    split; [apply wf_dict_set|]. intros k. rewrite dict_get_set.
    destruct (String.eqb_spec k comp) as [->|Hne]; [now rewrite E | reflexivity].
  - rewrite dict_get_set_same. cbn. eexists. split; [reflexivity|].
    split; [intros Hwf; now do 2 apply wf_dict_set|].
    intros k. rewrite !dict_get_set.
    destruct (String.eqb_spec k comp) as [->|Hne]; [now rewrite E | reflexivity].
Qed.

(** The loop over numeric flows returns, with every input total moved on by
    the flows of its component. *)
Lemma add_inputs_total items component_balance :
  numeric_items items ->
  exists component_balance',
    foldM add_input items component_balance = Ok component_balance'
    /\ (wf_dict component_balance -> wf_dict component_balance')
    /\ forall k,
         flows_or_zero component_balance' k
         = {| input := fold_left Qplus (component_flows k items)
                         (input (flows_or_zero component_balance k));
              output := output (flows_or_zero component_balance k) |}.
Proof.
  revert component_balance.
  induction items as [|[comp flow] items IH]; intros cb Hnum.
  - exists cb. cbn. repeat split; auto. intros k. now rewrite flows_eta.
  - destruct (Hnum comp flow (or_introl eq_refl)) as (q & ->).
    destruct (add_input_step cb comp q) as (cb1 & Hstep & Hwf1 & Hget1).
    destruct (IH cb1) as (cb' & Hrest & Hwf' & Hget').
    { intros c f Hin. apply (Hnum c f). now right. }
    exists cb'. cbn [foldM]. rewrite Hstep. cbn [bind].
    split; [assumption|]. split; [auto|].
    intros k. rewrite Hget', Hget1, component_flows_cons.
    rewrite (String.eqb_sym comp k).
    now destruct (String.eqb k comp).
Qed.

Lemma add_outputs_total items component_balance :
  numeric_items items ->
  exists component_balance',
    foldM add_output items component_balance = Ok component_balance'
    /\ (wf_dict component_balance -> wf_dict component_balance')
    /\ forall k,
         flows_or_zero component_balance' k
         = {| input := input (flows_or_zero component_balance k);
              output := fold_left Qplus (component_flows k items)
                          (output (flows_or_zero component_balance k)) |}.
Proof.
  revert component_balance.
  induction items as [|[comp flow] items IH]; intros cb Hnum.
  - exists cb. cbn. repeat split; auto. intros k. now rewrite flows_eta.
  - destruct (Hnum comp flow (or_introl eq_refl)) as (q & ->).
    destruct (add_output_step cb comp q) as (cb1 & Hstep & Hwf1 & Hget1).
    destruct (IH cb1) as (cb' & Hrest & Hwf' & Hget').
    { intros c f Hin. apply (Hnum c f). now right. }
    exists cb'. cbn [foldM]. rewrite Hstep. cbn [bind].
    split; [assumption|]. split; [auto|].
    intros k. rewrite Hget', Hget1, component_flows_cons.
    rewrite (String.eqb_sym comp k).
    now destruct (String.eqb k comp).
Qed.

(** The loop over the streams of one side is the loop over their flows. *)
Lemma sum_streams_items add results stream_ids component_balance :
  (forall stream_id,
      In stream_id stream_ids ->
      exists d,
        dict_get stream_id results = Some (VDict d)
        /\ forall v, dict_get "composition" d = Some v ->
                     exists composition, v = VDict composition) ->
  sum_streams add results stream_ids component_balance
  = foldM add (items_of_streams results stream_ids) component_balance.
Proof.
  unfold sum_streams. revert component_balance.
  induction stream_ids as [|stream_id rest IH]; intros cb Hdicts;
    [reflexivity|].
  cbn [foldM items_of_streams flat_map].
  destruct (Hdicts stream_id (or_introl eq_refl)) as (d & Hget & Hcomp).
  rewrite Hget. cbn [py_get composition_items].
  assert (Hitems :
            py_items (match dict_get "composition" d with
                      | Some v => v
                      | None => VDict []
                      end)
            = Ok (match dict_get "composition" d with
                  | Some (VDict composition) => composition
                  | _ => []
                  end)).
  { destruct (dict_get "composition" d) as [v|]; [|reflexivity].
    destruct (Hcomp v eq_refl) as (composition & ->). reflexivity. }
  cbn [bind]. rewrite Hitems. cbn [bind]. rewrite foldM_app.
  destruct (foldM add _ cb) as [cb1|e]; [|reflexivity]. cbn [bind].
  apply IH. intros s Hin. apply Hdicts. now right.
Qed.

(** The identifiers that the comprehensions select on one side lead to the
    flows of that side. *)
Lemma selected_streams_items results side (l : dict value) :
  (forall stream_id entry,
      In (stream_id, entry) l -> dict_get stream_id results = Some entry) ->
  items_of_streams results
    (filter side (filter (selects_stream results) (keys l)))
  = side_items side l.
Proof.
  induction l as [|[stream_id entry] l IH]; intros Hget; [reflexivity|].
  cbn [keys map fst filter side_items flat_map snd].
  fold (keys l). fold (side_items side l).
  rewrite <- IH by (intros s e Hin; apply Hget; now right).
  pose proof (Hget stream_id entry (or_introl eq_refl)) as Hentry.
  unfold selects_stream at 1. rewrite Hentry.
  destruct (is_stream entry); cbn [andb filter]; [|reflexivity].
  destruct (side stream_id); [|reflexivity].
  cbn [items_of_streams flat_map]. now rewrite Hentry.
Qed.

Lemma product_is_not_feed s :
  startswith s "PRODUCT" = true -> is_feed s = false.
Proof.
  unfold is_feed, startswith. destruct s as [|c s]; [discriminate|].
  cbn [String.prefix].
  destruct (ascii_dec "P" c) as [<-|]; [reflexivity | discriminate].
Qed.

(** Among the streams, the test of the output side holds of those that are
    not inputs. *)
Lemma output_streams_are_not_feeds (streams : list string) :
  filter (fun s => startswith s "PRODUCT"
                   || negb (existsb (String.eqb s)
                              (filter (fun s => startswith s "FEED") streams)))
         streams
  = filter is_not_feed streams.
Proof.
  apply filter_ext_in. intros s Hin. unfold is_not_feed.
  destruct (startswith s "PRODUCT") eqn:Eproduct.
  - now rewrite (product_is_not_feed s Eproduct).
  - cbn [orb]. f_equal. apply eq_true_iff_eq.
    rewrite existsb_eqb_In, filter_In. unfold is_feed. tauto.
Qed.

(** The report has the relative error of the components whose input total
    is positive, and only those. *)
Lemma balance_errors_get component_balance k :
  wf_dict component_balance ->
  dict_get k (balance_errors component_balance)
  = let fl := flows_or_zero component_balance k in
    if Qle_bool (input fl) 0 then None
    else Some ((output fl - input fl) / input fl).
Proof.
  unfold balance_errors, wf_dict.
  assert (Hgen : forall acc,
             NoDup (keys component_balance) ->
             dict_get k
               (fold_left
                  (fun errors (item : string * flows) =>
                     let (comp, fl) := item in
                     if negb (Qle_bool (input fl) 0)
                     then dict_set comp
                            ((output fl - input fl) / input fl) errors
                     else errors)
                  component_balance acc)
             = match dict_get k component_balance with
               | Some fl =>
                   if Qle_bool (input fl) 0 then dict_get k acc
                   else Some ((output fl - input fl) / input fl)
               | None => dict_get k acc
               end).
  { induction component_balance as [|[comp fl] cb IH]; intros acc Hnd;
      [reflexivity|].
    inversion Hnd as [|? ? Hnotin Hnd']; subst.
    cbn [fold_left dict_get]. rewrite (IH _ Hnd').
    destruct (String.eqb_spec k comp) as [->|Hne].
    - apply dict_get_None_keys in Hnotin. rewrite Hnotin.
      destruct (Qle_bool (input fl) 0); cbn [negb];
        [reflexivity | apply dict_get_set_same].
    - destruct (Qle_bool (input fl) 0); cbn [negb];
        rewrite ?(dict_get_set_other k comp) by assumption; reflexivity. }
  intros Hwf. rewrite (Hgen [] Hwf). unfold flows_or_zero. cbn.
  destruct (dict_get k component_balance) as [fl|]; [|reflexivity].
  now destruct (Qle_bool (input fl) 0).
Qed.

(** The flows of the streams of a side are numbers when the compositions
    are. *)
Lemma numeric_side_items side results :
  numeric_compositions results -> numeric_items (side_items side results).
Proof.
  unfold numeric_compositions, side_items. intros Hnum comp flow Hin.
  apply in_flat_map in Hin as ([stream_id entry] & Hentry & Hin).
  cbn [fst snd] in Hin.
  destruct (is_stream entry && side stream_id); [|contradiction].
  destruct entry as [| q | s | d]; try contradiction.
  cbn [composition_items] in Hin.
  destruct (dict_get "composition" d) as [v|] eqn:Ev; [|contradiction].
  destruct (Hnum stream_id d v Hentry Ev) as (composition & -> & Hitems).
  now apply (Hitems comp flow).
Qed.

Lemma selected_streams_are_dicts results side (ids : list string) stream_id :
  numeric_compositions results ->
  In stream_id (filter side (filter (selects_stream results) ids)) ->
  exists d,
    dict_get stream_id results = Some (VDict d)
    /\ forall v, dict_get "composition" d = Some v ->
                 exists composition, v = VDict composition.
Proof.
  intros Hnum Hin. apply filter_In in Hin as [Hin _].
  apply filter_In in Hin as [_ Hsel]. unfold selects_stream in Hsel.
  destruct (dict_get stream_id results) as [entry|] eqn:Hget; [|discriminate].
  destruct entry as [| q | s | d]; try discriminate.
  exists d. split; [reflexivity|]. intros v Hv.
  destruct (Hnum stream_id d v (dict_get_In _ _ _ Hget) Hv)
    as (composition & -> & _).
  now exists composition.
Qed.

Lemma component_total_absent comp items :
  (forall flow, ~ In (comp, flow) items) -> component_total comp items = 0.
Proof.
  intros Habsent. unfold component_total, component_flows.
  replace (filter (fun item => String.eqb (fst item) comp) items)
    with (@nil (string * value)); [reflexivity|].
  symmetry. induction items as [|[c flow] items IH]; [reflexivity|].
  cbn [filter fst]. destruct (String.eqb_spec c comp) as [->|Hne].
  - exfalso. apply (Habsent flow). now left.
  - apply IH. intros f Hin. apply (Habsent f). now right.
Qed.

(** C4: the streams of [check_mass_balance] are the dict-valued entries
    with a [composition] key, inputs when their id starts with FEED and
    outputs otherwise.  On results whose compositions are dicts of numbers it
    returns a report that gives a component the relative error
    (output_total - input_total) / input_total when its input total is
    positive and leaves it out otherwise: a component whose input total is
    zero is left out, and so is one that only output streams have.  One feed
    with 100 of A and one other stream X with 90 of A give {A: -0.1}. *)
Theorem C4_mass_balance_relative_error :
  (forall results,
      wf_dict results ->
      numeric_compositions results ->
      exists report,
        check_mass_balance results = Ok report
        /\ (forall comp,
               dict_get comp report
               = if Qle_bool (input_total comp results) 0 then None
                 else Some ((output_total comp results
                             - input_total comp results)
                            / input_total comp results))
        /\ (forall comp,
               input_total comp results == 0 -> dict_get comp report = None)
        /\ (forall comp,
               (forall flow, ~ In (comp, flow) (side_items is_feed results)) ->
               dict_get comp report = None))
  /\ (exists error,
         check_mass_balance feed_and_product = Ok [("A", error)]
         /\ error == - (1 # 10)).
Proof.
  split.
  - intros results Hwf Hnum. unfold check_mass_balance.
    rewrite output_streams_are_not_feeds.
    change (fun s : string => startswith s "FEED") with is_feed.
    rewrite sum_streams_items
      by (intros s Hin; eapply selected_streams_are_dicts; eauto).
    rewrite selected_streams_items
      by (intros s e Hin; now apply In_dict_get).
    destruct (add_inputs_total (side_items is_feed results) [])
      as (cb1 & H1 & Hwf1 & Hget1); [now apply numeric_side_items|].
    rewrite H1. cbn [bind].
    rewrite sum_streams_items
      by (intros s Hin; eapply selected_streams_are_dicts; eauto).
    rewrite selected_streams_items
      by (intros s e Hin; now apply In_dict_get).
    destruct (add_outputs_total (side_items is_not_feed results) cb1)
      as (cb2 & H2 & Hwf2 & Hget2); [now apply numeric_side_items|].
    rewrite H2. cbn [bind].
    assert (Hreport : forall comp,
               dict_get comp (balance_errors cb2)
               = if Qle_bool (input_total comp results) 0 then None
                 else Some ((output_total comp results
                             - input_total comp results)
                            / input_total comp results)).
    { intros comp. rewrite balance_errors_get by (apply Hwf2, Hwf1, wf_dict_nil).
      rewrite Hget2, Hget1. reflexivity. }
    eexists. split; [reflexivity|]. split; [exact Hreport|]. split.
    + intros comp Hzero. rewrite Hreport.
      replace (Qle_bool (input_total comp results) 0) with true;
        [reflexivity|].
      symmetry. apply Qle_bool_iff. rewrite Hzero. apply Qle_refl.
    + intros comp Habsent. rewrite Hreport. unfold input_total.
      now rewrite component_total_absent.
  - eexists. split; [reflexivity|]. reflexivity.
Qed.

Lemma C4_witness :
  exists report,
    check_mass_balance feed_and_product = Ok report
    /\ dict_get "A" report
       = Some ((output_total "A" feed_and_product
                - input_total "A" feed_and_product)
               / input_total "A" feed_and_product).
Proof.
  destruct (proj1 C4_mass_balance_relative_error feed_and_product)
    as (report & Hreport & Hget & _).
  - repeat constructor; cbn; intuition discriminate.
  - intros stream_id d v [H | [H | []]] Hv; injection H as <- <-;
      injection Hv as <-; eexists; (split; [reflexivity|]);
      intros comp flow [Hin | []]; injection Hin as <- <-; eexists;
      reflexivity.
  - exists report. split; [assumption|]. rewrite Hget. reflexivity.
Defined.

(** * Further properties *)

(** ** ProductSpecification: the built-in criteria *)

Lemma check_at_least_verdict key bound product_data results results' v :
  check_at_least key (Some bound) product_data results = Ok results' ->
  dict_get key product_data = Some (VNum v) ->
  dict_get key results' = Some (Qle_bool bound v).
Proof.
  unfold check_at_least. intros H Hv. rewrite Hv in H. cbn in H. inv_Ok.
  apply dict_get_set_same.
Qed.

Lemma check_range_verdict key range product_data results results' x :
  check_range key (Some range) product_data results = Ok results' ->
  dict_get key product_data = Some (VNum x) ->
  dict_get key results'
  = match range_verdict range x with
    | Some b => Some b
    | None => dict_get key results
    end.
Proof.
  unfold check_range, range_verdict. intros H Hx. rewrite Hx in H.
  destruct (dict_get "min" range) as [lo|], (dict_get "max" range) as [hi|];
    cbn in H.
  - destruct (Qle_bool lo x); cbn in H; inv_Ok; apply dict_get_set_same.
  - inv_Ok. apply dict_get_set_same.
  - inv_Ok. apply dict_get_set_same.
  - now inv_Ok.
Qed.

(** The verdict map starts empty, so a key that no step has written yet is
    not in it. *)
Lemma check_at_least_other key bound product_data results results' k :
  check_at_least key bound product_data results = Ok results' ->
  k <> key ->
  dict_get k results' = dict_get k results.
Proof.
  intros H Hne. apply (check_at_least_frame _ _ _ _ _ k H). congruence.
Qed.

Lemma check_range_other key range product_data results results' k :
  check_range key range product_data results = Ok results' ->
  k <> key ->
  dict_get k results' = dict_get k results.
Proof.
  intros H Hne. apply (check_range_frame _ _ _ _ _ k H). congruence.
Qed.

Lemma check_state_other st product_data results k :
  k <> "state" ->
  dict_get k (check_state st product_data results) = dict_get k results.
Proof. intros Hne. apply check_state_frame. congruence. Qed.

(** X1: the temperature and pressure ranges take one-sided bounds.  When the
    product's temperature is a number and no custom property is called
    [temperature], the verdict named [temperature] is [min <= t <= max] with
    both bounds, [t >= min] with only [min], [t <= max] with only [max], and
    there is no such verdict when the range has neither bound; the same holds
    of [pressure]. *)
Theorem X1_range_bounds_may_be_one_sided self product_data results :
  is_satisfied_by self product_data = Ok results ->
  (forall range t,
      temperature_range self = Some range ->
      dict_get "temperature" product_data = Some (VNum t) ->
      dict_get "temperature" (properties self) = None ->
      dict_get "temperature" results = range_verdict range t)
  /\ (forall range p,
         pressure_range self = Some range ->
         dict_get "pressure" product_data = Some (VNum p) ->
         dict_get "pressure" (properties self) = None ->
         dict_get "pressure" results = range_verdict range p).
Proof.
  intros H. unfold is_satisfied_by in H.
  inv_bind H. rename a into r1, Ha into H1.
  inv_bind H. rename a into r2, Ha into H2.
  inv_bind H. rename a into r3, Ha into H3.
  inv_bind H. rename a into r4, Ha into H4.
  split.
  - intros range t Hrange Ht Hprop.
    rewrite (check_properties_frame _ _ _ _ "temperature" H) by now left.
    rewrite (check_range_other _ _ _ _ _ "temperature" H4) by discriminate.
    rewrite Hrange in H3.
    rewrite (check_range_verdict _ _ _ _ _ _ H3 Ht).
    destruct (range_verdict range t); [reflexivity|].
    rewrite check_state_other by discriminate.
    rewrite (check_at_least_other _ _ _ _ _ "temperature" H2) by discriminate.
    now rewrite (check_at_least_other _ _ _ _ _ "temperature" H1)
      by discriminate.
  - intros range p Hrange Hp Hprop.
    rewrite (check_properties_frame _ _ _ _ "pressure" H) by now left.
    rewrite Hrange in H4.
    rewrite (check_range_verdict _ _ _ _ _ _ H4 Hp).
    destruct (range_verdict range p); [reflexivity|].
    rewrite (check_range_other _ _ _ _ _ "pressure" H3) by discriminate.
    rewrite check_state_other by discriminate.
    rewrite (check_at_least_other _ _ _ _ _ "pressure" H2) by discriminate.
    now rewrite (check_at_least_other _ _ _ _ _ "pressure" H1)
      by discriminate.
Qed.

Lemma X1_witness :
  dict_get "temperature"
    [("purity", true); ("yield", true); ("state", true);
     ("temperature", true); ("pressure", true); ("grade", true)]
  = Some (Qle_bool 290 300)
  /\ dict_get "pressure"
       [("purity", true); ("yield", true); ("state", true);
        ("temperature", true); ("pressure", true); ("grade", true)]
     = Some (Qle_bool 101325 200000).
Proof.
  destruct (X1_range_bounds_may_be_one_sided plain_spec ethanol_product
              [("purity", true); ("yield", true); ("state", true);
               ("temperature", true); ("pressure", true); ("grade", true)]
              eq_refl) as [Htemperature Hpressure].
  split.
  - apply (Htemperature [("min", 290)] 300); reflexivity.
  - apply (Hpressure [("max", 200000)] 101325); reflexivity.
Defined.

(** X2: purity and yield are lower bounds.  When the specification sets a
    purity, the product's purity is a number and no custom property is
    called [purity], the verdict named [purity] is [purity >= bound]; in the
    same way the field [yield_requirement] is checked against the product's
    key [yield] and gives the verdict named [yield]. *)
Theorem X2_purity_and_yield_are_lower_bounds self product_data results :
  is_satisfied_by self product_data = Ok results ->
  (forall bound v,
      purity self = Some bound ->
      dict_get "purity" product_data = Some (VNum v) ->
      dict_get "purity" (properties self) = None ->
      dict_get "purity" results = Some (Qle_bool bound v))
  /\ (forall bound v,
         yield_requirement self = Some bound ->
         dict_get "yield" product_data = Some (VNum v) ->
         dict_get "yield" (properties self) = None ->
         dict_get "yield" results = Some (Qle_bool bound v)).
Proof.
  intros H. unfold is_satisfied_by in H.
  inv_bind H. rename a into r1, Ha into H1.
  inv_bind H. rename a into r2, Ha into H2.
  inv_bind H. rename a into r3, Ha into H3.
  inv_bind H. rename a into r4, Ha into H4.
  split.
  - intros bound v Hbound Hv Hprop.
    rewrite (check_properties_frame _ _ _ _ "purity" H) by now left.
    rewrite (check_range_other _ _ _ _ _ "purity" H4) by discriminate.
    rewrite (check_range_other _ _ _ _ _ "purity" H3) by discriminate.
    rewrite check_state_other by discriminate.
    rewrite (check_at_least_other _ _ _ _ _ "purity" H2) by discriminate.
    rewrite Hbound in H1.
    apply (check_at_least_verdict _ _ _ _ _ _ H1 Hv).
  - intros bound v Hbound Hv Hprop.
    rewrite (check_properties_frame _ _ _ _ "yield" H) by now left.
    rewrite (check_range_other _ _ _ _ _ "yield" H4) by discriminate.
    rewrite (check_range_other _ _ _ _ _ "yield" H3) by discriminate.
    rewrite check_state_other by discriminate.
    rewrite Hbound in H2.
    apply (check_at_least_verdict _ _ _ _ _ _ H2 Hv).
Qed.

Lemma X2_witness :
  dict_get "purity"
    [("purity", true); ("yield", true); ("state", true);
     ("temperature", true); ("pressure", true); ("grade", true)]
  = Some (Qle_bool (9 # 10) (97 # 100)).
Proof.
  apply (proj1 (X2_purity_and_yield_are_lower_bounds plain_spec
                  ethanol_product _ eq_refl)); reflexivity.
Defined.

(** X3: a custom property decides the verdict of its own name, whatever the
    name.  When the properties map has an entry [k] and the product has a
    value for [k], the verdict named [k] is the one of the custom check, also
    when [k] is purity, yield, state, temperature or pressure and a built-in
    check wrote that verdict before; for an entry that is not a dict with
    both [min] and [max] the verdict is the equality test. *)
Theorem X3_custom_property_has_the_last_word self product_data results k
    prop_value v :
  wf_dict (properties self) ->
  is_satisfied_by self product_data = Ok results ->
  dict_get k (properties self) = Some prop_value ->
  dict_get k product_data = Some v ->
  (exists b, property_verdict prop_value v = Ok b
             /\ dict_get k results = Some b)
  /\ (min_max_of prop_value = None ->
      dict_get k results = Some (py_eq v prop_value)).
Proof.
  intros Hwf H Hprop Hv. unfold is_satisfied_by in H. do 4 inv_bind H.
  destruct (check_properties_verdict _ _ _ _ _ _ _ Hwf H Hprop Hv)
    as (b & Hb & Hget).
  split; [eauto|].
  intros Hnone. unfold property_verdict in Hb. rewrite Hnone in Hb.
  congruence.
Qed.

Lemma X3_witness :
  dict_get "purity"
    [("purity", false); ("yield", true); ("state", true);
     ("temperature", true); ("pressure", true); ("grade", true)]
  = Some (py_eq (VNum (97 # 100)) (VNum (95 # 100))).
Proof.
  apply (proj2 (X3_custom_property_has_the_last_word strict_spec
                  ethanol_product _ "purity" (VNum (95 # 100))
                  (VNum (97 # 100))
                  ltac:(repeat constructor; cbn; intuition discriminate)
                  eq_refl eq_refl eq_refl)).
  reflexivity.
Defined.

(** ** ProductSpecification: what is returned and what is raised *)

Lemma py_le_raises_TypeError a b e : py_le a b = Raise e -> e = TypeError.
Proof. destruct a, b; cbn; congruence. Qed.

Lemma py_chain_le_raises_TypeError a b c e :
  py_chain_le a b c = Raise e -> e = TypeError.
Proof.
  unfold py_chain_le. destruct (py_le a b) as [r|e'] eqn:E; cbn.
  - destruct r; [apply py_le_raises_TypeError | discriminate].
  - intros [= <-]. now apply py_le_raises_TypeError in E.
Qed.

Lemma check_at_least_raises_TypeError key bound product_data results e :
  check_at_least key bound product_data results = Raise e -> e = TypeError.
Proof.
  unfold check_at_least, py_ge. destruct bound as [b|]; [|discriminate].
  destruct (dict_get key product_data) as [v|]; [|discriminate].
  destruct (py_le (VNum b) v) eqn:E; cbn; [discriminate|].
  intros [= <-]. now apply py_le_raises_TypeError in E.
Qed.

Lemma check_range_raises_TypeError key range product_data results e :
  check_range key range product_data results = Raise e -> e = TypeError.
Proof.
  unfold check_range, py_ge. destruct range as [rg|]; [|discriminate].
  destruct (dict_get key product_data) as [v|]; [|discriminate].
  destruct (dict_get "min" rg) as [lo|], (dict_get "max" rg) as [hi|];
    try discriminate.
  - destruct (py_chain_le (VNum lo) v (VNum hi)) eqn:E; cbn; [discriminate|].
    intros [= <-]. now apply py_chain_le_raises_TypeError in E.
  - destruct (py_le (VNum lo) v) eqn:E; cbn; [discriminate|].
    intros [= <-]. now apply py_le_raises_TypeError in E.
  - destruct (py_le v (VNum hi)) eqn:E; cbn; [discriminate|].
    intros [= <-]. now apply py_le_raises_TypeError in E.
Qed.

Lemma check_properties_raise_TypeError product_data props results e :
  foldM (check_property product_data) props results = Raise e ->
  e = TypeError.
Proof.
  revert results. induction props as [|[k prop_value] props IH];
    intros results; [discriminate|].
  cbn [foldM].
  destruct (check_property product_data results (k, prop_value))
    as [r|e'] eqn:E; cbn [bind]; [apply IH|].
  intros [= <-]. unfold check_property in E.
  destruct (min_max_of prop_value) as [[lo hi]|];
    destruct (dict_get k product_data) as [v|]; try discriminate.
  destruct (py_chain_le lo v hi) eqn:Ec; cbn in E; [discriminate|].
  injection E as <-. now apply py_chain_le_raises_TypeError in Ec.
Qed.

Lemma check_at_least_not_a_number key bound product_data results v :
  dict_get key product_data = Some v ->
  is_number v = false ->
  check_at_least key (Some bound) product_data results = Raise TypeError.
Proof.
  unfold check_at_least. intros -> Hv. now destruct v.
Qed.

Lemma check_range_not_a_number key range product_data results v :
  has_bound (Some range) = true ->
  dict_get key product_data = Some v ->
  is_number v = false ->
  check_range key (Some range) product_data results = Raise TypeError.
Proof.
  unfold check_range, has_bound, dict_mem. intros Hbound -> Hv.
  destruct (dict_get "min" range) as [lo|], (dict_get "max" range) as [hi|];
    try discriminate; now destruct v.
Qed.

(** A step that raises ends the evaluation of [is_satisfied_by] with a
    TypeError. *)
Ltac step_or_TypeError lemma :=
  match goal with
  | |- bind ?m _ = Raise TypeError =>
      let E := fresh "E" in
      destruct m as [?|?] eqn:E;
      [cbn [bind] | apply lemma in E; subst; reflexivity]
  end.

(** X4: a value that is there but is not a number is not treated as
    missing.  When a built-in check that compares with a number is populated
    (purity, yield requirement, or a temperature or pressure range with at
    least one bound) and the product holds [None], a string or a dict under
    the key of that check, [is_satisfied_by] raises TypeError: it returns no
    verdict map at all. *)
Theorem X4_present_non_number_raises self product_data k v :
  compares_with_number self k = true ->
  dict_get k product_data = Some v ->
  is_number v = false ->
  is_satisfied_by self product_data = Raise TypeError.
Proof.
  unfold compares_with_number. intros Hk Hv Hnum. unfold is_satisfied_by.
  repeat rewrite orb_true_iff in Hk. repeat rewrite andb_true_iff in Hk.
  destruct Hk as [[[[Hk Hset] | [Hk Hset]] | [Hk Hset]] | [Hk Hset]];
    apply String.eqb_eq in Hk; subst k.
  - destruct (purity self) as [bound|]; [|discriminate].
    now rewrite (check_at_least_not_a_number _ _ _ _ v Hv Hnum).
  - step_or_TypeError check_at_least_raises_TypeError.
    destruct (yield_requirement self) as [bound|]; [|discriminate].
    now rewrite (check_at_least_not_a_number _ _ _ _ v Hv Hnum).
  - step_or_TypeError check_at_least_raises_TypeError.
    step_or_TypeError check_at_least_raises_TypeError.
    destruct (temperature_range self) as [range|]; [|discriminate].
    now rewrite (check_range_not_a_number _ _ _ _ v Hset Hv Hnum).
  - step_or_TypeError check_at_least_raises_TypeError.
    step_or_TypeError check_at_least_raises_TypeError.
    step_or_TypeError check_range_raises_TypeError.
    destruct (pressure_range self) as [range|]; [|discriminate].
    now rewrite (check_range_not_a_number _ _ _ _ v Hset Hv Hnum).
Qed.

Lemma X4_witness :
  is_satisfied_by plain_spec unmeasured_product = Raise TypeError.
Proof.
  apply (X4_present_non_number_raises plain_spec unmeasured_product
           "temperature" VNone); reflexivity.
Defined.

(** X5: TypeError is the only exception of [is_satisfied_by], and the call
    returns a verdict map whenever its comparisons are defined: purity,
    yield, temperature and pressure are numbers when the product has them, and
    every value checked against a custom [min]/[max] pair can be compared
    with both. *)
Theorem X5_returns_when_comparable self product_data :
  (forall e, is_satisfied_by self product_data = Raise e -> e = TypeError)
  /\ (comparable self product_data ->
      exists results, is_satisfied_by self product_data = Ok results).
Proof.
  split; [|apply is_satisfied_by_returns].
  unfold is_satisfied_by. intros e H.
  destruct (check_at_least "purity" _ _ _) as [r1|e1] eqn:E1; cbn [bind] in H;
    [|injection H as <-; now apply check_at_least_raises_TypeError in E1].
  destruct (check_at_least "yield" _ _ _) as [r2|e2] eqn:E2; cbn [bind] in H;
    [|injection H as <-; now apply check_at_least_raises_TypeError in E2].
  destruct (check_range "temperature" _ _ _) as [r3|e3] eqn:E3;
    cbn [bind] in H;
    [|injection H as <-; now apply check_range_raises_TypeError in E3].
  destruct (check_range "pressure" _ _ _) as [r4|e4] eqn:E4; cbn [bind] in H;
    [|injection H as <-; now apply check_range_raises_TypeError in E4].
  now apply check_properties_raise_TypeError in H.
Qed.

Lemma X5_witness :
  exists results, is_satisfied_by strict_spec ethanol_product = Ok results.
Proof.
  apply (proj2 (X5_returns_when_comparable strict_spec ethanol_product)).
  split.
  - intros k v Hk Hv. cbn in Hk.
    destruct Hk as [<- | [<- | [<- | [<- | []]]]]; injection Hv as <-;
      eexists; reflexivity.
  - intros k prop_value lo hi v Hin Hmm.
    destruct Hin as [H | [H | []]]; injection H as <- <-; discriminate Hmm.
Defined.

Lemma is_satisfied_by_wf self product_data results :
  is_satisfied_by self product_data = Ok results -> wf_dict results.
Proof.
  unfold is_satisfied_by. intros H.
  inv_bind H. rename a into r1, Ha into H1.
  inv_bind H. rename a into r2, Ha into H2.
  inv_bind H. rename a into r3, Ha into H3.
  inv_bind H. rename a into r4, Ha into H4.
  assert (Hat_least : forall key bound r r',
             check_at_least key bound product_data r = Ok r' ->
             wf_dict r -> wf_dict r').
  { unfold check_at_least. intros key bound r r' Hc Hwf.
    destruct bound; [|now inv_Ok].
    destruct (dict_get key product_data); [|now inv_Ok].
    inv_bind Hc. inv_Ok. now apply wf_dict_set. }
  assert (Hrange : forall key range r r',
             check_range key range product_data r = Ok r' ->
             wf_dict r -> wf_dict r').
  { unfold check_range. intros key range r r' Hc Hwf.
    destruct range as [rg|]; [|now inv_Ok].
    destruct (dict_get key product_data); [|now inv_Ok].
    destruct (dict_get "min" rg), (dict_get "max" rg);
      try inv_bind Hc; inv_Ok; try assumption; now apply wf_dict_set. }
  assert (Hstate : forall r, wf_dict r ->
                             wf_dict (check_state (state self) product_data r)).
  { unfold check_state. intros r Hwf. destruct (state self); [|assumption].
    destruct (dict_get "state" product_data); [|assumption].
    now apply wf_dict_set. }
  assert (Hproperty : forall acc item acc',
             In item (properties self) ->
             wf_dict acc ->
             check_property product_data acc item = Ok acc' ->
             wf_dict acc').
  { intros acc [k pv] acc' _ Hwf Hc. unfold check_property in Hc.
    destruct (min_max_of pv) as [[lo hi]|];
      destruct (dict_get k product_data);
      try inv_bind Hc; inv_Ok; try assumption; now apply wf_dict_set. }
  apply (foldM_invariant wf_dict _ _ Hproperty r4 results); [|assumption].
  eapply Hrange; [eassumption|]. eapply Hrange; [eassumption|].
  apply Hstate. eapply Hat_least; [eassumption|].
  eapply Hat_least; [eassumption|]. apply wf_dict_nil.
Qed.

Lemma forallb_values_wf (results : dict bool) :
  wf_dict results ->
  forallb (fun b => b) (values results) = true
  <-> forall k, dict_get k results <> Some false.
Proof.
  intros Hwf. unfold values. rewrite forallb_forall. split.
  - intros Hall k Hget. apply dict_get_In in Hget.
    specialize (Hall false). cbn in Hall. discriminate Hall.
    change false with (snd (k, false)). now apply in_map.
  - intros Hnone b Hin. apply in_map_iff in Hin as ([k b'] & <- & Hin).
    cbn. destruct b'; [reflexivity|].
    exfalso. apply (Hnone k). now apply In_dict_get.
Qed.

(** X6: [all_specifications_met] is [True] exactly when [is_satisfied_by]
    returns a verdict map in which no criterion is [False]: omitted criteria
    do not count against the product.  It raises exactly when
    [is_satisfied_by] raises. *)
Theorem X6_met_means_no_false_verdict self product_data :
  (all_specifications_met self product_data = Ok true
   <-> exists results,
         is_satisfied_by self product_data = Ok results
         /\ forall k, dict_get k results <> Some false)
  /\ (forall e,
         all_specifications_met self product_data = Raise e
         <-> is_satisfied_by self product_data = Raise e).
Proof.
  unfold all_specifications_met.
  destruct (is_satisfied_by self product_data) as [results|e] eqn:E;
    cbn [bind].
  - pose proof (forallb_values_wf results (is_satisfied_by_wf _ _ _ E)) as Hall.
    split; [|intros e; split; discriminate].
    split.
    + intros [= H]. exists results. split; [reflexivity|]. now apply Hall.
    + intros (r & [= <-] & Hnone). f_equal. now apply Hall.
  - split; [|intros e'; split; intros [= ->]; reflexivity].
    split; [discriminate|]. intros (r & Hr & _). discriminate Hr.
Qed.

Lemma X6_witness :
  all_specifications_met plain_spec ethanol_product = Ok true.
Proof.
  apply (proj1 (X6_met_means_no_false_verdict plain_spec ethanol_product)).
  eexists. split; [reflexivity|].
  intros k. cbn.
  repeat match goal with
         | |- context [String.eqb k ?s] => destruct (String.eqb k s)
         end; discriminate.
Defined.

(** ** SimulationResultParser.extract_product_properties: what an entry holds *)

Lemma stream_state_phase d st :
  stream_state (VDict d) = Ok st ->
  exists vapor_fraction,
    (dict_get "vapor_fraction" d = Some (VNum vapor_fraction)
     \/ dict_get "vapor_fraction" d = None /\ vapor_fraction = 0)
    /\ st = VStr (phase_of vapor_fraction).
Proof.
  unfold stream_state, phase_of. cbn [py_get bind].
  destruct (dict_get "vapor_fraction" d) as [v|] eqn:Ev.
  - destruct v as [| q | s | d']; try discriminate.
    cbn. intros H. exists q. split; [now left|].
    destruct (Qle_bool q (99 # 100)); cbn in *; [|congruence].
    destruct (Qle_bool (1 # 100) q); cbn in *; congruence.
  - cbn. intros [= <-]. exists 0. split; [now right|]. reflexivity.
Qed.

(** X7: [extract_product_properties] returns an entry for exactly the
    requested streams that are in the results: a requested stream that the
    results lack is skipped without an error, and no other key appears. *)
Theorem X7_entries_are_requested_streams_in_results results product_streams
    product_properties k :
  extract_product_properties results product_streams = Ok product_properties ->
  dict_mem k product_properties = true
  <-> In k product_streams /\ dict_mem k results = true.
Proof.
  intros H. pose proof (extract_streams_get _ _ _ _ k H) as Hget.
  unfold dict_mem. rewrite <- existsb_eqb_In.
  destruct (existsb (String.eqb k) product_streams).
  - destruct (dict_get k results) as [stream_data|].
    + destruct Hget as (properties & _ & ->). tauto.
    + rewrite Hget. cbn. intuition discriminate.
  - rewrite Hget. cbn. intuition discriminate.
Qed.

Lemma X7_witness :
  dict_mem "S2" [("S1",
                  [("temperature", VNum 300); ("pressure", VNone);
                   ("state", VStr "liquid")])] = true
  <-> In "S2" ["S1"; "S2"] /\ dict_mem "S2" bare_results = true.
Proof.
  apply (X7_entries_are_requested_streams_in_results bare_results
           ["S1"; "S2"]).
  reflexivity.
Defined.

(** X8: the entry of a stream always has the keys [temperature],
    [pressure] and [state].  Temperature and pressure are the stream's own,
    or [None] when the stream does not report them; the state is vapor for
    a vapor fraction above 0.99, liquid below 0.01 and mixed in between, and
    a stream that reports no vapor fraction is classified as liquid. *)
Theorem X8_entry_has_temperature_pressure_state results product_streams
    product_properties stream_id d :
  extract_product_properties results product_streams = Ok product_properties ->
  In stream_id product_streams ->
  dict_get stream_id results = Some (VDict d) ->
  exists entry vapor_fraction,
    dict_get stream_id product_properties = Some entry
    /\ dict_get "temperature" entry = Some (get_or_None "temperature" d)
    /\ dict_get "pressure" entry = Some (get_or_None "pressure" d)
    /\ (dict_get "vapor_fraction" d = Some (VNum vapor_fraction)
        \/ dict_get "vapor_fraction" d = None /\ vapor_fraction = 0)
    /\ dict_get "state" entry = Some (VStr (phase_of vapor_fraction)).
Proof.
  intros H Hin Hres.
  pose proof (extract_streams_get _ _ _ _ stream_id H) as Hget.
  apply existsb_eqb_In in Hin. rewrite Hin, Hres in Hget.
  destruct Hget as (entry & Hprops & Hget).
  unfold stream_properties in Hprops. cbn [py_get bind] in Hprops.
  inv_bind Hprops. rename a into st.
  destruct (stream_state_phase d st Ha) as (vapor_fraction & Hvf & ->).
  exists entry, vapor_fraction. split; [assumption|].
  rewrite (add_composition_frame _ _ _ "temperature" Hprops) by discriminate.
  rewrite (add_composition_frame _ _ _ "pressure" Hprops) by discriminate.
  rewrite (add_composition_frame _ _ _ "state" Hprops) by discriminate.
  repeat split; try reflexivity. assumption.
Qed.

Lemma X8_witness :
  exists entry vapor_fraction,
    dict_get "S1" [("S1",
                    [("temperature", VNum 300); ("pressure", VNone);
                     ("state", VStr "liquid")])] = Some entry
    /\ dict_get "temperature" entry
       = Some (get_or_None "temperature" [("temperature", VNum 300)])
    /\ dict_get "pressure" entry
       = Some (get_or_None "pressure" [("temperature", VNum 300)])
    /\ (dict_get "vapor_fraction" [("temperature", VNum 300)]
        = Some (VNum vapor_fraction)
        \/ dict_get "vapor_fraction" [("temperature", VNum 300)] = None
           /\ vapor_fraction = 0)
    /\ dict_get "state" entry = Some (VStr (phase_of vapor_fraction)).
Proof.
  apply (X8_entry_has_temperature_pressure_state bare_results ["S1"; "S2"]).
  - reflexivity.
  - now left.
  - reflexivity.
Defined.

(** ** SimulationResultParser.extract_product_properties: main component *)

Lemma dict_set_new {A : Type} (k : string) (v : A) (d : dict A) :
  dict_get k d = None -> dict_set k v d = List.app d [(k, v)].
Proof.
  induction d as [|[k' v'] d IH]; cbn; [reflexivity|].
  destruct (String.eqb k k'); [discriminate|].
  intros H. now rewrite IH.
Qed.

Lemma positive_is_not_zero total :
  Qle_bool total 0 = false -> Qeq_bool total 0 = false.
Proof.
  intros Hpos. destruct (Qeq_bool total 0) eqn:E; [|reflexivity].
  apply Qeq_bool_iff in E.
  assert (Hle : Qle_bool total 0 = true)
    by (apply Qle_bool_iff; rewrite E; apply Qle_refl).
  congruence.
Qed.

(** With a positive total every flow gets its fraction, in the order of the
    composition. *)
Lemma mass_fractions_positive total composition acc :
  Qle_bool total 0 = false ->
  numeric_items composition ->
  NoDup (List.app (keys acc) (keys composition)) ->
  foldM (mass_fraction_step (VNum total)) composition acc
  = Ok (List.app acc (fractions_of total composition)).
Proof.
  intros Hpos. revert acc.
  induction composition as [|[comp flow] composition IH]; intros acc Hnum Hnd.
  - cbn. now rewrite app_nil_r.
  - destruct (Hnum comp flow (or_introl eq_refl)) as (q & ->).
    cbn [foldM]. unfold mass_fraction_step at 1. cbn.
    rewrite Hpos, (positive_is_not_zero total Hpos). cbn.
    cbn [keys map fst] in Hnd. fold (keys composition) in Hnd.
    rewrite dict_set_new.
    + rewrite IH.
      * now rewrite <- app_assoc.
      * intros c f Hin. apply (Hnum c f). now right.
      * unfold keys. rewrite map_app. cbn [map fst]. fold (keys acc).
        fold (keys composition). now rewrite <- app_assoc.
    + apply dict_get_None_keys. intros Hin.
      apply NoDup_remove_2 in Hnd. apply Hnd, in_or_app. now left.
Qed.

(** [max] keeps the first of the largest. *)
Lemma max_by_snd_first_largest items best :
  numeric_items (best :: items) ->
  exists before largest after,
    max_by_snd best items = Ok largest
    /\ best :: items = List.app before (largest :: after)
    /\ (forall item, In item before ->
                     flow_number (snd item) < flow_number (snd largest))
    /\ (forall item, In item after ->
                     flow_number (snd item) <= flow_number (snd largest)).
Proof.
  revert best. induction items as [|item items IH]; intros best Hnum.
  - exists [], best, []. cbn. repeat split; intros it [].
  - destruct best as [cb vb], item as [ci vi].
    destruct (Hnum cb vb (or_introl eq_refl)) as (qb & ->).
    destruct (Hnum ci vi (or_intror (or_introl eq_refl))) as (qi & ->).
    cbn [max_by_snd snd py_gt py_lt bind].
    destruct (Qle_bool qi qb) eqn:Ele; cbn [negb].
    + apply Qle_bool_iff in Ele.
      destruct (IH (cb, VNum qb)) as (before & largest & after & Hmax & Hsplit
                                      & Hbefore & Hafter).
      { intros c f [H | H]; [injection H as <- <-; eauto|].
        apply (Hnum c f). now do 2 right. }
      destruct before as [|b before]; cbn in Hsplit.
      * injection Hsplit as <- <-.
        exists [], (cb, VNum qb), ((ci, VNum qi) :: items).
        split; [assumption|]. split; [reflexivity|].
        split; [intros it []|].
        intros it [<- | Hin]; [exact Ele | now apply Hafter].
      * injection Hsplit as <- Hsplit.
        exists ((cb, VNum qb) :: (ci, VNum qi) :: before), largest, after.
        split; [assumption|]. split; [cbn; now rewrite Hsplit|].
        split; [|assumption].
        intros it [<- | [<- | Hin]].
        -- apply Hbefore. now left.
        -- cbn. eapply Qle_lt_trans; [exact Ele|].
           apply (Hbefore (cb, VNum qb)). now left.
        -- apply Hbefore. now right.
    + assert (Hlt : qb < qi).
      { apply Qnot_le_lt. intros Hle. apply Qle_bool_iff in Hle. congruence. }
      destruct (IH (ci, VNum qi)) as (before & largest & after & Hmax & Hsplit
                                      & Hbefore & Hafter).
      { intros c f Hin. apply (Hnum c f). now right. }
      exists ((cb, VNum qb) :: before), largest, after.
      split; [assumption|]. split; [cbn; now rewrite Hsplit|].
      split; [|assumption].
      intros it [<- | Hin]; [|now apply Hbefore].
      cbn. destruct before as [|b before]; cbn in Hsplit.
      * now injection Hsplit as <- _.
      * injection Hsplit as <- _.
        eapply Qlt_trans; [exact Hlt|]. apply (Hbefore (ci, VNum qi)).
        now left.
Qed.

(** X9: with a positive total flow, the entry of a stream holds every
    component's fraction of the total, its main component is the first
    component, in the order of the composition, whose fraction is the
    largest, and its purity is that fraction: every component before the
    main one has a strictly smaller fraction and none after it has a larger
    one. *)
Theorem X9_main_component_is_first_largest results product_streams
    product_properties stream_id d composition total :
  extract_product_properties results product_streams = Ok product_properties ->
  In stream_id product_streams ->
  dict_get stream_id results = Some (VDict d) ->
  dict_get "composition" d = Some (VDict composition) ->
  wf_dict composition ->
  numeric_items composition ->
  py_sum (values composition) = Ok (VNum total) ->
  Qle_bool total 0 = false ->
  exists entry before comp flow after,
    dict_get stream_id product_properties = Some entry
    /\ composition = List.app before ((comp, VNum flow) :: after)
    /\ dict_get "composition" entry
       = Some (VDict (fractions_of total composition))
    /\ dict_get "main_component" entry = Some (VStr comp)
    /\ dict_get "purity" entry = Some (VNum (flow / total))
    /\ (forall c f, In (c, VNum f) before -> f / total < flow / total)
    /\ (forall c f, In (c, VNum f) after -> f / total <= flow / total).
Proof.
  intros H Hin Hres Hcomp Hwf Hnum Hsum Hpos.
  pose proof (extract_streams_get _ _ _ _ stream_id H) as Hget.
  apply existsb_eqb_In in Hin. rewrite Hin, Hres in Hget.
  destruct Hget as (entry & Hprops & Hget).
  unfold stream_properties in Hprops.
  do 3 inv_bind Hprops. unfold add_composition in Hprops.
  cbn [py_get] in Hprops. rewrite Hcomp in Hprops. cbn [bind] in Hprops.
  assert (Hne : composition <> []).
  { intros ->. cbn in Hsum. injection Hsum as <-. discriminate Hpos. }
  assert (Htruthy : truthy (VDict composition) = true)
    by (destruct composition; [congruence | reflexivity]).
  rewrite Htruthy in Hprops. cbn [py_items bind] in Hprops.
  rewrite Hsum in Hprops. cbn [bind] in Hprops.
  rewrite (mass_fractions_positive total composition [] Hpos Hnum Hwf)
    in Hprops.
  cbn [List.app bind] in Hprops.
  destruct (fractions_of total composition) as [|first rest] eqn:Efr.
  { apply map_eq_nil in Efr. congruence. }
  destruct (max_by_snd_first_largest rest first)
    as (before' & largest & after' & Hmax & Hsplit & Hbefore & Hafter).
  { rewrite <- Efr. intros c f Hf. unfold fractions_of in Hf.
    apply in_map_iff in Hf as (item & [= _ <-] & _). eauto. }
  rewrite Hmax in Hprops. cbn [bind fst snd] in Hprops. inv_Ok.
  rewrite <- Efr in Hsplit. unfold fractions_of in Hsplit.
  apply map_eq_app in Hsplit as (before & tail & Hc & Hb & Ht).
  apply map_eq_cons in Ht as ([comp v] & after & -> & Hl & Ha').
  destruct (Hnum comp v) as (flow & ->).
  { rewrite Hc. apply in_or_app. right. now left. }
  subst largest before' after'. cbn [fst snd flow_number] in *.
  eexists. exists before, comp, flow, after.
  split; [eassumption|]. split; [assumption|].
  split; [reflexivity|]. split; [reflexivity|]. split; [reflexivity|].
  split.
  - intros c f Hf.
    apply (Hbefore (c, VNum (f / total))).
    change (c, VNum (f / total))
      with ((fun item : string * value =>
               (fst item, VNum (flow_number (snd item) / total)))
              (c, VNum f)).
    now apply in_map.
  - intros c f Hf.
    apply (Hafter (c, VNum (f / total))).
    change (c, VNum (f / total))
      with ((fun item : string * value =>
               (fst item, VNum (flow_number (snd item) / total)))
              (c, VNum f)).
    now apply in_map.
Qed.

Lemma X9_witness :
  exists entry before comp flow after,
    dict_get "S1"
      [("S1",
        [("temperature", VNone); ("pressure", VNone); ("state", VStr "vapor");
         ("composition",
          VDict (fractions_of (0 + 20 + 40 + 40)
                   [("C", VNum 20); ("A", VNum 40); ("B", VNum 40)]));
         ("main_component", VStr "A");
         ("purity", VNum (40 / (0 + 20 + 40 + 40)))])]
    = Some entry
    /\ [("C", VNum 20); ("A", VNum 40); ("B", VNum 40)]
       = List.app before ((comp, VNum flow) :: after)
    /\ dict_get "composition" entry
       = Some (VDict (fractions_of (0 + 20 + 40 + 40)
                        [("C", VNum 20); ("A", VNum 40); ("B", VNum 40)]))
    /\ dict_get "main_component" entry = Some (VStr comp)
    /\ dict_get "purity" entry = Some (VNum (flow / (0 + 20 + 40 + 40)))
    /\ (forall c f, In (c, VNum f) before ->
                    f / (0 + 20 + 40 + 40) < flow / (0 + 20 + 40 + 40))
    /\ (forall c f, In (c, VNum f) after ->
                    f / (0 + 20 + 40 + 40) <= flow / (0 + 20 + 40 + 40)).
Proof.
  apply (X9_main_component_is_first_largest tie_results ["S1"] _ "S1"
           [("vapor_fraction", VNum 1);
            ("composition",
             VDict [("C", VNum 20); ("A", VNum 40); ("B", VNum 40)])]).
  - reflexivity.
  - now left.
  - reflexivity.
  - reflexivity.
  - repeat constructor; cbn; intuition discriminate.
  - intros c f [H | [H | [H | []]]]; injection H as <- <-; eexists;
      reflexivity.
  - reflexivity.
  - reflexivity.
Defined.

(** ** SimulationResultParser.extract_product_properties: normalisation *)






(** ** Exceptions of the parser *)

(** A loop raises when its body raises on one of the items, whatever the
    accumulator: at that item, or before it. *)
Lemma foldM_raises_at {A B : Type} (body : B -> A -> res B) (xs : list A)
    (x : A) :
  (forall acc, exists e, body acc x = Raise e) ->
  In x xs ->
  forall acc, exists e, foldM body xs acc = Raise e.
Proof.
  intros Hx. induction xs as [|y xs IH]; intros Hin acc; [contradiction|].
  cbn [foldM]. destruct Hin as [-> | Hin].
  - destruct (Hx acc) as (e & ->). cbn. eauto.
  - destruct (body acc y) as [acc'|e]; cbn [bind]; [now apply IH | eauto].
Qed.

Lemma foldM_raises_same {A B : Type} (body : B -> A -> res B) (xs : list A)
    (x : A) (e0 : exn) :
  (forall acc, body acc x = Raise e0) ->
  (forall acc y e, body acc y = Raise e -> e = e0) ->
  In x xs ->
  forall acc, foldM body xs acc = Raise e0.
Proof.
  intros Hx Hsame. induction xs as [|y xs IH]; intros Hin acc;
    [contradiction|].
  cbn [foldM]. destruct Hin as [-> | Hin].
  - now rewrite Hx.
  - destruct (body acc y) as [acc'|e] eqn:E; cbn [bind]; [now apply IH|].
    now rewrite (Hsame _ _ _ E).
Qed.

(** X11: a requested stream is skipped only when its id is not in the
    results.  When the entry of a requested stream is not a dict, or holds a
    vapor fraction that is not a number ([None], say),
    [extract_product_properties] raises and returns nothing, not even the
    entries of the other streams. *)
Theorem X11_malformed_stream_raises results product_streams stream_id
    stream_data :
  In stream_id product_streams ->
  dict_get stream_id results = Some stream_data ->
  is_dict stream_data = false
  \/ (exists d v, stream_data = VDict d
                  /\ dict_get "vapor_fraction" d = Some v
                  /\ is_number v = false) ->
  exists e, extract_product_properties results product_streams = Raise e.
Proof.
  intros Hin Hget Hbad. unfold extract_product_properties.
  apply (foldM_raises_at _ _ stream_id); [|assumption].
  intros acc. unfold extract_stream. rewrite Hget.
  assert (Hprops : exists e, stream_properties stream_data = Raise e).
  { destruct Hbad as [Hnd | (d & v & -> & Hvf & Hnum)].
    - destruct stream_data; try discriminate; cbn; eauto.
    - unfold stream_properties, stream_state. cbn [py_get bind].
      rewrite Hvf. destruct v; try discriminate; cbn; eauto. }
  destruct Hprops as (e & ->). cbn. eauto.
Qed.

Lemma X11_witness :
  exists e,
    extract_product_properties unreported_fraction_results ["S1"; "S2"]
    = Raise e.
Proof.
  apply (X11_malformed_stream_raises unreported_fraction_results
           ["S1"; "S2"] "S2" (VDict [("vapor_fraction", VNone)])).
  - right. now left.
  - reflexivity.
  - right. exists [("vapor_fraction", VNone)], VNone. repeat split.
Defined.

Lemma analyze_block_raises_AttributeError errors item e :
  analyze_block errors item = Raise e -> e = AttributeError.
Proof.
  destruct item as [block_id block_data]. unfold analyze_block.
  destruct block_data as [| q | s | d]; try discriminate.
  destruct (dict_mem "type" d); [|discriminate].
  destruct (truthy _); [|discriminate].
  destruct (match dict_get "status" d with Some v => v | None => VNone end);
    cbn; try congruence.
  destruct (negb _); discriminate.
Qed.

(** X12: a status that is not a string is not reported as a diagnostic.
    When some block (a dict with a [type] key) has a status whose truth value
    is true and that is not a string, a status code such as 3 say,
    [analyze_simulation_errors] raises AttributeError and returns no
    message at all, also for the blocks before it. *)
Theorem X12_status_that_is_not_a_string_raises results block_id d :
  In (block_id, VDict d) results ->
  dict_mem "type" d = true ->
  truthy (status_of d) = true ->
  is_string (status_of d) = false ->
  analyze_simulation_errors results = Raise AttributeError.
Proof.
  intros Hin Htype Htruthy Hstr. unfold analyze_simulation_errors.
  apply (foldM_raises_same _ _ (block_id, VDict d)); [| |assumption].
  - intros acc. unfold analyze_block. rewrite Htype.
    fold (status_of d). rewrite Htruthy.
    destruct (status_of d); try discriminate; reflexivity.
  - intros acc y e. apply analyze_block_raises_AttributeError.
Qed.

Lemma X12_witness :
  analyze_simulation_errors coded_status_results = Raise AttributeError.
Proof.
  apply (X12_status_that_is_not_a_string_raises coded_status_results "R2"
           [("type", VStr "Reactor"); ("status", VNum 3)]).
  - right. now left.
  - reflexivity.
  - reflexivity.
  - reflexivity.
Defined.

Lemma add_input_raises component_balance comp flow :
  is_number flow = false ->
  exists e, add_input component_balance (comp, flow) = Raise e.
Proof.
  intros Hnum. unfold add_input, dict_mem.
  destruct (dict_get comp component_balance) as [fl|] eqn:E.
  - rewrite E. destruct flow; try discriminate; cbn; eauto.
  - rewrite dict_get_set_same. destruct flow; try discriminate; cbn; eauto.
Qed.

Lemma add_output_raises component_balance comp flow :
  is_number flow = false ->
  exists e, add_output component_balance (comp, flow) = Raise e.
Proof.
  intros Hnum. unfold add_output, dict_mem.
  destruct (dict_get comp component_balance) as [fl|] eqn:E.
  - rewrite E. destruct flow; try discriminate; cbn; eauto.
  - rewrite dict_get_set_same. destruct flow; try discriminate; cbn; eauto.
Qed.

Lemma sum_streams_raises add results stream_ids stream_id d v :
  (forall acc comp flow,
      is_number flow = false -> exists e, add acc (comp, flow) = Raise e) ->
  In stream_id stream_ids ->
  dict_get stream_id results = Some (VDict d) ->
  dict_get "composition" d = Some v ->
  bad_composition v ->
  forall acc, exists e, sum_streams add results stream_ids acc = Raise e.
Proof.
  intros Hadd Hin Hget Hcomp Hbad. unfold sum_streams.
  apply (foldM_raises_at _ _ stream_id); [|assumption].
  intros acc. rewrite Hget. cbn [py_get]. rewrite Hcomp. cbn [bind].
  destruct v as [| q | s | composition]; cbn; eauto.
  destruct Hbad as (comp & flow & Hflow & Hnum).
  apply (foldM_raises_at _ _ (comp, flow)); [|assumption].
  intros acc'. now apply Hadd.
Qed.

(** X13: [check_mass_balance] does not skip a stream that it cannot add
    up.  When some dict-valued entry has a [composition] that is not a dict,
    or that holds a flow that is not a number ([None], say), the call raises
    and returns no report, whether the stream is a feed or not. *)
Theorem X13_unusable_composition_raises results stream_id d v :
  wf_dict results ->
  In (stream_id, VDict d) results ->
  dict_get "composition" d = Some v ->
  bad_composition v ->
  exists e, check_mass_balance results = Raise e.
Proof.
  intros Hwf Hin Hcomp Hbad.
  pose proof (In_dict_get _ _ _ Hwf Hin) as Hget.
  unfold check_mass_balance. rewrite output_streams_are_not_feeds.
  change (fun s : string => startswith s "FEED") with is_feed.
  assert (Hstream : In stream_id
                      (filter (selects_stream results) (keys results))).
  { apply filter_In. split.
    - change stream_id with (fst (stream_id, VDict d)). now apply in_map.
    - unfold selects_stream. rewrite Hget. cbn. unfold dict_mem.
      now rewrite Hcomp. }
  destruct (is_feed stream_id) eqn:Efeed.
  - destruct (sum_streams_raises add_input results
                (filter is_feed (filter (selects_stream results)
                                   (keys results)))
                stream_id d v) with (acc := @nil (string * flows))
      as (e & ->); auto using add_input_raises.
    + apply filter_In. auto.
    + cbn. eauto.
  - destruct (sum_streams add_input results _ []) as [cb|e]; cbn [bind];
      [|eauto].
    destruct (sum_streams_raises add_output results
                (filter is_not_feed (filter (selects_stream results)
                                       (keys results)))
                stream_id d v) with (acc := cb)
      as (e & ->); auto using add_output_raises.
    + apply filter_In. split; [assumption|].
      unfold is_not_feed. now rewrite Efeed.
    + cbn. eauto.
Qed.

Lemma X13_witness :
  exists e, check_mass_balance unreported_flow_results = Raise e.
Proof.
  apply (X13_unusable_composition_raises unreported_flow_results
           "PRODUCT_1" [("composition", VDict [("A", VNone)])]
           (VDict [("A", VNone)])).
  - repeat constructor; cbn; intuition discriminate.
  - right. now left.
  - reflexivity.
  - exists "A", VNone. split; [now left | reflexivity].
Defined.

(** ** SimulationResultParser.check_specifications: the lookup *)

Lemma spec_lookup_other specs d n :
  (forall spec, In spec specs -> name spec <> n) ->
  dict_get n (fold_left (fun d spec => dict_set (name spec) spec d) specs d)
  = dict_get n d.
Proof.
  revert d. induction specs as [|spec specs IH]; intros d Hother;
    [reflexivity|].
  cbn [fold_left]. rewrite IH.
  - apply dict_get_set_other. intros ->. now apply (Hother spec); [left|].
  - intros s Hin. apply Hother. now right.
Qed.

Lemma spec_lookup_last before spec after :
  (forall later, In later after -> name later <> name spec) ->
  dict_get (name spec) (spec_lookup (List.app before (spec :: after)))
  = Some spec.
Proof.
  intros Hlast. unfold spec_lookup. rewrite fold_left_app. cbn [fold_left].
  rewrite spec_lookup_other by assumption. apply dict_get_set_same.
Qed.

(** X14: of several specifications with one name the last in the list is
    the one that counts.  A stream whose main component is that name (and
    is the last stream with it) is checked against the last specification
    of the name, and the result holds its verdict map under the name. *)
Theorem X14_last_specification_of_a_name_counts product_properties
    specifications results before spec after earlier stream_id properties
    later :
  specifications = List.app before (spec :: after) ->
  (forall s, In s after -> name s <> name spec) ->
  name spec <> "" ->
  product_properties = List.app earlier ((stream_id, properties) :: later) ->
  main_component_of properties = VStr (name spec) ->
  (forall s p, In (s, p) later -> main_component_of p <> VStr (name spec)) ->
  check_specifications product_properties specifications = Ok results ->
  exists verdicts,
    is_satisfied_by spec properties = Ok verdicts
    /\ dict_get (name spec) results = Some verdicts.
Proof.
  intros -> Hlast Hname -> Hmain Hlater H. unfold check_specifications in H.
  apply (check_streams_last _ _ _ _ _ _ _ (name spec) spec H);
    [|assumption].
  rewrite Hmain. apply find_spec_matches. repeat split; [assumption|].
  now apply spec_lookup_last.
Qed.

Lemma X14_witness :
  exists verdicts,
    is_satisfied_by stricter_ethanol_spec pure_ethanol = Ok verdicts
    /\ dict_get (name stricter_ethanol_spec)
         [("Ethanol", [("purity", false)])] = Some verdicts.
Proof.
  apply (X14_last_specification_of_a_name_counts
           [("P1", pure_ethanol)] duplicate_specs
           [("Ethanol", [("purity", false)])]
           [ethanol_spec] stricter_ethanol_spec []
           [] "P1" pure_ethanol []).
  - reflexivity.
  - intros s [].
  - discriminate.
  - reflexivity.
  - reflexivity.
  - intros s p [].
  - reflexivity.
Defined.

(** ** SimulationResultParser.check_specifications: where an entry comes from *)

(** X15: every entry of the result of [check_specifications] comes from a
    stream: its key is the main component of some stream, a name that the
    lookup of the specifications knows, and its value is the verdict map of
    that specification on that stream's properties.  So when no stream has
    a main component that matches a specification the result is empty. *)
Theorem X15_entries_come_from_matching_streams product_properties
    specifications results :
  check_specifications product_properties specifications = Ok results ->
  (forall n verdicts,
      dict_get n results = Some verdicts ->
      exists stream_id properties spec,
        In (stream_id, properties) product_properties
        /\ find_spec (spec_lookup specifications)
             (main_component_of properties) = Ok (Some (n, spec))
        /\ is_satisfied_by spec properties = Ok verdicts)
  /\ ((forall stream_id properties,
          In (stream_id, properties) product_properties ->
          find_spec (spec_lookup specifications)
            (main_component_of properties) = Ok None) ->
      results = []).
Proof.
  unfold check_specifications. intros H.
  assert (Hfrom : forall n verdicts,
             dict_get n results = Some verdicts ->
             exists stream_id properties spec,
               In (stream_id, properties) product_properties
               /\ find_spec (spec_lookup specifications)
                    (main_component_of properties) = Ok (Some (n, spec))
               /\ is_satisfied_by spec properties = Ok verdicts).
  { apply (foldM_invariant
             (fun acc : dict (dict bool) =>
                forall n verdicts,
                  dict_get n acc = Some verdicts ->
                  exists stream_id properties spec,
                    In (stream_id, properties) product_properties
                    /\ find_spec (spec_lookup specifications)
                         (main_component_of properties) = Ok (Some (n, spec))
                    /\ is_satisfied_by spec properties = Ok verdicts)
             (check_stream (spec_lookup specifications)) product_properties)
      with (acc := @nil (string * dict bool)); [|discriminate|exact H].
    intros acc [stream_id properties] acc' Hin Hacc Hstep n verdicts Hget.
    unfold check_stream in Hstep. inv_bind Hstep.
    destruct a as [[product_name spec]|]; [|inv_Ok; now apply Hacc].
    inv_bind Hstep. inv_Ok. rewrite dict_get_set in Hget.
    destruct (String.eqb_spec n product_name) as [->|Hne];
      [|now apply Hacc].
    injection Hget as <-. exists stream_id, properties, spec. auto. }
  split; [exact Hfrom|].
  intros Hnone. destruct results as [|[n verdicts] results]; [reflexivity|].
  destruct (Hfrom n verdicts) as (stream_id & properties & spec & Hin & Hf & _).
  { cbn. now rewrite String.eqb_refl. }
  rewrite (Hnone _ _ Hin) in Hf. discriminate Hf.
Qed.

Lemma X15_witness :
  exists stream_id properties spec,
    In (stream_id, properties) ethanol_and_water
    /\ find_spec (spec_lookup [ethanol_spec]) (main_component_of properties)
       = Ok (Some ("Ethanol", spec))
    /\ is_satisfied_by spec properties = Ok [("purity", true)].
Proof.
  apply (proj1 (X15_entries_come_from_matching_streams ethanol_and_water
                  [ethanol_spec] [("Ethanol", [("purity", true)])]
                  eq_refl)).
  reflexivity.
Defined.

(** ** ProcessSimulation: the order of the calls *)

Section OrchestratorCalls.

Context {C : Type} {com : ComObject C}.

Lemma calls_add_components materials (a : AspenPlusInterface C) :
  calls (add_components materials a)
  = List.app (calls a) (component_calls materials).
Proof.
  revert a. induction materials as [|material rest IH]; intros a.
  - cbn. now rewrite app_nil_r.
  - cbn [add_components component_calls map].
    pose proof (calls_add_component (material_name material)
                  (material_formula material) a) as H.
    destruct (add_component _ _ a) as [ok a']. cbn [snd] in H.
    rewrite IH, H, <- app_assoc. reflexivity.
Qed.

Lemma calls_add_feed_streams materials i (a : AspenPlusInterface C) :
  calls (add_feed_streams i materials a)
  = List.app (calls a)
      (map (fun stream => CallAddStream (fst stream) (snd stream))
           (feed_streams_from i materials)).
Proof.
  revert i a. induction materials as [|material rest IH]; intros i a.
  - cbn. now rewrite app_nil_r.
  - cbn [add_feed_streams feed_streams_from map fst snd].
    pose proof (calls_add_stream (feed_stream_id i)
                  (feed_stream_data material) a) as H.
    destruct (add_stream _ _ a) as [ok a']. cbn [snd] in H.
    rewrite IH, H, <- app_assoc. reflexivity.
Qed.

Lemma calls_run_simulation (a : AspenPlusInterface C) :
  calls (snd (run_simulation a)) = List.app (calls a) [CallRunSimulation].
Proof.
  unfold run_simulation.
  pose proof (calls_on_aspen com_run2 (called CallRunSimulation a)) as H.
  destruct (on_aspen _ _) as [r a']. cbn [snd] in H.
  now destruct r.
Qed.

Lemma calls_get_simulation_results (a : AspenPlusInterface C) :
  calls (snd (get_simulation_results a))
  = List.app (calls a) [CallGetSimulationResults].
Proof.
  unfold get_simulation_results.
  pose proof (calls_on_aspen com_read_results
                (called CallGetSimulationResults a)) as H.
  destruct (on_aspen _ _) as [r a']. cbn [snd] in H.
  now destruct r.
Qed.

End OrchestratorCalls.

(** X16: [setup_materials] does nothing on an orchestrator that is not
    initialized: it returns [False] and makes no call.  On an initialized
    one it calls the adapter in this order: [add_component] for every
    material in list order, with its formula; [set_property_method] once,
    with NRTL; [add_stream] for every material in list order.  It never
    changes the initialized flag. *)
Theorem X16_setup_materials_call_order {C : Type} {com : ComObject C}
    (materials : list RawMaterial) (self : ProcessSimulation C) :
  (initialized self = false -> setup_materials materials self = (false, self))
  /\ (initialized self = true ->
      calls (interface (snd (setup_materials materials self)))
      = List.app (calls (interface self))
          (List.app (component_calls materials)
             (CallSetPropertyMethod "NRTL" :: feed_stream_calls materials)))
  /\ initialized (snd (setup_materials materials self)) = initialized self.
Proof.
  unfold setup_materials. destruct (initialized self) eqn:Einit; cbn [negb].
  - split; [discriminate|].
    pose proof (calls_set_property_method "NRTL"
                  (add_components materials (interface self))) as Hcalls.
    destruct (set_property_method "NRTL" _) as [ok a]. cbn [snd fst] in *.
    split; [|exact Einit].
    intros _. cbn [with_interface interface].
    rewrite calls_add_feed_streams, Hcalls, calls_add_components.
    unfold feed_stream_calls. now rewrite <- !app_assoc.
  - split; [reflexivity|]. split; [discriminate | exact Einit].
Qed.

Lemma X16_witness :
  setup_materials (com := recorder) [water] fresh_simulation
  = (false, fresh_simulation)
  /\ calls (interface (snd (setup_materials (com := recorder) [water]
                              ready_simulation)))
     = List.app (calls (interface ready_simulation))
         [CallAddComponent "Water" (Some "H2O");
          CallSetPropertyMethod "NRTL";
          CallAddStream "FEED_1" (feed_stream_data water)].
Proof.
  destruct (X16_setup_materials_call_order (com := recorder) [water]
              fresh_simulation) as (Hnot & _ & _).
  destruct (X16_setup_materials_call_order (com := recorder) [water]
              ready_simulation) as (_ & Hcalls & _).
  split; [now apply Hnot | now apply Hcalls].
Defined.

(** ** ProcessSimulation: initialize and run *)

(** X17: [initialize] returns [True] exactly when the COM object can be
    created and loading the simulation on it does not raise.  It sets the
    initialized flag on success and never clears it; and when creating the
    COM object fails it does not call [load_simulation]. *)
Theorem X17_initialize_succeeds_when_engine_loads {C : Type}
    {com : ComObject C} (self : ProcessSimulation C) :
  (fst (initialize self) = true
   <-> exists c,
         com_create = Ok c
         /\ succeeded (fst (com_load (template_path self) c)) = true)
  /\ initialized (snd (initialize self))
     = initialized self || fst (initialize self)
  /\ (forall e,
         com_create = Raise e ->
         calls (interface (snd (initialize self)))
         = List.app (calls (interface self)) [CallInitialize])
  /\ (forall c,
         com_create = Ok c ->
         calls (interface (snd (initialize self)))
         = List.app (calls (interface self))
             [CallInitialize; CallLoadSimulation (template_path self)]).
Proof.
  unfold initialize, interface_initialize, load_simulation, on_aspen, called.
  destruct com_create as [c|e]; cbn.
  - destruct (com_load (template_path self) c) as [r c'] eqn:Eload. cbn.
    destruct r as [u|e]; cbn.
    + repeat split.
      * intros _. exists c. now rewrite Eload.
      * now rewrite orb_true_r.
      * discriminate.
      * intros c0 _. now rewrite <- app_assoc.
    + repeat split.
      * discriminate.
      * intros (c0 & [= <-] & H). rewrite Eload in H. discriminate H.
      * now rewrite orb_false_r.
      * discriminate.
      * intros c0 _. now rewrite <- app_assoc.
  - repeat split.
    + discriminate.
    + intros (c0 & H & _). discriminate H.
    + now rewrite orb_false_r.
    + discriminate.
Qed.

Lemma X17_witness :
  fst (initialize (com := recorder) fresh_simulation) = true
  /\ calls (interface (snd (initialize (com := no_engine) fresh_simulation)))
     = List.app (calls (interface fresh_simulation)) [CallInitialize].
Proof.
  split.
  - apply (proj1 (X17_initialize_succeeds_when_engine_loads (com := recorder)
                    fresh_simulation)).
    exists []. split; reflexivity.
  - apply (X17_initialize_succeeds_when_engine_loads (com := no_engine)
             fresh_simulation) with (e := AttributeError).
    reflexivity.
Defined.

(** X18: on an initialized orchestrator [run] succeeds exactly when the
    engine's run returns the status code 0.  When it does not, the results
    are not fetched: [run_simulation] is the only call made.  When it does,
    the results are what the engine reports, or the empty mapping when
    reading them raises: [(True, {})] is a possible outcome.  The
    initialized flag stays set. *)
Theorem X18_run_fetches_results_only_on_success {C : Type}
    {com : ComObject C} (self : ProcessSimulation C) (c : C) :
  initialized self = true ->
  aspen (interface self) = Some c ->
  (fst (fst (run self)) = true <-> fst (com_run2 c) = Ok 0%Z)
  /\ (fst (fst (run self)) = false ->
      calls (interface (snd (run self)))
      = List.app (calls (interface self)) [CallRunSimulation])
  /\ (fst (fst (run self)) = true ->
      snd (fst (run self))
      = match fst (com_read_results (snd (com_run2 c))) with
        | Ok results => results
        | Raise _ => []
        end
      /\ calls (interface (snd (run self)))
         = List.app (calls (interface self))
             [CallRunSimulation; CallGetSimulationResults])
  /\ initialized (snd (run self)) = true.
Proof.
  intros Hinit Haspen.
  unfold run, run_simulation, get_simulation_results, on_aspen, called.
  rewrite Hinit. cbn. rewrite Haspen.
  destruct (com_run2 c) as [r c'] eqn:Erun. cbn.
  destruct r as [run_status|e]; cbn.
  - destruct (Z.eqb_spec run_status 0) as [->|Hne]; cbn.
    + destruct (com_read_results c') as [rr c''] eqn:Eread. cbn.
      destruct rr as [results|e]; cbn; repeat split; auto;
        try discriminate; now rewrite <- app_assoc.
    + repeat split; auto; try discriminate. intros [= H]. congruence.
  - repeat split; auto; discriminate.
Qed.

Lemma X18_witness :
  fst (run (com := unreadable_results)
         (snd (initialize (com := unreadable_results) fresh_simulation)))
  = (true, [])
  /\ calls (interface
              (snd (run (com := failing_run)
                      (snd (initialize (com := failing_run)
                              fresh_simulation)))))
     = [CallInitialize; CallLoadSimulation None; CallRunSimulation].
Proof.
  destruct (X18_run_fetches_results_only_on_success
              (com := unreadable_results)
              (snd (initialize (com := unreadable_results) fresh_simulation))
              [] eq_refl eq_refl) as (_ & _ & Hsuccess & _).
  destruct (X18_run_fetches_results_only_on_success
              (com := failing_run)
              (snd (initialize (com := failing_run) fresh_simulation))
              [] eq_refl eq_refl) as (_ & Hfailure & _).
  split.
  - reflexivity.
  - apply Hfailure. reflexivity.
Defined.

(** ** ProcessSimulation: closing *)

(** X19: [close] always leaves the orchestrator not initialized, is a
    no-op on one that is not initialized, and closing twice is the same as
    closing once.  After [close] every operation fails without touching
    anything: [run] returns [(False, {})], and [setup_materials],
    [build_process] and [save] return [False]. *)
Theorem X19_close_is_idempotent {C : Type} {com : ComObject C}
    {life : ComLifecycle C} (self : ProcessSimulation C) :
  initialized (close self) = false
  /\ (initialized self = false -> close self = self)
  /\ close (close self) = close self
  /\ run (close self) = ((false, []), close self)
  /\ (forall materials,
         setup_materials materials (close self) = (false, close self))
  /\ (forall process_design,
         build_process process_design (close self) = (false, close self))
  /\ (forall file_path, save file_path (close self) = (false, close self)).
Proof.
  assert (Hclosed : initialized (close self) = false).
  { unfold close. destruct (initialized self) eqn:E; [reflexivity | exact E]. }
  split; [exact Hclosed|].
  split; [intros H; unfold close; now rewrite H|].
  split; [unfold close at 1; now rewrite Hclosed|].
  split; [unfold run; now rewrite Hclosed|].
  split; [intros materials; unfold setup_materials; now rewrite Hclosed|].
  split; [intros d; unfold build_process; now rewrite Hclosed|].
  intros file_path. unfold save. now rewrite Hclosed.
Qed.

Lemma X19_witness :
  close (life := recorder_lifecycle) fresh_simulation = fresh_simulation.
Proof.
  destruct (X19_close_is_idempotent (com := recorder)
              (life := recorder_lifecycle) fresh_simulation)
    as (_ & Hnoop & _).
  apply Hnoop. reflexivity.
Defined.

(** X20: what [close] does to the engine.  On an initialized orchestrator
    whose adapter holds a COM object, the adapter drops the object when the
    engine's [Close()] returns; when [Close()] raises, the adapter keeps the
    object while the orchestrator is marked not initialized all the same, so
    that no later [close] reaches the engine again. *)
Theorem X20_failed_close_is_not_retried {C : Type}
    {life : ComLifecycle C} (self : ProcessSimulation C) (c : C) :
  initialized self = true ->
  aspen (interface self) = Some c ->
  (forall c', com_close c = (Ok tt, c') ->
              aspen (interface (close self)) = None)
  /\ (forall e c',
         com_close c = (Raise e, c') ->
         aspen (interface (close self)) = Some c'
         /\ initialized (close self) = false
         /\ aspen (interface (close (close self))) = Some c').
Proof.
  intros Hinit Haspen. split.
  - intros c' Hclose. unfold close, interface_close.
    rewrite Hinit, Haspen, Hclose. reflexivity.
  - intros e c' Hclose.
    assert (H : close self
                = {| interface := {| aspen_path := aspen_path (interface self);
                                     aspen := Some c';
                                     calls := calls (interface self) |};
                     template_path := template_path self;
                     simulation_path := simulation_path self;
                     initialized := false |}).
    { unfold close, interface_close. now rewrite Hinit, Haspen, Hclose. }
    rewrite H. repeat split.
Qed.

Lemma X20_witness :
  aspen (interface (close (life := stuck_lifecycle) ready_simulation))
  = Some []
  /\ initialized (close (life := stuck_lifecycle) ready_simulation) = false
  /\ aspen (interface (close (life := stuck_lifecycle)
                         (close (life := stuck_lifecycle) ready_simulation)))
     = Some [].
Proof.
  apply (proj2 (X20_failed_close_is_not_retried
                  (life := stuck_lifecycle) ready_simulation []
                  eq_refl eq_refl) AttributeError []).
  reflexivity.
Defined.

(** X21: closing is not final.  [initialize] does not look at the state of
    the orchestrator: on a closed orchestrator it returns what it returns on
    the orchestrator before it was closed, and when it returns [True] the
    orchestrator is initialized again. *)
Theorem X21_initialize_after_close {C : Type} {com : ComObject C}
    {life : ComLifecycle C} (self : ProcessSimulation C) :
  fst (initialize (close self)) = fst (initialize self)
  /\ (fst (initialize (close self)) = true ->
      initialized (snd (initialize (close self))) = true).
Proof.
  unfold close. destruct (initialized self);
    unfold initialize, interface_initialize, load_simulation, on_aspen, called;
    cbn; (destruct com_create as [c|e]; cbn;
          [|split; [reflexivity | discriminate]]);
    (destruct (com_load (template_path self) c) as [r c']; cbn);
    destruct r; cbn; split; auto; discriminate.
Qed.

Lemma X21_witness :
  initialized (snd (initialize (com := recorder)
                      (close (life := recorder_lifecycle) ready_simulation)))
  = true.
Proof.
  apply (proj2 (X21_initialize_after_close (com := recorder)
                  (life := recorder_lifecycle) ready_simulation)).
  reflexivity.
Defined.

(** ** ProcessSimulation: building the process *)

Section BuildProcess.

Context {C : Type} {life : ComLifecycle C}.

Lemma connect_all_state connections (a : AspenPlusInterface C) :
  snd (connect_all connections a) = a.
Proof.
  induction connections as [|connection rest IH]; [reflexivity|].
  cbn [connect_all]. destruct connection; cbn; auto.
Qed.

Lemma connect_all_succeeds connections (a : AspenPlusInterface C) :
  succeeded (fst (connect_all connections a)) = forallb is_dict connections.
Proof.
  induction connections as [|connection rest IH]; [reflexivity|].
  cbn [connect_all forallb]. destruct connection; cbn; auto.
Qed.

Lemma add_units_succeeds items (a : AspenPlusInterface C) :
  succeeded (fst (add_units items a))
  = forallb (fun item => is_dict (snd item)) items.
Proof.
  revert a. induction items as [|[unit_id unit_data] rest IH]; intros a;
    [reflexivity|].
  cbn [add_units forallb snd]. destruct unit_data; cbn; auto.
  destruct (add_unit_operation _ _ _ a). apply IH.
Qed.

(** The units before the first one that is not a dict are added, and the
    loop stops there. *)
Lemma add_units_stops good unit_id unit_data rest (a : AspenPlusInterface C) :
  forallb (fun item => is_dict (snd item)) good = true ->
  is_dict unit_data = false ->
  succeeded (fst (add_units (List.app good ((unit_id, unit_data) :: rest)) a))
  = false
  /\ snd (add_units (List.app good ((unit_id, unit_data) :: rest)) a)
     = snd (add_units good a).
Proof.
  revert a. induction good as [|[id data] good IH]; intros a Hgood Hbad.
  - cbn. destruct unit_data; try discriminate; auto.
  - cbn [forallb snd] in Hgood. apply andb_true_iff in Hgood as [Hd Hgood].
    cbn [List.app add_units]. destruct data; try discriminate. cbn.
    destruct (add_unit_operation _ _ _ a). now apply IH.
Qed.

End BuildProcess.

(** What [build_process] returns, and that it keeps the flag. *)
Lemma build_process_outcome {C : Type}
    {life : ComLifecycle C} (process_design : ProcessDesign)
    (self : ProcessSimulation C) :
  (initialized self = true ->
   fst (build_process process_design self) = well_shaped process_design)
  /\ (initialized self = false ->
      build_process process_design self = (false, self))
  /\ initialized (snd (build_process process_design self)) = initialized self.
Proof.
  unfold build_process, well_shaped.
  destruct (initialized self) eqn:Einit; cbn [negb];
    [|split; [discriminate | split; [reflexivity | exact Einit]]].
  set (connections := match design_connections process_design with
                      | Some l => l
                      | None => []
                      end).
  replace (match design_connections process_design with
           | Some connections => forallb is_dict connections
           | None => true
           end)
    with (forallb is_dict connections)
    by (unfold connections; now destruct (design_connections process_design)).
  set (units_value := match design_units process_design with
                      | Some v => v
                      | None => VDict []
                      end).
  replace (match design_units process_design with
           | Some (VDict units) =>
               forallb (fun item => is_dict (snd item)) units
           | Some _ => false
           | None => true
           end)
    with (match units_value with
          | VDict units => forallb (fun item => is_dict (snd item)) units
          | _ => false
          end)
    by (unfold units_value; now destruct (design_units process_design)).
  destruct units_value as [| q | s | units]; cbn [py_items fst snd];
    try (split; [reflexivity | split; [discriminate | exact Einit]]).
  pose proof (add_units_succeeds units (interface self)) as Hunits.
  destruct (add_units units (interface self)) as [r a].
  cbn [fst] in Hunits. rewrite <- Hunits.
  destruct r; cbn [succeeded andb fst snd];
    [|split; [reflexivity | split; [discriminate | exact Einit]]].
  pose proof (connect_all_succeeds connections a) as Hconn.
  destruct (connect_all connections a) as [r' a']. cbn [fst] in Hconn.
  rewrite <- Hconn.
  destruct r'; cbn; (split; [reflexivity | split; [discriminate | exact Einit]]).
Qed.

(** X22: on an initialized orchestrator [build_process] returns [True]
    exactly when the design has the shape it reads: the units are a dict
    (or are not given) whose values are dicts, and every connection is a
    dict.  What the engine does with the units plays no part: [True] does
    not say that the engine accepted any of them.  On an orchestrator that
    is not initialized it returns [False] and changes nothing, and it never
    changes the initialized flag. *)
Theorem X22_build_process_succeeds_on_shape {C : Type}
    {life : ComLifecycle C} (process_design : ProcessDesign)
    (self : ProcessSimulation C) :
  (initialized self = true ->
   fst (build_process process_design self) = well_shaped process_design)
  /\ (initialized self = false ->
      build_process process_design self = (false, self))
  /\ initialized (snd (build_process process_design self)) = initialized self.
Proof. apply build_process_outcome. Qed.

Lemma X22_witness :
  fst (build_process (life := stuck_lifecycle) reactor_and_column
         ready_simulation) = true
  /\ build_process (life := recorder_lifecycle) reactor_and_column
       fresh_simulation = (false, fresh_simulation).
Proof.
  destruct (X22_build_process_succeeds_on_shape (life := stuck_lifecycle)
              reactor_and_column ready_simulation) as (Hshape & _ & _).
  destruct (X22_build_process_succeeds_on_shape (life := recorder_lifecycle)
              reactor_and_column fresh_simulation) as (_ & Hnot & _).
  split; [now rewrite Hshape | now apply Hnot].
Defined.

(** X23: the connections of a design never reach the engine.
    [build_process] leaves the orchestrator, and with it the adapter and the
    COM object, exactly as it leaves them for the same design without its
    connections; the connections only decide, by their shape, whether it
    returns [True]. *)
Theorem X23_connections_do_not_reach_the_engine {C : Type}
    {life : ComLifecycle C} (process_design : ProcessDesign)
    (self : ProcessSimulation C) :
  snd (build_process process_design self)
  = snd (build_process (without_connections process_design) self)
  /\ (well_shaped process_design = true ->
      build_process process_design self
      = build_process (without_connections process_design) self).
Proof.
  assert (Hstate : snd (build_process process_design self)
                   = snd (build_process (without_connections process_design)
                            self)).
  { unfold build_process, without_connections. cbn [design_units
      design_connections].
    destruct (initialized self); cbn [negb]; [|reflexivity].
    destruct (py_items _) as [items|e]; [|reflexivity].
    destruct (add_units items (interface self)) as [r a].
    destruct r; [|reflexivity].
    pose proof (connect_all_state
                  (match design_connections process_design with
                   | Some l => l
                   | None => []
                   end) a) as Hconn.
    destruct (connect_all _ a) as [r' a']. cbn [snd] in Hconn. subst a'.
    cbn [connect_all]. now destruct r'. }
  split; [exact Hstate|].
  intros Hshape.
  destruct (initialized self) eqn:Einit.
  - destruct (build_process_outcome process_design self) as (H1 & _ & _).
    destruct (build_process_outcome (without_connections process_design)
                self) as (H2 & _ & _).
    specialize (H1 Einit). specialize (H2 Einit).
    assert (Hshape' : well_shaped (without_connections process_design) = true).
    { unfold well_shaped in *. cbn [without_connections design_units
        design_connections]. apply andb_true_iff in Hshape as [-> _].
      reflexivity. }
    destruct (build_process process_design self),
      (build_process (without_connections process_design) self).
    cbn [fst snd] in *. congruence.
  - unfold build_process. now rewrite Einit.
Qed.

Lemma X23_witness :
  build_process (life := recorder_lifecycle) reactor_and_column
    ready_simulation
  = build_process (life := recorder_lifecycle)
      (without_connections reactor_and_column) ready_simulation.
Proof.
  apply (proj2 (X23_connections_do_not_reach_the_engine
                  (life := recorder_lifecycle) reactor_and_column
                  ready_simulation)).
  reflexivity.
Defined.

(** X24: a design that fails half way is not undone.  When the units are
    a dict in which a unit that is not a dict follows units that are,
    [build_process] on an initialized orchestrator returns [False] and
    leaves the orchestrator as building the units before the bad one
    leaves it: those units have been handed to the engine, the bad one and
    the ones after it have not. *)
Theorem X24_failing_design_keeps_earlier_units {C : Type}
    {life : ComLifecycle C} (process_design : ProcessDesign)
    (self : ProcessSimulation C) good unit_id unit_data rest :
  initialized self = true ->
  design_units process_design
  = Some (VDict (List.app good ((unit_id, unit_data) :: rest))) ->
  forallb (fun item => is_dict (snd item)) good = true ->
  is_dict unit_data = false ->
  fst (build_process process_design self) = false
  /\ snd (build_process process_design self)
     = snd (build_process {| design_units := Some (VDict good);
                             design_connections := None |} self).
Proof.
  intros Hinit Hunits Hgood Hbad. unfold build_process.
  rewrite Hinit, Hunits. cbn [negb py_items design_units design_connections].
  destruct (add_units_stops good unit_id unit_data rest (interface self)
              Hgood Hbad) as [Hfail Hstate].
  pose proof (add_units_succeeds good (interface self)) as Hok.
  rewrite Hgood in Hok.
  destruct (add_units (List.app good ((unit_id, unit_data) :: rest))
              (interface self)) as [r a].
  destruct (add_units good (interface self)) as [r' a'].
  cbn [fst snd] in *. subst a'.
  destruct r; [discriminate Hfail|]. destruct r'; [|discriminate Hok].
  cbn. auto.
Qed.

Lemma X24_witness :
  fst (build_process (life := recorder_lifecycle) broken_design
         ready_simulation) = false
  /\ snd (build_process (life := recorder_lifecycle) broken_design
            ready_simulation)
     = snd (build_process (life := recorder_lifecycle)
              {| design_units :=
                   Some (VDict [("R1", VDict [("type", VStr "RStoic")])]);
                 design_connections := None |} ready_simulation).
Proof.
  apply (X24_failing_design_keeps_earlier_units (life := recorder_lifecycle)
           broken_design ready_simulation
           [("R1", VDict [("type", VStr "RStoic")])] "X1" (VStr "RadFrac")
           [("C1", VDict [("type", VStr "RadFrac")])]);
    reflexivity.
Defined.

(** ** ProcessSimulation: saving *)

(** X25: [save] returns [False] and changes nothing on an orchestrator
    that is not initialized.  On an initialized one it returns [True] exactly
    when the adapter holds a COM object and the engine's [SaveAs] returns; it
    never changes the initialized flag. *)
Theorem X25_save_reports_the_engine {C : Type} {life : ComLifecycle C}
    (file_path : string) (self : ProcessSimulation C) :
  (initialized self = false -> save file_path self = (false, self))
  /\ (initialized self = true ->
      (fst (save file_path self) = true
       <-> exists c,
             aspen (interface self) = Some c
             /\ succeeded (fst (com_save_as file_path c)) = true))
  /\ initialized (snd (save file_path self)) = initialized self.
Proof.
  unfold save, save_simulation, on_aspen.
  destruct (initialized self) eqn:Einit; cbn [negb];
    [|split; [reflexivity | split; [discriminate | exact Einit]]].
  split; [discriminate|].
  destruct (aspen (interface self)) as [c|].
  - destruct (com_save_as file_path c) as [r c'] eqn:Esave. cbn.
    split; [|exact Einit]. intros _. split.
    + intros H. exists c. now rewrite Esave.
    + intros (c0 & [= <-] & H). now rewrite Esave in H.
  - cbn. split; [|exact Einit]. intros _. split; [discriminate|].
    intros (c & H & _). discriminate H.
Qed.

Lemma X25_witness :
  save (life := recorder_lifecycle) "plant.bkp" fresh_simulation
  = (false, fresh_simulation)
  /\ fst (save (life := recorder_lifecycle) "plant.bkp" ready_simulation)
     = true.
Proof.
  destruct (X25_save_reports_the_engine (life := recorder_lifecycle)
              "plant.bkp" fresh_simulation) as (Hnot & _ & _).
  destruct (X25_save_reports_the_engine (life := recorder_lifecycle)
              "plant.bkp" ready_simulation) as (_ & Hsave & _).
  split; [now apply Hnot|].
  apply Hsave; [reflexivity|]. exists []. split; reflexivity.
Defined.

(** ** Feed stream identifiers *)

Lemma to_uint_is_not_Nil n : Nat.to_uint n <> Decimal.Nil.
Proof.
  intros H.
  pose proof (DecimalNat.Unsigned.to_of (Nat.to_uint n)) as Hnorm.
  rewrite DecimalNat.Unsigned.of_to, H in Hnorm. discriminate Hnorm.
Qed.

Lemma str_of_nat_inj n m : str_of_nat n = str_of_nat m -> n = m.
Proof.
  unfold str_of_nat. intros H.
  apply DecimalNat.Unsigned.to_uint_inj.
  assert (Hsome : Some (Nat.to_uint n) = Some (Nat.to_uint m)).
  { rewrite <- (NilZero.usu (Nat.to_uint n)) by apply to_uint_is_not_Nil.
    rewrite <- (NilZero.usu (Nat.to_uint m)) by apply to_uint_is_not_Nil.
    now rewrite H. }
  now injection Hsome.
Qed.

(** X26: the identifiers of the feed streams are pairwise distinct, so no
    feed stream of [setup_materials] replaces another, and each starts with
    FEED, the prefix by which [check_mass_balance] takes a stream for an
    input. *)
Theorem X26_feed_stream_ids_are_distinct :
  (forall i j, feed_stream_id i = feed_stream_id j -> i = j)
  /\ (forall materials,
         NoDup (map fst (feed_streams_from 0 materials)))
  /\ (forall i, is_feed (feed_stream_id i) = true).
Proof.
  assert (Hinj : forall i j, feed_stream_id i = feed_stream_id j -> i = j).
  { intros i j H. unfold feed_stream_id in H. cbn in H.
    injection H as H. apply str_of_nat_inj in H. lia. }
  split; [exact Hinj|]. split.
  - intros materials.
    assert (Hfrom : forall rest k id,
               In id (map fst (feed_streams_from k rest)) ->
               exists i, (k <= i)%nat /\ id = feed_stream_id i).
    { induction rest as [|m rest IH]; intros k id; [intros []|].
      cbn [feed_streams_from map fst]. intros [<- | Hin].
      - exists k. split; [lia | reflexivity].
      - destruct (IH (S k) id Hin) as (i & Hle & ->).
        exists i. split; [lia | reflexivity]. }
    generalize 0%nat. induction materials as [|m rest IH]; intros k;
      [constructor|].
    cbn [feed_streams_from map fst]. constructor; [|apply IH].
    intros Hin. destruct (Hfrom rest (S k) _ Hin) as (i & Hle & Hi).
    apply Hinj in Hi. lia.
  - intros i. reflexivity.
Qed.

Lemma X26_witness : 2%nat = 2%nat.
Proof.
  apply (proj1 X26_feed_stream_ids_are_distinct 2%nat 2%nat).
  reflexivity.
Defined.

(** ** SimulationResultParser.check_mass_balance: the size of the error *)

(** The report on results whose compositions are dicts of numbers. *)
Lemma check_mass_balance_report results :
  wf_dict results ->
  numeric_compositions results ->
  exists report,
    check_mass_balance results = Ok report
    /\ forall comp,
         dict_get comp report
         = if Qle_bool (input_total comp results) 0 then None
           else Some ((output_total comp results - input_total comp results)
                      / input_total comp results).
Proof.
  intros Hwf Hnum. unfold check_mass_balance.
  rewrite output_streams_are_not_feeds.
  change (fun s : string => startswith s "FEED") with is_feed.
  rewrite sum_streams_items
    by (intros s Hin; eapply selected_streams_are_dicts; eauto).
  rewrite selected_streams_items by (intros s e Hin; now apply In_dict_get).
  destruct (add_inputs_total (side_items is_feed results) [])
    as (cb1 & H1 & Hwf1 & Hget1); [now apply numeric_side_items|].
  rewrite H1. cbn [bind].
  rewrite sum_streams_items
    by (intros s Hin; eapply selected_streams_are_dicts; eauto).
  rewrite selected_streams_items by (intros s e Hin; now apply In_dict_get).
  destruct (add_outputs_total (side_items is_not_feed results) cb1)
    as (cb2 & H2 & Hwf2 & Hget2); [now apply numeric_side_items|].
  rewrite H2. cbn [bind]. eexists. split; [reflexivity|].
  intros comp. rewrite balance_errors_get by (apply Hwf2, Hwf1, wf_dict_nil).
  rewrite Hget2, Hget1. reflexivity.
Qed.

Lemma relative_error_facts (o i : Q) :
  0 < i ->
  ((o - i) / i == 0 <-> o == i)
  /\ (o == 0 -> (o - i) / i == - (1))
  /\ (0 <= o -> - (1) <= (o - i) / i).
Proof.
  intros Hpos.
  assert (Hnz : ~ i == 0).
  { intros H. rewrite H in Hpos. now apply (Qlt_irrefl 0). }
  split; [split|split].
  - intros H.
    assert (Hmul : o - i == (o - i) / i * i) by (field; assumption).
    rewrite H in Hmul.
    setoid_replace o with ((o - i) + i) by ring. rewrite Hmul. ring.
  - intros H. rewrite H. field. assumption.
  - intros H. rewrite H. field. assumption.
  - intros H. apply Qle_shift_div_l; [assumption|].
    setoid_replace (- (1) * i) with (0 + - i) by ring.
    unfold Qminus. apply Qplus_le_compat; [assumption | apply Qle_refl].
Qed.

(** X27: what a reported mass-balance error says.  On results whose
    compositions are dicts of numbers, a component is in the report only with
    a positive input total; its error is zero exactly when its output total
    equals its input total, it is -1 when no output stream carries the
    component, and it is never below -1 when the output total is not
    negative. *)
Theorem X27_mass_balance_error_range results :
  wf_dict results ->
  numeric_compositions results ->
  exists report,
    check_mass_balance results = Ok report
    /\ forall comp error,
         dict_get comp report = Some error ->
         0 < input_total comp results
         /\ (error == 0
             <-> output_total comp results == input_total comp results)
         /\ (output_total comp results == 0 -> error == - (1))
         /\ (0 <= output_total comp results -> - (1) <= error).
Proof.
  intros Hwf Hnum.
  destruct (check_mass_balance_report results Hwf Hnum)
    as (report & Hreport & Hget).
  exists report. split; [assumption|].
  intros comp error Herror. rewrite Hget in Herror.
  destruct (Qle_bool (input_total comp results) 0) eqn:Epos;
    [discriminate|].
  injection Herror as <-.
  assert (Hpos : 0 < input_total comp results).
  { apply Qnot_le_lt. intros Hle. apply Qle_bool_iff in Hle. congruence. }
  split; [assumption|]. now apply relative_error_facts.
Qed.

Lemma X27_witness :
  exists report,
    check_mass_balance feed_and_product = Ok report
    /\ forall comp error,
         dict_get comp report = Some error ->
         0 < input_total comp feed_and_product
         /\ (error == 0
             <-> output_total comp feed_and_product
                 == input_total comp feed_and_product)
         /\ (output_total comp feed_and_product == 0 -> error == - (1))
         /\ (0 <= output_total comp feed_and_product -> - (1) <= error).
Proof.
  apply (X27_mass_balance_error_range feed_and_product).
  - repeat constructor; cbn; intuition discriminate.
  - intros stream_id d v [H | [H | []]] Hv; injection H as <- <-;
      injection Hv as <-; eexists; (split; [reflexivity|]);
      intros comp flow [Hin | []]; injection Hin as <- <-; eexists;
      reflexivity.
Defined.

(** ** From the results to the verdicts *)

Lemma stream_properties_no_main_component d entry :
  stream_properties (VDict d) = Ok entry ->
  no_positive_flow d ->
  main_component_of entry = VNone.
Proof.
  unfold stream_properties, no_positive_flow, main_component_of.
  intros H Hflow. do 3 inv_bind H. unfold add_composition in H.
  cbn [py_get bind] in H.
  destruct (dict_get "composition" d) as [v|]; [|cbn in H; now inv_Ok].
  destruct v as [| q | s | composition];
    try (rewrite Hflow in H; now inv_Ok).
  destruct Hflow as (total & Hsum & Hle).
  destruct composition as [|item composition]; [cbn in H; now inv_Ok|].
  cbn [truthy py_items bind] in H. rewrite Hsum in H. cbn [bind] in H.
  rewrite mass_fractions_no_flow in H by now apply Qle_bool_iff.
  cbn in H. now inv_Ok.
Qed.

Lemma extract_streams_wf results product_streams acc product_properties :
  wf_dict acc ->
  foldM (extract_stream results) product_streams acc = Ok product_properties ->
  wf_dict product_properties.
Proof.
  apply foldM_invariant. intros a stream_id a' _ Hwf H.
  unfold extract_stream in H.
  destruct (dict_get stream_id results); [|now inv_Ok].
  inv_bind H. inv_Ok. now apply wf_dict_set.
Qed.

Lemma check_streams_without_main_component spec_dict product_properties acc :
  (forall stream_id properties,
      In (stream_id, properties) product_properties ->
      main_component_of properties = VNone) ->
  foldM (check_stream spec_dict) product_properties acc = Ok acc.
Proof.
  induction product_properties as [|[stream_id properties] rest IH];
    intros Hnone; [reflexivity|].
  cbn [foldM]. unfold check_stream at 1.
  rewrite (Hnone stream_id properties (or_introl eq_refl)). cbn.
  apply IH. intros s p Hin. apply (Hnone s p). now right.
Qed.

(** X28: a stream without a positive flow is never checked.  When none of
    the requested streams has a positive total flow (no composition, an
    empty one, or flows that add up to zero or less), the entries that
    [extract_product_properties] gives have no main component, and
    [check_specifications] on them returns the empty mapping whatever the
    specifications are: no verdict, and no failure either. *)
Theorem X28_streams_without_flow_are_not_checked results product_streams
    product_properties :
  extract_product_properties results product_streams = Ok product_properties ->
  (forall stream_id d,
      In stream_id product_streams ->
      dict_get stream_id results = Some (VDict d) ->
      no_positive_flow d) ->
  (forall stream_id entry,
      In (stream_id, entry) product_properties ->
      main_component_of entry = VNone)
  /\ forall specifications,
       check_specifications product_properties specifications = Ok [].
Proof.
  intros H Hflow.
  assert (Hnone : forall stream_id entry,
             In (stream_id, entry) product_properties ->
             main_component_of entry = VNone).
  { intros stream_id entry Hin.
    pose proof (extract_streams_wf _ _ _ _ wf_dict_nil H) as Hwf.
    apply (In_dict_get _ _ _ Hwf) in Hin.
    pose proof (extract_streams_get _ _ _ _ stream_id H) as Hget.
    destruct (existsb (String.eqb stream_id) product_streams) eqn:Ereq;
      [|cbn in Hget; congruence].
    destruct (dict_get stream_id results) as [stream_data|] eqn:Eres;
      [|cbn in Hget; congruence].
    destruct Hget as (properties & Hprops & Hget).
    rewrite Hin in Hget. injection Hget as <-.
    destruct stream_data as [| q | s | d]; try discriminate Hprops.
    apply (stream_properties_no_main_component d entry Hprops).
    apply (Hflow stream_id); [now apply existsb_eqb_In | exact Eres]. }
  split; [exact Hnone|].
  intros specifications. unfold check_specifications.
  now apply check_streams_without_main_component.
Qed.

Lemma X28_witness :
  check_specifications
    [("S1", [("temperature", VNum 300); ("pressure", VNone);
             ("state", VStr "liquid")]);
     ("S2", [("temperature", VNone); ("pressure", VNone);
             ("state", VStr "liquid"); ("composition", VDict []);
             ("main_component", VNone); ("purity", VNum 0)])]
    [ethanol_spec] = Ok [].
Proof.
  apply (X28_streams_without_flow_are_not_checked idle_results
           ["S1"; "S2"]).
  - reflexivity.
  - intros stream_id d [<- | [<- | []]] [= <-].
    + exact I.
    + exists (0 + 0). split; [reflexivity | discriminate].
Defined.
